(** * OTP verification screen and client-side rate limiter

    A shallow embedding of
      - [src/lib/rateLimitUtils.ts]  ([checkRateLimit], [clearRateLimit]),
      - [src/app/otp-verification.tsx] ([isValidOTP], [handleVerify],
        [handleResend]),
      - [lib/otpUtils] ([clearOTPData]),
    and the properties the specification states about them.

    Conventions.  A JavaScript string is a [string] (a list of bytes; the
    inputs of interest are ASCII).  A JavaScript number holding a timestamp
    or a counter is a [Z].  An [async] function is a program of the
    command monad [Prog]: every call that leaves the function (storage,
    remote service, alerts, navigation, React state setters, the clock, the
    console) is a command, answered by the environment.  The payload of a
    console message is left out; its label is kept. *)

From Stdlib Require Import ZArith List Ascii String Lia Bool.
From Stdlib Require Import DecimalString DecimalZ.
From stdpp Require Import base option gmap strings.

Import ListNotations.
Local Open Scope string_scope.
Local Open Scope Z_scope.

(* ===================================================================== *)
(** ** JavaScript strings *)
(* ===================================================================== *)

Module JSString.

(** [\d] of a regular expression without the [u] flag: the ten ASCII
    digits. *)
Definition is_digit (c : ascii) : bool :=
  ((48 <=? nat_of_ascii c) && (nat_of_ascii c <=? 57))%nat.

(** [\d{n}] applied at the head of [s]: the rest of the input after [n]
    digits, or no match. *)
Fixpoint match_digits (n : nat) (s : string) : option string :=
  match n with
  | O => Some s
  | S n' =>
      match s with
      | String c s' => if is_digit c then match_digits n' s' else None
      | EmptyString => None
      end
  end.

(** [String.prototype.toLowerCase], on the ASCII letters. *)
Definition lower (c : ascii) : ascii :=
  let n := nat_of_ascii c in
  if ((65 <=? n) && (n <=? 90))%nat then ascii_of_nat (n + 32) else c.

Fixpoint toLowerCase (s : string) : string :=
  match s with
  | EmptyString => EmptyString
  | String c s' => String (lower c) (toLowerCase s')
  end.

(** [String.prototype.includes]. *)
Fixpoint includes (s needle : string) : bool :=
  if String.prefix needle s then true
  else match s with
       | EmptyString => false
       | String _ s' => includes s' needle
       end.

End JSString.

(* ===================================================================== *)
(** ** OTPCodeValidator: [isValidOTP] *)
(* ===================================================================== *)

(** [const isValidOTP = (otp) => /^\d{6}$/.test(otp)]: from the start of
    the input ([^]) six digits, then the end of the input ([$], which
    without the [m] flag is the very end: a trailing newline is not
    skipped). *)
Definition isValidOTP (otp : string) : bool :=
  match JSString.match_digits 6 otp with
  | Some EmptyString => true
  | _ => false
  end.

(** The specification's wording of the same check: exactly six characters,
    each an ASCII decimal digit. *)
Definition ascii_decimal_digit (c : ascii) : Prop :=
  (nat_of_ascii "0" <= nat_of_ascii c <= nat_of_ascii "9")%nat.

Definition six_ascii_digits (code : string) : Prop :=
  String.length code = 6%nat /\
  Forall ascii_decimal_digit (list_ascii_of_string code).

(* ===================================================================== *)
(** ** Data model *)
(* ===================================================================== *)

(** [interface RateLimitData { lastRequest: number; requestCount: number;
    blockedUntil?: number }]. *)
Record RateLimitData := {
  lastRequest : Z;
  requestCount : Z;
  blockedUntil : option Z
}.

(** The value [checkRateLimit] resolves to:
    [{ allowed: boolean; waitTime?: number }]. *)
Record RateLimitResult := {
  allowed : bool;
  waitTime : option Z
}.

(** The screen's flow, [useState<'register' | 'reset'>]. *)
Inductive FlowType := register | reset.

(** The [type] argument of [supabase.auth.verifyOtp] and
    [supabase.auth.resend] for e-mail codes. *)
Module OtpType.
Inductive t := signup | invite | magiclink | recovery | email_change | email.
End OtpType.

(** The outcome of awaiting a promise: resolved with a value, or rejected
    (an exception at the [await]). *)
Inductive result (A : Type) : Type :=
| Ok (a : A)
| Throw (e : string).
Arguments Ok {A} a.
Arguments Throw {A} e.

(** [{ data: { user, session }, error }] of [verifyOtp]: the user's id when
    a user is present, whether a session is present, the error's message
    when there is an error. *)
Record VerifyOtpResponse := {
  data_user : option string;
  data_session : bool;
  error_message : option string
}.

(** [{ data: { session }, error }] of [getSession]: the session's user id
    when a session is present, the error's message when there is one. *)
Record GetSessionResponse := {
  sessionData_session : option string;
  sessionError : option string
}.

(** The React state of [OTPVerificationScreen]. *)
Record Screen := {
  loading : bool;
  resendTimer : Z;
  resendDisabled : bool;
  verifying : bool;
  enteredOtp : string;
  email : string;
  type : FlowType
}.

(* ===================================================================== *)
(** ** Commands and programs *)
(* ===================================================================== *)

(** Everything the modelled functions ask of their surroundings. *)
Inductive Cmd :=
| AsyncStorage_getItem (key : string)
| AsyncStorage_setItem (key value : string)
| AsyncStorage_removeItem (key : string)
| Date_now
| auth_verifyOtp (email token : string) (type : OtpType.t)
| auth_getSession
| auth_resend (type : OtpType.t) (email : string)
| auth_resetPasswordForEmail (email : string)
| Alert_alert (title message : string)
| router_push (href : string)
| console_log (message : string)
| console_error (message : string)
| setLoading (b : bool)
| setVerifying (b : bool)
| setResendTimer (n : Z)
| setResendDisabled (b : bool).

(** What each command answers.  The asynchronous ones answer a [result]:
    their promise may reject.  [resend] and [resetPasswordForEmail] answer
    [{ error }], kept as the error's message. *)
Definition Resp (c : Cmd) : Type :=
  match c with
  | AsyncStorage_getItem _ => result (option string)
  | AsyncStorage_setItem _ _ => result unit
  | AsyncStorage_removeItem _ => result unit
  | Date_now => Z
  | auth_verifyOtp _ _ _ => result VerifyOtpResponse
  | auth_getSession => result GetSessionResponse
  | auth_resend _ _ => result (option string)
  | auth_resetPasswordForEmail _ => result (option string)
  | _ => unit
  end.

(** A command is asynchronous when the caller [await]s it. *)
Definition is_async (c : Cmd) : bool :=
  match c with
  | AsyncStorage_getItem _ | AsyncStorage_setItem _ _
  | AsyncStorage_removeItem _
  | auth_verifyOtp _ _ _ | auth_getSession
  | auth_resend _ _ | auth_resetPasswordForEmail _ => true
  | _ => false
  end.

Inductive Prog (A : Type) : Type :=
| Ret (a : A)
| Vis (c : Cmd) (k : Resp c -> Prog A).
Arguments Ret {A} a.
Arguments Vis {A} c k.

Fixpoint bind {A B : Type} (p : Prog A) (f : A -> Prog B) : Prog B :=
  match p with
  | Ret a => f a
  | Vis c k => Vis c (fun x => bind (k x) f)
  end.

Definition perform (c : Cmd) : Prog (Resp c) := Vis c Ret.

(** Programs in which an exception may be in flight: the body of an
    [async] function. *)
Definition Exc (A : Type) : Type := Prog (result A).

Definition ret {A : Type} (a : A) : Exc A := Ret (Ok a).

Definition bindE {A B : Type} (p : Exc A) (f : A -> Exc B) : Exc B :=
  bind p (fun r => match r with Ok a => f a | Throw e => Ret (Throw e) end).

(** [await c]: the answer of an asynchronous command, or its rejection
    raised here. *)
Definition await {X : Type} (p : Prog (result X)) : Exc X := p.

(** A command that cannot fail. *)
Definition call (c : Cmd) : Exc (Resp c) := bind (perform c) ret.

(** A pure computation that may throw ([JSON.parse]). *)
Definition eval {A : Type} (r : result A) : Exc A := Ret r.

(** [try { body } catch (error) { handler }]. *)
Definition try_catch {A : Type} (body : Exc A) (handler : string -> Exc A)
  : Exc A :=
  bind body (fun r => match r with Ok a => Ret (Ok a) | Throw e => handler e end).

(** [try { body } finally { fin }], for a [fin] that cannot fail. *)
Definition try_finally {A : Type} (body : Exc A) (fin : Exc unit) : Exc A :=
  bind body (fun r => bind fin (fun _ => Ret r)).

Declare Scope js_scope.
Delimit Scope js_scope with js.
Notation "x <- c1 ;; c2" := (bindE c1 (fun x => c2))
  (at level 100, c1 at next level, right associativity) : js_scope.
Notation "c1 ;; c2" := (bindE c1 (fun _ => c2))
  (at level 100, right associativity) : js_scope.

(* ===================================================================== *)
(** ** The surroundings: persistent storage, screen state, environment *)
(* ===================================================================== *)

(** What persists between commands: the contents of [AsyncStorage] and the
    React state of the screen. *)
Record World := {
  storage : gmap string string;
  screen : Screen
}.

(** What the surroundings decide: the clock, whether a storage operation
    on a key rejects (with which reason), and the replies of the remote
    authentication service. *)
Record Env := {
  now : Z;
  getItem_fault : string -> option string;
  setItem_fault : string -> option string;
  removeItem_fault : string -> option string;
  verifyOtp : string -> string -> OtpType.t -> result VerifyOtpResponse;
  getSession : result GetSessionResponse;
  resend : OtpType.t -> string -> result (option string);
  resetPasswordForEmail : string -> result (option string)
}.

Definition set_storage (m : gmap string string) (w : World) : World :=
  {| storage := m; screen := screen w |}.

Definition set_screen (s : Screen) (w : World) : World :=
  {| storage := storage w; screen := s |}.

Definition with_loading (b : bool) (s : Screen) : Screen :=
  {| loading := b; resendTimer := resendTimer s;
     resendDisabled := resendDisabled s; verifying := verifying s;
     enteredOtp := enteredOtp s; email := email s; type := type s |}.

Definition with_verifying (b : bool) (s : Screen) : Screen :=
  {| loading := loading s; resendTimer := resendTimer s;
     resendDisabled := resendDisabled s; verifying := b;
     enteredOtp := enteredOtp s; email := email s; type := type s |}.

Definition with_resendTimer (n : Z) (s : Screen) : Screen :=
  {| loading := loading s; resendTimer := n;
     resendDisabled := resendDisabled s; verifying := verifying s;
     enteredOtp := enteredOtp s; email := email s; type := type s |}.

Definition with_resendDisabled (b : bool) (s : Screen) : Screen :=
  {| loading := loading s; resendTimer := resendTimer s;
     resendDisabled := b; verifying := verifying s;
     enteredOtp := enteredOtp s; email := email s; type := type s |}.

(** The answer to a command and its effect on the world.  A storage
    operation that rejects leaves the storage as it was. *)
Definition answer (env : Env) (c : Cmd) (w : World) : Resp c * World :=
  match c return Resp c * World with
  | AsyncStorage_getItem key =>
      match getItem_fault env key with
      | Some e => (Throw e, w)
      | None => (Ok (storage w !! key), w)
      end
  | AsyncStorage_setItem key value =>
      match setItem_fault env key with
      | Some e => (Throw e, w)
      | None => (Ok tt, set_storage (<[key := value]> (storage w)) w)
      end
  | AsyncStorage_removeItem key =>
      match removeItem_fault env key with
      | Some e => (Throw e, w)
      | None => (Ok tt, set_storage (delete key (storage w)) w)
      end
  | Date_now => (now env, w)
  | auth_verifyOtp e token ty => (verifyOtp env e token ty, w)
  | auth_getSession => (getSession env, w)
  | auth_resend ty e => (resend env ty e, w)
  | auth_resetPasswordForEmail e => (resetPasswordForEmail env e, w)
  | Alert_alert _ _ => (tt, w)
  | router_push _ => (tt, w)
  | console_log _ => (tt, w)
  | console_error _ => (tt, w)
  | setLoading b => (tt, set_screen (with_loading b (screen w)) w)
  | setVerifying b => (tt, set_screen (with_verifying b (screen w)) w)
  | setResendTimer n => (tt, set_screen (with_resendTimer n (screen w)) w)
  | setResendDisabled b => (tt, set_screen (with_resendDisabled b (screen w)) w)
  end.

(** Running a program to its end, one command after the other: the value,
    the world it leaves, and the commands it issued, in order. *)
Fixpoint run {A : Type} (env : Env) (p : Prog A) (w : World)
  : A * World * list Cmd :=
  match p with
  | Ret a => (a, w, [])
  | Vis c k =>
      let '(x, w1) := answer env c w in
      let '(a, w2, tr) := run env (k x) w1 in
      (a, w2, c :: tr)
  end.

Definition value_of {A : Type} (r : A * World * list Cmd) : A := fst (fst r).
Definition world_of {A : Type} (r : A * World * list Cmd) : World := snd (fst r).
Definition trace_of {A : Type} (r : A * World * list Cmd) : list Cmd := snd r.

(* ===================================================================== *)
(** ** JSON *)
(* ===================================================================== *)

(** [JSON.stringify] and [JSON.parse] at a record type [A], with the two
    facts about them the code relies on: a record that was written is read
    back as it was, and the text of a record is not the empty string (it
    is truthy).  On any other text [JSON_parse] either throws or yields
    some record: nothing is assumed about which. *)
Class JSON (A : Type) := {
  JSON_stringify : A -> string;
  JSON_parse : string -> result A;
  JSON_parse_stringify : forall a, JSON_parse (JSON_stringify a) = Ok a;
  JSON_stringify_truthy : forall a, JSON_stringify a <> ""
}.

(** Truthiness of the value [getItem] resolves to: [null] and the empty
    string are falsy. *)
Definition truthy (data : option string) : bool :=
  match data with
  | None => false
  | Some EmptyString => false
  | Some _ => true
  end.

(** [Math.ceil(n / d)] for integers [n] and [d > 0]. *)
Definition Math_ceil_div (n d : Z) : Z := - ((- n) / d).

(* ===================================================================== *)
(** ** RateLimitGuard: [src/lib/rateLimitUtils.ts] *)
(* ===================================================================== *)

Definition RATE_LIMIT_KEY : string := "rate_limit_data".
Definition MAX_REQUESTS_PER_MINUTE : Z := 3.
Definition BLOCK_DURATION : Z := 5 * 60 * 1000.

(** The storage key of an action: [`${RATE_LIMIT_KEY}_${action}`]. *)
Definition rate_limit_key (action : string) : string :=
  RATE_LIMIT_KEY ++ "_" ++ action.

Section RateLimitGuard.
Context `{JSON RateLimitData}.
Local Open Scope js_scope.

Definition checkRateLimit (action : string) : Exc RateLimitResult :=
  try_catch
    (let key := rate_limit_key action in
     data <- await (perform (AsyncStorage_getItem key)) ;;
     now <- call Date_now ;;
     if negb (truthy data) then
       (* First request *)
       await (perform (AsyncStorage_setItem key (JSON_stringify
         {| lastRequest := now; requestCount := 1; blockedUntil := None |}))) ;;
       ret {| allowed := true; waitTime := None |}
     else
       rateLimitData <- eval (JSON_parse (default "" data)) ;;
       (* Check if currently blocked *)
       if match blockedUntil rateLimitData with
          | Some b => negb (b =? 0) && (now <? b)
          | None => false
          end
       then
         ret {| allowed := false;
                waitTime := Some (Math_ceil_div
                  (default 0 (blockedUntil rateLimitData) - now) 1000) |}
       else
       (* Reset if more than 1 minute has passed *)
       if now - lastRequest rateLimitData >? 60 * 1000 then
         await (perform (AsyncStorage_setItem key (JSON_stringify
           {| lastRequest := now; requestCount := 1; blockedUntil := None |}))) ;;
         ret {| allowed := true; waitTime := None |}
       else
       (* Check if within rate limit *)
       if requestCount rateLimitData <? MAX_REQUESTS_PER_MINUTE then
         await (perform (AsyncStorage_setItem key (JSON_stringify
           {| lastRequest := now;
              requestCount := requestCount rateLimitData + 1;
              blockedUntil := None |}))) ;;
         ret {| allowed := true; waitTime := None |}
       else
         (* Rate limit exceeded, block for 5 minutes *)
         let blockedUntil := now + BLOCK_DURATION in
         await (perform (AsyncStorage_setItem key (JSON_stringify
           {| lastRequest := now;
              requestCount := requestCount rateLimitData + 1;
              blockedUntil := Some blockedUntil |}))) ;;
         ret {| allowed := false;
                waitTime := Some (Math_ceil_div BLOCK_DURATION 1000) |})
    (fun error =>
       call (console_error "Rate limit check error:") ;;
       ret {| allowed := true; waitTime := None |}) (* Allow if there's an error *).

Definition clearRateLimit (action : string) : Exc unit :=
  try_catch
    (let key := rate_limit_key action in
     await (perform (AsyncStorage_removeItem key)))
    (fun error => call (console_error "Clear rate limit error:")).

End RateLimitGuard.

(* ===================================================================== *)
(** ** A JSON codec for rate-limit records *)
(* ===================================================================== *)

(** The text [JSON.stringify] produces for a [RateLimitData] with integer
    fields, and a reader for exactly these texts.  It is the instance of
    [JSON] at which the statements below are evaluated on concrete
    inputs. *)
Module CanonicalJSON.

Definition dq : string := String (ascii_of_nat 34) EmptyString.

Definition show_Z (z : Z) : string := NilZero.string_of_int (Z.to_int z).

Definition read_Z (s : string) : option Z :=
  option_map Z.of_int (NilZero.int_of_string s).

Definition is_numeric (c : ascii) : bool :=
  JSString.is_digit c || Ascii.eqb c "-".

Fixpoint span_number (s : string) : string * string :=
  match s with
  | String c s' =>
      if is_numeric c
      then let '(a, r) := span_number s' in (String c a, r)
      else (EmptyString, s)
  | EmptyString => (EmptyString, EmptyString)
  end.

Definition number (s : string) : option (Z * string) :=
  let '(a, r) := span_number s in
  match read_Z a with
  | Some z => Some (z, r)
  | None => None
  end.

Fixpoint strip (p s : string) : option string :=
  match p, s with
  | EmptyString, _ => Some s
  | String a p', String b s' => if Ascii.eqb a b then strip p' s' else None
  | String _ _, EmptyString => None
  end.

(** The fixed pieces of the text: [{"lastRequest":], [,"requestCount":]
    and [,"blockedUntil":]. *)
Definition open_lastRequest : string :=
  "{" ++ dq ++ "lastRequest" ++ dq ++ ":".
Definition sep_requestCount : string :=
  "," ++ dq ++ "requestCount" ++ dq ++ ":".
Definition sep_blockedUntil : string :=
  "," ++ dq ++ "blockedUntil" ++ dq ++ ":".

Definition stringify (r : RateLimitData) : string :=
  open_lastRequest ++ show_Z (lastRequest r) ++
  sep_requestCount ++ show_Z (requestCount r) ++
  match blockedUntil r with
  | Some b => sep_blockedUntil ++ show_Z b ++ "}"
  | None => "}"
  end.

Definition syntax_error : string := "SyntaxError".

Definition parse (s : string) : result RateLimitData :=
  match strip open_lastRequest s with
  | None => Throw syntax_error
  | Some s1 =>
  match number s1 with
  | None => Throw syntax_error
  | Some (a, s2) =>
  match strip sep_requestCount s2 with
  | None => Throw syntax_error
  | Some s3 =>
  match number s3 with
  | None => Throw syntax_error
  | Some (b, s4) =>
      if String.eqb s4 "}" then
        Ok {| lastRequest := a; requestCount := b; blockedUntil := None |}
      else
        match strip sep_blockedUntil s4 with
        | None => Throw syntax_error
        | Some s5 =>
        match number s5 with
        | None => Throw syntax_error
        | Some (c, s6) =>
            if String.eqb s6 "}" then
              Ok {| lastRequest := a; requestCount := b;
                    blockedUntil := Some c |}
            else Throw syntax_error
        end
        end
  end
  end
  end
  end.

End CanonicalJSON.

(* ===================================================================== *)
(** ** PendingVerificationStore: [lib/otpUtils] *)
(* ===================================================================== *)

Definition OTP_STORAGE_KEY : string := "otp_verification_data".

Section Controller.
Local Open Scope js_scope.

Definition clearOTPData : Exc unit :=
  try_catch
    (await (perform (AsyncStorage_removeItem OTP_STORAGE_KEY)))
    (fun error => call (console_error "Error clearing OTP data:")).

(* ===================================================================== *)
(** ** VerificationController: [src/app/otp-verification.tsx] *)
(* ===================================================================== *)

(** [handleVerify], as the closure of a render whose state is [s]: the
    values of [verifying], [email] and [type] it reads are those of
    that render. *)
Definition handleVerify (s : Screen) (otp : string) : Exc unit :=
  if verifying s then ret tt else
  (* Validate OTP format first *)
  if negb (isValidOTP otp) then
    call (Alert_alert "Invalid Format"
            "Please enter a valid 6-digit verification code.") ;;
    ret tt
  else
  call (setVerifying true) ;;
  call (setLoading true) ;;
  try_finally
    (try_catch
       (call (console_log "🔐 Starting OTP verification:") ;;
        (* Determine correct verification type based on registration flow *)
        let verificationType :=
          match type s with
          | register => OtpType.signup
          | reset => OtpType.recovery
          end in
        call (console_log "📧 Using verification type:") ;;
        (* Verify OTP with correct type *)
        r <- await (perform (auth_verifyOtp (email s) otp verificationType)) ;;
        call (console_log "✅ Verification response:") ;;
        match error_message r with
        | Some message =>
            (* Handle verification errors *)
            call (console_error "❌ Verification failed:") ;;
            if JSString.includes (JSString.toLowerCase message) "expired" then
              call (Alert_alert "Code Expired"
                "Your verification code has expired. Please request a new one.")
            else if JSString.includes (JSString.toLowerCase message) "invalid"
                 || JSString.includes (JSString.toLowerCase message) "token" then
              call (Alert_alert "Invalid Code"
                "The verification code you entered is incorrect. Please try again.")
            else if JSString.includes (JSString.toLowerCase message) "rate limit" then
              call (Alert_alert "Too Many Attempts"
                "You have made too many verification attempts. Please wait before trying again.")
            else
              call (Alert_alert "Verification Failed" message)
        | None =>
            (* Check if verification was successful *)
            if negb (bool_decide (is_Some (data_user r))) && negb (data_session r) then
              call (console_error "❌ No user or session returned") ;;
              call (Alert_alert "Verification Error"
                "Verification completed but no user session was created. Please try again.")
            else
              call (console_log "🎉 Verification successful! User ID:") ;;
              (* Fetch the latest session to ensure we have current auth state *)
              q <- await (perform auth_getSession) ;;
              match sessionError q with
              | Some _ =>
                  call (console_error "❌ Session fetch error:") ;;
                  call (Alert_alert "Session Error"
                    "Failed to retrieve user session. Please try logging in.") ;;
                  call (router_push "/login")
              | None =>
                  match sessionData_session q with
                  | None =>
                      call (console_error "❌ No session found after verification") ;;
                      call (Alert_alert "Session Error"
                        "No active session found. Please try logging in.") ;;
                      call (router_push "/login")
                  | Some _ =>
                      call (console_log "✅ Session confirmed:") ;;
                      (* Clear stored OTP data *)
                      clearOTPData ;;
                      (* Show success message and redirect *)
                      call (Alert_alert "🎉 Verification Successful!"
                        match type s with
                        | register =>
                            "Your account has been verified successfully. Welcome!"
                        | reset =>
                            "Your identity has been verified successfully."
                        end)
                  end
              end
        end)
       (fun err =>
          call (console_error "💥 Verification exception:") ;;
          call (Alert_alert "Verification Error"
            "An unexpected error occurred during verification. Please try again.")))
    (call (setLoading false) ;;
     call (setVerifying false)).

(** [handleResend], as the closure of a render whose state is [s]. *)
Definition handleResend (s : Screen) : Exc unit :=
  if resendDisabled s then ret tt else
  call (setLoading true) ;;
  try_finally
    (try_catch
       (call (console_log "📤 Resending OTP for:") ;;
        error <-
          match type s with
          | register =>
              (* For registration, use resend with signup type *)
              call (console_log "📧 Using resend for signup flow") ;;
              await (perform (auth_resend OtpType.signup (email s)))
          | reset =>
              (* For password reset, use resetPasswordForEmail *)
              call (console_log "📧 Using resetPasswordForEmail for reset flow") ;;
              await (perform (auth_resetPasswordForEmail (email s)))
          end ;;
        match error with
        | Some message =>
            call (console_error "❌ Resend failed:") ;;
            (* Handle specific resend errors *)
            if JSString.includes (JSString.toLowerCase message) "rate limit"
               || JSString.includes (JSString.toLowerCase message) "too many requests" then
              call (Alert_alert "Rate Limited"
                "You have requested too many codes. Please wait a few minutes before requesting another one.") ;;
              (* Set a longer timer for rate limiting *)
              call (setResendTimer 300) ;; (* 5 minutes *)
              call (setResendDisabled true)
            else if JSString.includes (JSString.toLowerCase message) "user not found" then
              call (Alert_alert "User Not Found"
                "No user found with this email address. Please check your email or register a new account.")
            else
              call (Alert_alert "Resend Failed" message)
        | None =>
            call (console_log "✅ OTP resent successfully") ;;
            (* Start resend cooldown timer (30 seconds for normal operation) *)
            let cooldownTime := 30 in
            call (setResendTimer cooldownTime) ;;
            call (setResendDisabled true) ;;
            call (Alert_alert "📧 Code Sent!"
              ("A new verification code has been sent to " ++ email s ++
               ". Please check your inbox and spam folder."))
        end)
       (fun err =>
          call (console_error "💥 Resend exception:") ;;
          call (Alert_alert "Resend Error"
            "An unexpected error occurred while sending the code. Please try again later.")))
    (call (setLoading false)).

End Controller.

(* ===================================================================== *)
(** ** The event loop: calls that overlap *)
(* ===================================================================== *)

(** A call of an [async] function waiting at an [await]: the command it
    has issued, and what it does with the answer. *)
Record Suspended := {
  pending : Cmd;
  resume : Resp pending -> Exc unit
}.

(** Running a call up to its next [await] (or its end): the synchronous
    commands take effect at once; an asynchronous command is issued, and
    the call waits for its answer. *)
Fixpoint advance (env : Env) (p : Exc unit) (w : World)
  : option Suspended * World * list Cmd :=
  match p with
  | Ret _ => (None, w, [])
  | Vis c k =>
      if is_async c then (Some {| pending := c; resume := k |}, w, [c])
      else
        let '(x, w1) := answer env c w in
        let '(t, w2, tr) := advance env (k x) w1 in
        (t, w2, c :: tr)
  end.

(** The screen between two events: its world, the calls that wait, and
    the commands issued so far. *)
Record Loop := {
  world : World;
  waiting : list Suspended;
  issued : list Cmd
}.

(** An event: [handleVerify otp] is triggered (by the auto-submit of the
    code input or by the button) with the state of the current render, or
    the [i]-th waiting call receives its answer. *)
Inductive Event :=
| Trigger (otp : string)
| Settle (i : nat).

(** A waiting call receives the answer to its command and runs on. *)
Definition settle (env : Env) (t : Suspended) (w : World)
  : option Suspended * World * list Cmd :=
  let '(x, w1) := answer env (pending t) w in
  advance env (resume t x) w1.

Definition step (l : Loop) (ev : Env * Event) : Loop :=
  let '(env, e) := ev in
  match e with
  | Trigger otp =>
      let '(t, w, tr) :=
        advance env (handleVerify (screen (world l)) otp) (world l) in
      {| world := w;
         waiting := waiting l ++ option_list t;
         issued := issued l ++ tr |}
  | Settle i =>
      match waiting l !! i with
      | None => l
      | Some t =>
          let '(t', w2, tr) := settle env t (world l) in
          {| world := w2;
             waiting := delete i (waiting l) ++ option_list t';
             issued := issued l ++ tr |}
      end
  end.

Definition loop (l : Loop) (evs : list (Env * Event)) : Loop :=
  fold_left step evs l.

Definition idle (w : World) : Loop :=
  {| world := w; waiting := []; issued := [] |}.

Definition is_verifyOtp (c : Cmd) : bool :=
  match c with auth_verifyOtp _ _ _ => true | _ => false end.

Definition is_alert (c : Cmd) : bool :=
  match c with Alert_alert _ _ => true | _ => false end.

Definition is_remote (c : Cmd) : bool :=
  match c with
  | auth_verifyOtp _ _ _ | auth_getSession
  | auth_resend _ _ | auth_resetPasswordForEmail _ => true
  | _ => false
  end.

Definition is_storage (c : Cmd) : bool :=
  match c with
  | AsyncStorage_getItem _ | AsyncStorage_setItem _ _
  | AsyncStorage_removeItem _ => true
  | _ => false
  end.

Definition count (f : Cmd -> bool) (tr : list Cmd) : nat :=
  length (List.filter f tr).

(* ===================================================================== *)
(** ** The specification's vocabulary *)
(* ===================================================================== *)

(** The outcomes the specification names, and the alert by which the
    screen signals each. *)
Inductive ResultKind :=
| Success | ExpiredCode | InvalidCode | RateLimited | UserNotFound
| SessionMissing | NetworkOrUnknown.

Definition resultKind_of_alert (title : string) : option ResultKind :=
  if String.eqb title "🎉 Verification Successful!" then Some Success
  else if String.eqb title "Code Expired" then Some ExpiredCode
  else if String.eqb title "Invalid Code" then Some InvalidCode
  else if String.eqb title "Invalid Format" then Some InvalidCode
  else if String.eqb title "Too Many Attempts" then Some RateLimited
  else if String.eqb title "Rate Limited" then Some RateLimited
  else if String.eqb title "User Not Found" then Some UserNotFound
  else if String.eqb title "Session Error" then Some SessionMissing
  else if String.eqb title "Verification Failed" then Some NetworkOrUnknown
  else if String.eqb title "Verification Error" then Some NetworkOrUnknown
  else if String.eqb title "Resend Failed" then Some NetworkOrUnknown
  else if String.eqb title "Resend Error" then Some NetworkOrUnknown
  else None.

(** The outcomes a trace signals, in order. *)
Definition outcomes (tr : list Cmd) : list ResultKind :=
  omap (fun c => match c with
                 | Alert_alert title _ => resultKind_of_alert title
                 | _ => None
                 end) tr.

(** The specification's classification of a remote error text: contains
    "expired", ExpiredCode; else contains "invalid" or "token",
    InvalidCode; else contains "rate limit", RateLimited; else
    NetworkOrUnknown; the matching is case-insensitive. *)
Definition classify_error (message : string) : ResultKind :=
  let text := JSString.toLowerCase message in
  if JSString.includes text "expired" then ExpiredCode
  else if JSString.includes text "invalid" || JSString.includes text "token"
  then InvalidCode
  else if JSString.includes text "rate limit" then RateLimited
  else NetworkOrUnknown.

(* ===================================================================== *)
(** ** Auxiliary definitions for the statements *)
(* ===================================================================== *)

(** The block recorded in [r] is in force at time [now]: the test
    [rateLimitData.blockedUntil && now < rateLimitData.blockedUntil]. *)
Definition block_in_force (now : Z) (r : RateLimitData) : bool :=
  match blockedUntil r with
  | Some b => negb (b =? 0) && (now <? b)
  | None => false
  end.

(** What a check does with the record it has read at time [now]: the
    value it resolves to and the record it writes, if it writes. *)
Definition verdict (now : Z) (r : RateLimitData)
  : RateLimitResult * option RateLimitData :=
  if block_in_force now r then
    ({| allowed := false;
        waitTime := Some (Math_ceil_div (default 0 (blockedUntil r) - now) 1000) |},
     None)
  else if now - lastRequest r >? 60 * 1000 then
    ({| allowed := true; waitTime := None |},
     Some {| lastRequest := now; requestCount := 1; blockedUntil := None |})
  else if requestCount r <? MAX_REQUESTS_PER_MINUTE then
    ({| allowed := true; waitTime := None |},
     Some {| lastRequest := now; requestCount := requestCount r + 1;
             blockedUntil := None |})
  else
    ({| allowed := false; waitTime := Some (Math_ceil_div BLOCK_DURATION 1000) |},
     Some {| lastRequest := now; requestCount := requestCount r + 1;
             blockedUntil := Some (now + BLOCK_DURATION) |}).

(** The records the guard leaves behind: a window of one to three
    requests without a block, or the four requests of a block installed at
    the (non-negative) time of the last of them. *)
Definition window_ok (r : RateLimitData) : Prop :=
  (1 <= requestCount r <= 3 /\ blockedUntil r = None) \/
  (requestCount r = 4 /\ 0 <= lastRequest r /\
   blockedUntil r = Some (lastRequest r + 300 * 1000)).

(** The storage answers: neither reading nor writing rejects. *)
Definition storage_up (env : Env) : Prop :=
  forall key, getItem_fault env key = None /\ setItem_fault env key = None.

(** The world after [AsyncStorage.setItem(key, value)]. *)
Definition write (key value : string) (w : World) : World :=
  set_storage (<[key := value]> (storage w)) w.

(** One check after the other, each in its own environment (its own
    clock reading): the world they leave. *)
Definition checks `{JSON RateLimitData} (action : string)
    (envs : list Env) (w : World) : World :=
  fold_left (fun w env => world_of (run env (checkRateLimit action) w)) envs w.

(** The stored record of an action, when there is one, is in the shape the
    guard leaves behind. *)
Definition record_ok `{JSON RateLimitData} (action : string) (w : World) : Prop :=
  match storage w !! rate_limit_key action with
  | None => True
  | Some d => exists r, d = JSON_stringify r /\ window_ok r
  end.

(** The outcome of a check in environment [e] made after the checks
    [envs]. *)
Definition check_after `{JSON RateLimitData} (action : string)
    (envs : list Env) (w : World) (e : Env)
  : result RateLimitResult * World * list Cmd :=
  run e (checkRateLimit action) (checks action envs w).

(** One verification attempt after the other, each with its own code and
    environment, each triggered with the state the screen has by then:
    the world they leave and all the commands they issued. *)
Definition attempts (tries : list (Env * string)) (w : World)
  : World * list Cmd :=
  fold_left
    (fun acc t =>
       let o := run (fst t) (handleVerify (screen (fst acc)) (snd t)) (fst acc) in
       (world_of o, (snd acc ++ trace_of o)%list))
    tries (w, []).

(** One resend after the other, likewise, with no tick of the cooldown
    timer in between: each is triggered with the state the one before it
    has left. *)
Definition resends (envs : list Env) (w : World) : World * list Cmd :=
  fold_left
    (fun acc env =>
       let o := run env (handleResend (screen (fst acc))) (fst acc) in
       (world_of o, (snd acc ++ trace_of o)%list))
    envs (w, []).

(** The discriminator the specification requires for each flow:
    Registration uses the ["signup"] verification type, Recovery the
    ["recovery"] one. *)
Definition flow_discriminator (t : FlowType) : OtpType.t :=
  match t with
  | register => OtpType.signup
  | reset => OtpType.recovery
  end.

Definition is_getSession (c : Cmd) : bool :=
  match c with auth_getSession => true | _ => false end.

(** The alert by which [handleVerify] signals success. *)
Definition is_success (c : Cmd) : bool :=
  match c with
  | Alert_alert title _ => String.eqb title "🎉 Verification Successful!"
  | _ => false
  end.

(** No command satisfying [g] is issued before one satisfying [f] has
    been. *)
Fixpoint preceded_by (f g : Cmd -> bool) (tr : list Cmd) : bool :=
  match tr with
  | [] => true
  | c :: tr' =>
      if f c then true
      else if g c then false
      else preceded_by f g tr'
  end.

(** A verification under way: a waiting call that, while the in-progress
    flag is up, makes no further remote verification and, within [n]
    answers, signals exactly one outcome and lowers the flag. *)
Fixpoint in_flight (n : nat) (t : Suspended) : Prop :=
  match n with
  | O => False
  | S n' =>
      forall env w, verifying (screen w) = true ->
        count is_verifyOtp (snd (settle env t w)) = 0%nat /\
        match fst (fst (settle env t w)) with
        | None =>
            count is_alert (snd (settle env t w)) = 1%nat /\
            verifying (screen (snd (fst (settle env t w)))) = false
        | Some t' =>
            count is_alert (snd (settle env t w)) = 0%nat /\
            verifying (screen (snd (fst (settle env t w)))) = true /\
            in_flight n' t'
        end
  end.

(** The screen is at rest, or exactly one verification is under way;
    either way every remote verification issued so far is matched by the
    one outcome signalled for it, but for the one under way. *)
Definition single_flight (l : Loop) : Prop :=
  (waiting l = [] /\ verifying (screen (world l)) = false /\
   count is_verifyOtp (issued l) = count is_alert (issued l)) \/
  (exists t n, waiting l = [t] /\ in_flight n t /\
     verifying (screen (world l)) = true /\
     count is_verifyOtp (issued l) = S (count is_alert (issued l))).

Arguments in_flight : simpl never.
Arguments settle : simpl never.

(** An event that triggers a verification. *)
Definition is_trigger (ev : Env * Event) : Prop :=
  match snd ev with Trigger _ => True | Settle _ => False end.

(** What the remote service answers to the resend of the screen's flow:
    [resend({ type: 'signup', email })] for a registration,
    [resetPasswordForEmail(email)] for a reset. *)
Definition resend_command (s : Screen) : Cmd :=
  match type s with
  | register => auth_resend OtpType.signup (email s)
  | reset => auth_resetPasswordForEmail (email s)
  end.

Definition resend_reply (env : Env) (s : Screen) : result (option string) :=
  match type s with
  | register => resend env OtpType.signup (email s)
  | reset => resetPasswordForEmail env (email s)
  end.

(** The remote error texts [handleResend] reads as rate limiting. *)
Definition reports_rate_limit (message : string) : bool :=
  JSString.includes (JSString.toLowerCase message) "rate limit"
  || JSString.includes (JSString.toLowerCase message) "too many requests".

(** The events of a schedule that trigger a verification carry the code
    [otp]. *)
Definition triggers_of (otp : string) (evs : list (Env * Event)) : Prop :=
  Forall (fun ev => match snd ev with
                    | Trigger otp' => otp' = otp
                    | Settle _ => True
                    end) evs.

(** Environments and worlds for concrete instances of the statements. *)
Module Sample.

(** A remote service that cannot be reached: every call rejects. *)
Definition offline (t : Z) : Env :=
  {| now := t;
     getItem_fault := fun _ => None;
     setItem_fault := fun _ => None;
     removeItem_fault := fun _ => None;
     verifyOtp := fun _ _ _ => Throw "Network request failed";
     getSession := Throw "Network request failed";
     resend := fun _ _ => Throw "Network request failed";
     resetPasswordForEmail := fun _ => Throw "Network request failed" |}.

(** A remote service with the given replies, at time [t]. *)
Definition remote (t : Z) (v : result VerifyOtpResponse)
    (q : result GetSessionResponse) (rs : result (option string)) : Env :=
  {| now := t;
     getItem_fault := fun _ => None;
     setItem_fault := fun _ => None;
     removeItem_fault := fun _ => None;
     verifyOtp := fun _ _ _ => v;
     getSession := q;
     resend := fun _ _ => rs;
     resetPasswordForEmail := fun _ => rs |}.

(** A storage whose reads reject. *)
Definition unreadable (t : Z) : Env :=
  {| now := t;
     getItem_fault := fun _ => Some "Failed to read from storage";
     setItem_fault := fun _ => None;
     removeItem_fault := fun _ => None;
     verifyOtp := fun _ _ _ => Throw "Network request failed";
     getSession := Throw "Network request failed";
     resend := fun _ _ => Throw "Network request failed";
     resetPasswordForEmail := fun _ => Throw "Network request failed" |}.

(** Replies of the remote service. *)
Definition expired : VerifyOtpResponse :=
  {| data_user := None; data_session := false;
     error_message := Some "Token has expired" |}.

Definition verified : VerifyOtpResponse :=
  {| data_user := Some "user-1"; data_session := true;
     error_message := None |}.

Definition session : GetSessionResponse :=
  {| sessionData_session := Some "user-1"; sessionError := None |}.

Definition no_session : GetSessionResponse :=
  {| sessionData_session := None; sessionError := None |}.

Definition fresh_screen (t : FlowType) : Screen :=
  {| loading := false; resendTimer := 0; resendDisabled := false;
     verifying := false; enteredOtp := ""; email := "a@b.com"; type := t |}.

(** The pending verification of scenario A, as [storeOTPData] leaves
    it. *)
Definition pending_registration : string :=
  "{" ++ CanonicalJSON.dq ++ "email" ++ CanonicalJSON.dq ++ ":" ++
  CanonicalJSON.dq ++ "a@b.com" ++ CanonicalJSON.dq ++ "," ++
  CanonicalJSON.dq ++ "type" ++ CanonicalJSON.dq ++ ":" ++
  CanonicalJSON.dq ++ "register" ++ CanonicalJSON.dq ++ "}".

Definition registration : World :=
  {| storage := {[ OTP_STORAGE_KEY := pending_registration ]};
     screen := fresh_screen register |}.

(** A world in which the guard of ["otp_resend"] holds a block
    installed at time 2000 (in force until 302000). *)
Definition resend_blocked : World :=
  {| storage :=
       <[ rate_limit_key "otp_resend" :=
            CanonicalJSON.stringify
              {| lastRequest := 2000; requestCount := 4;
                 blockedUntil := Some 302000 |} ]>
       {[ OTP_STORAGE_KEY := pending_registration ]};
     screen := fresh_screen register |}.

(** A world in which the text stored for ["otp_resend"] is cut short. *)
Definition corrupted : World :=
  {| storage := {[ rate_limit_key "otp_resend" := "{lastRequest:" ]};
     screen := fresh_screen register |}.

End Sample.

Arguments rate_limit_key : simpl never.

(* ===================================================================== *)
(** ** RateLimitGuard: [formatWaitTime] *)
(* ===================================================================== *)

(** [Number.MAX_SAFE_INTEGER], [2^53 - 1]. *)
Definition MAX_SAFE_INTEGER : Z := 9007199254740991.

(** [formatWaitTime(seconds)], for [seconds] an integer whose magnitude
    is at most [MAX_SAFE_INTEGER].  On these the arithmetic of the source,
    which is on doubles, is the arithmetic on integers written here: the
    quotient [seconds / 60], rounded to a double, has the floor of the
    exact quotient, so [Math.floor(seconds / 60)] is the floor quotient;
    [seconds % 60] is exact and has the sign of [seconds]; and a template
    literal prints such an integer in decimal.  Larger numbers and
    numbers that are no integers are outside this definition, and the
    statements about it carry the bound. *)
Definition formatWaitTime (seconds : Z) : string :=
  let minutes := seconds / 60 in
  let remainingSeconds := Z.rem seconds 60 in
  if minutes >? 0 then
    CanonicalJSON.show_Z minutes ++ "m " ++
    CanonicalJSON.show_Z remainingSeconds ++ "s"
  else
    CanonicalJSON.show_Z remainingSeconds ++ "s".

(** The values a sequence of checks resolves to, in order. *)
Fixpoint check_results `{JSON RateLimitData} (action : string)
    (envs : list Env) (w : World) : list (result RateLimitResult) :=
  match envs with
  | [] => []
  | e :: es =>
      value_of (run e (checkRateLimit action) w)
      :: check_results action es (world_of (run e (checkRateLimit action) w))
  end.

(** Every check comes more than a minute after the one before it, the
    first more than a minute after [prev]. *)
Fixpoint spaced (prev : Z) (envs : list Env) : Prop :=
  match envs with
  | [] => True
  | e :: es => 60 * 1000 < now e - prev /\ spaced (now e) es
  end.

(* ===================================================================== *)
(** ** The script that clears rate-limit data: [clearAllRateLimits] *)
(* ===================================================================== *)

(** Whether [AsyncStorage.getAllKeys] and [AsyncStorage.multiRemove]
    reject, and with which reason. *)
Record BulkFaults := {
  getAllKeys_fault : option string;
  multiRemove_fault : option string
}.

(** [AsyncStorage.multiRemove(keys)]. *)
Definition multiRemove (keys : list string) (m : gmap string string)
  : gmap string string :=
  foldr delete m keys.

(** [clearAllRateLimits], by explicit state passing: the storage it
    leaves and the lines it prints.  [getAllKeys] resolves to the keys of
    the storage; a rejected operation leaves the storage as it was. *)
Definition clearAllRateLimits (f : BulkFaults) (m : gmap string string)
  : gmap string string * list Cmd :=
  match getAllKeys_fault f with
  | Some _ => (m, [console_error "Error clearing rate limits:"])
  | None =>
      let keys := map fst (map_to_list m) in
      let rateLimitKeys :=
        List.filter (fun key => JSString.includes key "rate_limit_data") keys in
      if (0 <? length rateLimitKeys)%nat then
        match multiRemove_fault f with
        | Some _ => (m, [console_error "Error clearing rate limits:"])
        | None => (multiRemove rateLimitKeys m,
                   [console_log "Rate limits cleared:"])
        end
      else (m, [console_log "No rate limit data found"])
  end.

(* ===================================================================== *)
(** ** PendingVerificationStore: [storeOTPData], [getOTPData] *)
(* ===================================================================== *)

(** [interface OTPData { email: string; type: 'register' | 'reset';
    password?: string; session?: any }], over the type [any] of the
    values a session may be. *)
Module OTPData.
Record t (any : Type) := {
  email : string;
  type : FlowType;
  password : option string;
  session : option any
}.
Arguments email {any} _.
Arguments type {any} _.
Arguments password {any} _.
Arguments session {any} _.
End OTPData.

Definition with_email (e : string) (s : Screen) : Screen :=
  {| loading := loading s; resendTimer := resendTimer s;
     resendDisabled := resendDisabled s; verifying := verifying s;
     enteredOtp := enteredOtp s; email := e; type := type s |}.

Definition with_type (t : FlowType) (s : Screen) : Screen :=
  {| loading := loading s; resendTimer := resendTimer s;
     resendDisabled := resendDisabled s; verifying := verifying s;
     enteredOtp := enteredOtp s; email := email s; type := t |}.


Section OTPUtils.
Context {any : Type}.
(** [JSON.stringify] and [JSON.parse] at [OTPData]: a text parses to a
    record or the parse throws (a text that parses to a value that is no
    such record is not modelled).  Nothing else is assumed of them here:
    a statement that needs a record to survive the passage through JSON
    says so of that record. *)
Variable JSON_stringify_OTP : OTPData.t any -> string.
Variable JSON_parse_OTP : string -> result (OTPData.t any).
Local Open Scope js_scope.

Definition storeOTPData (data : OTPData.t any) : Exc unit :=
  try_catch
    (await (perform (AsyncStorage_setItem OTP_STORAGE_KEY
                       (JSON_stringify_OTP data))))
    (fun error => call (console_error "Error storing OTP data:")).

Definition getOTPData : Exc (option (OTPData.t any)) :=
  try_catch
    (data <- await (perform (AsyncStorage_getItem OTP_STORAGE_KEY)) ;;
     if truthy data then
       d <- eval (JSON_parse_OTP (default "" data)) ;;
       ret (Some d)
     else ret None)
    (fun error =>
       call (console_error "Error getting OTP data:") ;;
       ret None).

(** [loadOTPData], the effect the screen runs when it mounts.  [setEmail]
    and [setType] are its two state setters; the state they leave is the
    value of the program.  [data.email] is truthy when it is not the
    empty string; [data.type], one of two non-empty texts, always is. *)
Definition loadOTPData (s : Screen) : Exc Screen :=
  data <- getOTPData ;;
  match data with
  | Some d =>
      if negb (String.eqb (OTPData.email d) "") then
        ret (with_type (OTPData.type d) (with_email (OTPData.email d) s))
      else
        call (Alert_alert "Error"
                "No verification data found. Please try again.") ;;
        call (router_push "/login") ;;
        ret s
  | None =>
      call (Alert_alert "Error"
              "No verification data found. Please try again.") ;;
      call (router_push "/login") ;;
      ret s
  end.

End OTPUtils.

(** A codec for [OTPData] whose strings need no escaping: the text
    [JSON.stringify] produces for such a record, and a reader of these
    texts.  It serves the concrete instances of the statements. *)
Module PlainOTPJSON.

Definition q : string := CanonicalJSON.dq.

Definition show_type (t : FlowType) : string :=
  match t with register => "register" | reset => "reset" end.

Definition read_type (s : string) : option FlowType :=
  if String.eqb s "register" then Some register
  else if String.eqb s "reset" then Some reset
  else None.

Definition stringify (d : OTPData.t string) : string :=
  "{" ++ q ++ "email" ++ q ++ ":" ++ q ++ OTPData.email d ++ q ++
  "," ++ q ++ "type" ++ q ++ ":" ++ q ++ show_type (OTPData.type d) ++ q ++
  match OTPData.password d with
  | Some p => "," ++ q ++ "password" ++ q ++ ":" ++ q ++ p ++ q
  | None => ""
  end ++
  match OTPData.session d with
  | Some s => "," ++ q ++ "session" ++ q ++ ":" ++ q ++ s ++ q
  | None => ""
  end ++ "}".

(** The text up to the next quote, and what follows that quote. *)
Fixpoint until_quote (s : string) : option (string * string) :=
  match s with
  | EmptyString => None
  | String c s' =>
      if Ascii.eqb c (ascii_of_nat 34) then Some (EmptyString, s')
      else match until_quote s' with
           | Some (a, r) => Some (String c a, r)
           | None => None
           end
  end.

(** An optional field [,"name":"value"] at the head of [s]. *)
Definition optional_field (name s : string)
  : option (option string * string) :=
  match CanonicalJSON.strip ("," ++ q ++ name ++ q ++ ":" ++ q) s with
  | None => Some (None, s)
  | Some s1 =>
      match until_quote s1 with
      | Some (v, r) => Some (Some v, r)
      | None => None
      end
  end.

Definition parse (s : string) : result (OTPData.t string) :=
  match CanonicalJSON.strip ("{" ++ q ++ "email" ++ q ++ ":" ++ q) s with
  | None => Throw CanonicalJSON.syntax_error
  | Some s1 =>
  match until_quote s1 with
  | None => Throw CanonicalJSON.syntax_error
  | Some (e, s2) =>
  match CanonicalJSON.strip ("," ++ q ++ "type" ++ q ++ ":" ++ q) s2 with
  | None => Throw CanonicalJSON.syntax_error
  | Some s3 =>
  match until_quote s3 with
  | None => Throw CanonicalJSON.syntax_error
  | Some (ty, s4) =>
  match read_type ty, optional_field "password" s4 with
  | Some t, Some (p, s5) =>
      match optional_field "session" s5 with
      | Some (ss, s6) =>
          if String.eqb s6 "}" then
            Ok {| OTPData.email := e; OTPData.type := t;
                  OTPData.password := p; OTPData.session := ss |}
          else Throw CanonicalJSON.syntax_error
      | None => Throw CanonicalJSON.syntax_error
      end
  | _, _ => Throw CanonicalJSON.syntax_error
  end
  end
  end
  end
  end.

End PlainOTPJSON.

(* ===================================================================== *)
(** ** ResendCooldownTimer: the countdown effect of the screen *)
(* ===================================================================== *)

(** One run of the effect on [resendTimer], the second of its timeout
    included: with a positive timer the timeout fires and lowers the
    timer by one; otherwise resend is enabled again. *)
Definition resendTimerEffect (s : Screen) : Prog unit :=
  if resendTimer s >? 0 then perform (setResendTimer (resendTimer s - 1))
  else perform (setResendDisabled false).

(** The world after [n] runs of the effect. *)
Fixpoint countdown (env : Env) (n : nat) (w : World) : World :=
  match n with
  | O => w
  | S n' =>
      countdown env n' (world_of (run env (resendTimerEffect (screen w)) w))
  end.

(* ===================================================================== *)
(** ** The "Create Account" button of the screen *)
(* ===================================================================== *)


(* ===================================================================== *)
(** ** The screen that asks for a reset: [handleResetPassword] *)
(* ===================================================================== *)

Section ForgotPassword.
Local Open Scope js_scope.

(** [handleResetPassword], as the closure of a render whose address is
    [email]; [loading] is the flag of that screen.  The [return]s inside
    [try] leave through [finally]. *)
Definition handleResetPassword (email : string) : Exc unit :=
  if String.eqb email "" then
    call (Alert_alert "Error" "Please enter your email address")
  else
  call (setLoading true) ;;
  try_finally
    (try_catch
       (error <- await (perform (auth_resetPasswordForEmail email)) ;;
        match error with
        | Some message => call (Alert_alert "Reset Error" message)
        | None =>
            call (Alert_alert "Reset Link Sent"
              "If an account with this email exists, you will receive a password reset link shortly.")
        end)
       (fun error =>
          call (Alert_alert "Error"
            "An unexpected error occurred. Please try again.") ;;
          call (console_error "Password reset error:")))
    (call (setLoading false)).

End ForgotPassword.

(* ===================================================================== *)
(** ** The code input: [OTPInput] *)
(* ===================================================================== *)

Module OTPInput.

(** [digits.join('')]. *)
Definition otpValue (digits : list string) : string :=
  foldr String.append EmptyString digits.

(** [text.replace(/\D/g, '')]: the digits of [text]. *)
Fixpoint strip_non_digits (text : string) : string :=
  match text with
  | EmptyString => EmptyString
  | String c text' =>
      if JSString.is_digit c then String c (strip_non_digits text')
      else strip_non_digits text'
  end.

(** [s.slice(-1)]: the last character of [s], or the empty string. *)
Fixpoint slice_last (s : string) : string :=
  match s with
  | EmptyString => EmptyString
  | String c EmptyString => String c EmptyString
  | String _ s' => slice_last s'
  end.

(** [updated[index] = x] on a copy of the array: past its end the array
    grows, the cells in between left empty. *)
Definition array_set (index : nat) (x : string) (l : list string)
  : list string :=
  if (index <? length l)%nat then <[index := x]> l
  else (l ++ replicate (index - length l) EmptyString ++ [x])%list.

(** [digits[index]], a missing cell read as empty. *)
Definition cell (digits : list string) (index : nat) : string :=
  default EmptyString (digits !! index).

(** [handleChange(text, index)]: the digits it leaves, and the cell it
    moves the focus to, if it does. *)
Definition handleChange (length : nat) (text : string) (index : nat)
    (digits : list string) : list string * option nat :=
  let char := slice_last (strip_non_digits text) in
  (array_set index char digits,
   if negb (String.eqb char "") && (index + 1 <? length)%nat
   then Some (index + 1)%nat else None).

(** [handleKeyPress(e, index)] for the key [key]. *)
Definition handleKeyPress (key : string) (index : nat)
    (digits : list string) : list string * option nat :=
  if String.eqb key "Backspace" then
    if negb (String.eqb (cell digits index) "") then
      (array_set index EmptyString digits, None)
    else if (0 <? index)%nat then
      (array_set (index - 1) EmptyString digits, Some (index - 1)%nat)
    else (digits, None)
  else (digits, None).

(** What a cell may hold: nothing, or one digit. *)
Definition is_cell (c : string) : Prop :=
  c = EmptyString \/
  exists d, JSString.is_digit d = true /\ c = String d EmptyString.

(** What the user does to the input. *)
Inductive Edit :=
| Change (text : string) (index : nat)
| KeyPress (key : string) (index : nat).

Definition edit (length : nat) (digits : list string) (e : Edit)
  : list string :=
  match e with
  | Change text index => fst (handleChange length text index digits)
  | KeyPress key index => fst (handleKeyPress key index digits)
  end.

(** The digits after a sequence of edits of an input of [length] cells,
    all empty at first. *)
Definition edits (length : nat) (es : list Edit) : list string :=
  fold_left (edit length) es (replicate length EmptyString).

(** The callbacks of the parent. *)
Inductive Callback :=
| onChange (otp : string)
| onComplete (otp : string).

(** The effect on [otpValue]: the callbacks it invokes, in order. *)
Definition valueEffect (length : nat) (digits : list string)
  : list Callback :=
  let otpValue := otpValue digits in
  onChange otpValue ::
  (if (String.length otpValue =? length)%nat
      && negb (JSString.includes otpValue "")
   then [onComplete otpValue] else []).

(** [canResend]. *)
Definition canResend (disabled resendDisabled : bool) (resendTimer : Z)
  : bool :=
  negb disabled && negb resendDisabled && (resendTimer <=? 0).

End OTPInput.

(** Further environments and worlds for concrete instances. *)
Module SampleOTP.

(** A pending password recovery for a@b.com. *)
Definition recovery : OTPData.t string :=
  {| OTPData.email := "a@b.com"; OTPData.type := reset;
     OTPData.password := None; OTPData.session := None |}.

(** A record whose address is empty. *)
Definition nameless : OTPData.t string :=
  {| OTPData.email := ""; OTPData.type := register;
     OTPData.password := None; OTPData.session := None |}.

Definition holding (d : OTPData.t string) : World :=
  {| storage := {[ OTP_STORAGE_KEY := PlainOTPJSON.stringify d ]};
     screen := Sample.fresh_screen register |}.

(** A world whose verification slot holds a text cut short. *)
Definition garbled : World :=
  {| storage := {[ OTP_STORAGE_KEY := "{email" ]};
     screen := Sample.fresh_screen register |}.

(** A storage whose writes and removals reject. *)
Definition read_only (t : Z) : Env :=
  {| now := t;
     getItem_fault := fun _ => None;
     setItem_fault := fun _ => Some "Failed to write to storage";
     removeItem_fault := fun _ => Some "Failed to write to storage";
     verifyOtp := fun _ _ _ => Ok Sample.verified;
     getSession := Ok Sample.session;
     resend := fun _ _ => Ok None;
     resetPasswordForEmail := fun _ => Ok None |}.

(** The screen of a registration whose resend has just been accepted. *)
Definition cooling : World :=
  {| storage := storage Sample.registration;
     screen := with_resendDisabled true
                 (with_resendTimer 30 (Sample.fresh_screen register)) |}.

(** The six digits 1 to 6, typed one cell after the other. *)
Definition typing_123456 : list OTPInput.Edit :=
  [OTPInput.Change "1" 0; OTPInput.Change "2" 1; OTPInput.Change "3" 2;
   OTPInput.Change "4" 3; OTPInput.Change "5" 4; OTPInput.Change "6" 5].

End SampleOTP.

(* ===================================================================== *)
(** ** RateLimitGuard on unchecked contents *)
(* ===================================================================== *)

(** The annotation in [const rateLimitData: RateLimitData =
    JSON.parse(data)] is not checked when the code runs: [JSON.parse]
    yields whatever the stored text denotes, and the code reads three
    fields of that value.  [Unchecked.checkRateLimit] is [checkRateLimit]
    on such values; on the texts of records the two agree. *)
Module Unchecked.

(** What reading a field yields, and what the arithmetic of the code
    makes of it: [undefined] (there is no such field), [null], a number
    (here an integer) or [NaN].  Fields that hold strings, booleans,
    arrays or objects are not modelled. *)
Inductive JSValue :=
| undefined
| null
| number (z : Z)
| NaN.

(** A value whose fields can be read, by the three fields the code
    reads (a number, a string, a boolean or an array has none of them,
    like the empty object). *)
Record Obj := {
  lastRequest : JSValue;
  requestCount : JSValue;
  blockedUntil : JSValue
}.

(** [ToNumber]; [None] is NaN. *)
Definition ToNumber (x : JSValue) : option Z :=
  match x with
  | undefined | NaN => None
  | null => Some 0
  | number z => Some z
  end.

(** [ToBoolean]. *)
Definition ToBoolean (x : JSValue) : bool :=
  match x with
  | number z => negb (z =? 0)
  | _ => false
  end.

Definition of_number (n : option Z) : JSValue :=
  match n with
  | Some z => number z
  | None => NaN
  end.

(** [x < y] and [x > y] on numbers: false when an operand is NaN. *)
Definition lt (x y : option Z) : bool :=
  match x, y with
  | Some a, Some b => a <? b
  | _, _ => false
  end.

Definition gt (x y : option Z) : bool :=
  match x, y with
  | Some a, Some b => a >? b
  | _, _ => false
  end.

(** [x - y] and [x + y] on numbers: NaN when an operand is NaN. *)
Definition minus (x y : option Z) : option Z :=
  match x, y with
  | Some a, Some b => Some (a - b)
  | _, _ => None
  end.

Definition plus (x y : option Z) : option Z :=
  match x, y with
  | Some a, Some b => Some (a + b)
  | _, _ => None
  end.

(** The error of reading a field of [null]. *)
Definition type_error : string := "TypeError".

(** The test [rateLimitData.blockedUntil && now < rateLimitData.blockedUntil]. *)
Definition block_in_force (now : Z) (d : Obj) : bool :=
  ToBoolean (blockedUntil d) && lt (Some now) (ToNumber (blockedUntil d)).

(** What a check does with the value it has parsed at time [now]: the
    value it resolves to and the object it writes, if it writes. *)
Definition verdict (now : Z) (d : Obj) : RateLimitResult * option Obj :=
  if block_in_force now d then
    ({| allowed := false;
        waitTime := Some (Math_ceil_div
                            (default 0 (ToNumber (blockedUntil d)) - now)
                            1000) |},
     None)
  else if gt (minus (Some now) (ToNumber (lastRequest d))) (Some (60 * 1000))
  then
    ({| allowed := true; waitTime := None |},
     Some {| lastRequest := number now; requestCount := number 1;
             blockedUntil := undefined |})
  else if lt (ToNumber (requestCount d)) (Some MAX_REQUESTS_PER_MINUTE) then
    ({| allowed := true; waitTime := None |},
     Some {| lastRequest := number now;
             requestCount :=
               of_number (plus (ToNumber (requestCount d)) (Some 1));
             blockedUntil := undefined |})
  else
    ({| allowed := false;
        waitTime := Some (Math_ceil_div BLOCK_DURATION 1000) |},
     Some {| lastRequest := number now;
             requestCount :=
               of_number (plus (ToNumber (requestCount d)) (Some 1));
             blockedUntil := number (now + BLOCK_DURATION) |}).

Section Guard.
(** [JSON.stringify] of the objects the guard writes, and [JSON.parse]:
    it throws, or yields [null] ([None]), or a value whose fields can be
    read.  Nothing is assumed of them. *)
Variable JSON_stringify : Obj -> string.
Variable JSON_parse : string -> result (option Obj).
Local Open Scope js_scope.

Definition checkRateLimit (action : string) : Exc RateLimitResult :=
  try_catch
    (let key := rate_limit_key action in
     data <- await (perform (AsyncStorage_getItem key)) ;;
     now <- call Date_now ;;
     if negb (truthy data) then
       (* First request *)
       await (perform (AsyncStorage_setItem key (JSON_stringify
         {| lastRequest := number now; requestCount := number 1;
            blockedUntil := undefined |}))) ;;
       ret {| allowed := true; waitTime := None |}
     else
       parsed <- eval (JSON_parse (default "" data)) ;;
       (* reading a field of [null] throws *)
       rateLimitData <- eval (match parsed with
                              | Some d => Ok d
                              | None => Throw type_error
                              end) ;;
       (* Check if currently blocked *)
       if ToBoolean (blockedUntil rateLimitData)
          && lt (Some now) (ToNumber (blockedUntil rateLimitData))
       then
         ret {| allowed := false;
                waitTime := Some (Math_ceil_div
                  (default 0 (ToNumber (blockedUntil rateLimitData)) - now)
                  1000) |}
       else
       (* Reset if more than 1 minute has passed *)
       if gt (minus (Some now) (ToNumber (lastRequest rateLimitData)))
             (Some (60 * 1000))
       then
         await (perform (AsyncStorage_setItem key (JSON_stringify
           {| lastRequest := number now; requestCount := number 1;
              blockedUntil := undefined |}))) ;;
         ret {| allowed := true; waitTime := None |}
       else
       (* Check if within rate limit *)
       if lt (ToNumber (requestCount rateLimitData))
             (Some MAX_REQUESTS_PER_MINUTE)
       then
         await (perform (AsyncStorage_setItem key (JSON_stringify
           {| lastRequest := number now;
              requestCount :=
                of_number (plus (ToNumber (requestCount rateLimitData))
                                (Some 1));
              blockedUntil := undefined |}))) ;;
         ret {| allowed := true; waitTime := None |}
       else
         (* Rate limit exceeded, block for 5 minutes *)
         let blockedUntil' := now + BLOCK_DURATION in
         await (perform (AsyncStorage_setItem key (JSON_stringify
           {| lastRequest := number now;
              requestCount :=
                of_number (plus (ToNumber (requestCount rateLimitData))
                                (Some 1));
              blockedUntil := number blockedUntil' |}))) ;;
         ret {| allowed := false;
                waitTime := Some (Math_ceil_div BLOCK_DURATION 1000) |})
    (fun error =>
       call (console_error "Rate limit check error:") ;;
       ret {| allowed := true; waitTime := None |}) (* Allow if there's an error *).

End Guard.

End Unchecked.

(** A record as such a value, and back. *)
Definition obj_of_record (r : RateLimitData) : Unchecked.Obj :=
  {| Unchecked.lastRequest := Unchecked.number (lastRequest r);
     Unchecked.requestCount := Unchecked.number (requestCount r);
     Unchecked.blockedUntil :=
       match blockedUntil r with
       | Some b => Unchecked.number b
       | None => Unchecked.undefined
       end |}.

Definition record_of_obj (d : Unchecked.Obj) : RateLimitData :=
  {| lastRequest :=
       default 0 (Unchecked.ToNumber (Unchecked.lastRequest d));
     requestCount :=
       default 0 (Unchecked.ToNumber (Unchecked.requestCount d));
     blockedUntil :=
       match Unchecked.blockedUntil d with
       | Unchecked.number b => Some b
       | _ => None
       end |}.

(** A codec that knows nothing but records: the one of the typed
    [checkRateLimit]. *)
Definition stringify_record `{JSON RateLimitData} (d : Unchecked.Obj)
  : string :=
  JSON_stringify (record_of_obj d).

Definition parse_record `{JSON RateLimitData} (s : string)
  : result (option Unchecked.Obj) :=
  match JSON_parse s with
  | Ok r => Ok (Some (obj_of_record r))
  | Throw e => Throw e
  end.

(** The text [JSON.stringify] produces for the objects the guard writes,
    and a reader of flat objects whose fields are integers or [null],
    written without blanks, and of the text [null].  It serves the
    concrete instances of the statements; texts of other shapes are
    outside it (it answers them as it answers a text that is no JSON). *)
Module UncheckedJSON.

(** A value as text; a field that is [undefined] is left out, and [NaN]
    is written as [null]. *)
Definition show (x : Unchecked.JSValue) : option string :=
  match x with
  | Unchecked.undefined => None
  | Unchecked.number z => Some (CanonicalJSON.show_Z z)
  | Unchecked.null | Unchecked.NaN => Some "null"
  end.

Definition member (name : string) (x : Unchecked.JSValue) : list string :=
  match show x with
  | Some text =>
      [CanonicalJSON.dq ++ name ++ CanonicalJSON.dq ++ ":" ++ text]
  | None => []
  end.

Fixpoint join (l : list string) : string :=
  match l with
  | [] => ""
  | [a] => a
  | a :: l' => a ++ "," ++ join l'
  end.

Definition stringify (d : Unchecked.Obj) : string :=
  "{" ++ join (member "lastRequest" (Unchecked.lastRequest d) ++
               member "requestCount" (Unchecked.requestCount d) ++
               member "blockedUntil" (Unchecked.blockedUntil d))%list
      ++ "}".

(** An integer or [null] at the head of [s]. *)
Definition value (s : string) : option (Unchecked.JSValue * string) :=
  match CanonicalJSON.strip "null" s with
  | Some r => Some (Unchecked.null, r)
  | None =>
      match CanonicalJSON.number s with
      | Some (z, r) => Some (Unchecked.number z, r)
      | None => None
      end
  end.

(** [d] with its field [name] set to [x]; a field the guard never reads
    is dropped. *)
Definition assign (name : string) (x : Unchecked.JSValue)
    (d : Unchecked.Obj) : Unchecked.Obj :=
  if String.eqb name "lastRequest" then
    {| Unchecked.lastRequest := x;
       Unchecked.requestCount := Unchecked.requestCount d;
       Unchecked.blockedUntil := Unchecked.blockedUntil d |}
  else if String.eqb name "requestCount" then
    {| Unchecked.lastRequest := Unchecked.lastRequest d;
       Unchecked.requestCount := x;
       Unchecked.blockedUntil := Unchecked.blockedUntil d |}
  else if String.eqb name "blockedUntil" then
    {| Unchecked.lastRequest := Unchecked.lastRequest d;
       Unchecked.requestCount := Unchecked.requestCount d;
       Unchecked.blockedUntil := x |}
  else d.

Definition empty : Unchecked.Obj :=
  {| Unchecked.lastRequest := Unchecked.undefined;
     Unchecked.requestCount := Unchecked.undefined;
     Unchecked.blockedUntil := Unchecked.undefined |}.

(** The members of an object, up to and including its closing brace;
    [fuel] bounds their number. *)
Fixpoint members (fuel : nat) (s : string) (d : Unchecked.Obj)
  : result (option Unchecked.Obj) :=
  match fuel with
  | O => Throw CanonicalJSON.syntax_error
  | S fuel' =>
  match CanonicalJSON.strip CanonicalJSON.dq s with
  | None => Throw CanonicalJSON.syntax_error
  | Some s1 =>
  match PlainOTPJSON.until_quote s1 with
  | None => Throw CanonicalJSON.syntax_error
  | Some (name, s2) =>
  match CanonicalJSON.strip ":" s2 with
  | None => Throw CanonicalJSON.syntax_error
  | Some s3 =>
  match value s3 with
  | None => Throw CanonicalJSON.syntax_error
  | Some (x, s4) =>
      if String.eqb s4 "}" then Ok (Some (assign name x d))
      else
        match CanonicalJSON.strip "," s4 with
        | None => Throw CanonicalJSON.syntax_error
        | Some s5 => members fuel' s5 (assign name x d)
        end
  end
  end
  end
  end
  end.

Definition parse (s : string) : result (option Unchecked.Obj) :=
  if String.eqb s "null" then Ok None
  else if String.eqb s "{}" then Ok (Some empty)
  else
    match CanonicalJSON.strip "{" s with
    | None => Throw CanonicalJSON.syntax_error
    | Some s1 => members (String.length s) s1 empty
    end.

End UncheckedJSON.

(** A world whose record for ["otp_resend"] is the empty object. *)
Definition emptied : World :=
  {| storage := {[ rate_limit_key "otp_resend" := "{}" ]};
     screen := Sample.fresh_screen register |}.

(* ===================================================================== *)
(** * Properties *)
(* ===================================================================== *)

(** ** Traces that have been computed *)

(** Membership in a trace that has been computed. *)
Ltac in_trace H :=
  repeat (destruct H as [H|H]; [try discriminate|]); try contradiction.

(** A command is among those of a trace that has been computed. *)
Ltac is_issued := repeat first [left; reflexivity | right].

(** A trace that has been computed ends with [l], or starts with it. *)
Ltac ends_with :=
  repeat first [exists []; reflexivity | apply suffix_cons_r].

Ltac starts_with :=
  repeat first [apply prefix_nil | apply prefix_cons].

(** ** The codec reads back what it writes *)

Module CanonicalJSONFacts.
Import CanonicalJSON.

Lemma string_of_uint_numeric (d : Decimal.uint) (c : ascii) :
  In c (list_ascii_of_string (NilEmpty.string_of_uint d)) ->
  is_numeric c = true.
Proof.
  revert c.
  induction d; simpl; intros c0 Hc; try contradiction;
    (destruct Hc as [<- | Hc]; [reflexivity | auto]).
Qed.

Lemma show_Z_numeric (z : Z) (c : ascii) :
  In c (list_ascii_of_string (show_Z z)) -> is_numeric c = true.
Proof.
  assert (Hu : forall p c, In c (list_ascii_of_string
               (NilZero.string_of_uint (Pos.to_uint p))) ->
             is_numeric c = true).
  { intros p c0 Hc. unfold NilZero.string_of_uint in Hc.
    destruct (Pos.to_uint p) eqn:E;
      try (apply (string_of_uint_numeric (Pos.to_uint p)); rewrite E; exact Hc).
    destruct Hc as [<-|[]]; reflexivity. }
  unfold show_Z. destruct z as [|p|p]; simpl.
  - intros [<-|[]]. reflexivity.
  - apply Hu.
  - intros [<-|Hc]; [reflexivity | now apply (Hu p)].
Qed.

Lemma read_show_Z (z : Z) : read_Z (show_Z z) = Some z.
Proof.
  unfold read_Z, show_Z. rewrite NilZero.isi.
  - simpl. now rewrite DecimalZ.of_to.
  - destruct z; simpl; intros [= E].
    now apply (DecimalPos.Unsigned.to_uint_nonnil p).
  - destruct z; simpl; intros [= E].
    now apply (DecimalPos.Unsigned.to_uint_nonnil p).
Qed.

Lemma span_number_app (a r : string) :
  (forall c, In c (list_ascii_of_string a) -> is_numeric c = true) ->
  match r with String c _ => is_numeric c = false | EmptyString => True end ->
  span_number (a ++ r) = (a, r).
Proof.
  intros Ha Hr. induction a as [|c a IH]; simpl.
  - destruct r as [|c r]; [reflexivity|]. simpl. now rewrite Hr.
  - rewrite (Ha c) by now left. rewrite IH; [reflexivity|].
    intros c' Hc'. apply Ha. now right.
Qed.

Lemma number_show (z : Z) (r : string) :
  match r with String c _ => is_numeric c = false | EmptyString => True end ->
  number (show_Z z ++ r) = Some (z, r).
Proof.
  intros Hr. unfold number.
  rewrite (span_number_app (show_Z z) r (show_Z_numeric z) Hr).
  now rewrite read_show_Z.
Qed.

Lemma strip_prefix (p s : string) : strip p (p ++ s) = Some s.
Proof.
  induction p as [|a p IH]; simpl; [now destruct s|].
  now rewrite Ascii.eqb_refl.
Qed.

Lemma parse_stringify (r : RateLimitData) : parse (stringify r) = Ok r.
Proof.
  destruct r as [a b c]. unfold parse, stringify.
  cbn [lastRequest requestCount blockedUntil].
  rewrite strip_prefix, number_show by reflexivity.
  rewrite strip_prefix.
  destruct c as [c|].
  - rewrite number_show by reflexivity.
    change (String.eqb (sep_blockedUntil ++ show_Z c ++ "}") "}") with false.
    rewrite strip_prefix, number_show by reflexivity. reflexivity.
  - rewrite number_show by reflexivity. reflexivity.
Qed.

Lemma stringify_truthy (r : RateLimitData) : stringify r <> "".
Proof. unfold stringify. discriminate. Qed.

End CanonicalJSONFacts.

#[export] Instance canonical_JSON : JSON RateLimitData :=
  {| JSON_stringify := CanonicalJSON.stringify;
     JSON_parse := CanonicalJSON.parse;
     JSON_parse_stringify := CanonicalJSONFacts.parse_stringify;
     JSON_stringify_truthy := CanonicalJSONFacts.stringify_truthy |}.


(* ===================================================================== *)
(** ** OTPCodeValidator *)
(* ===================================================================== *)

Lemma is_digit_iff (c : ascii) :
  JSString.is_digit c = true <-> ascii_decimal_digit c.
Proof.
  unfold JSString.is_digit, ascii_decimal_digit.
  change (nat_of_ascii "0") with 48%nat.
  change (nat_of_ascii "9") with 57%nat.
  rewrite andb_true_iff, !Nat.leb_le. tauto.
Qed.

Lemma match_digits_to_end (n : nat) (s : string) :
  JSString.match_digits n s = Some EmptyString <->
  String.length s = n /\ Forall ascii_decimal_digit (list_ascii_of_string s).
Proof.
  revert s. induction n as [|n IH]; intros [|c s]; simpl.
  - split; [intros _; split; [reflexivity | constructor] | reflexivity].
  - split; [discriminate | intros [[=] _]].
  - split; [discriminate | intros [[=] _]].
  - destruct (JSString.is_digit c) eqn:Hc.
    + rewrite IH. apply is_digit_iff in Hc.
      split; intros [Hl Hf].
      * split; [now f_equal | now constructor].
      * inversion Hf; subst. split; [congruence | assumption].
    + split; [discriminate |].
      intros [_ Hf]. inversion Hf as [|? ? Hd _]; subst.
      apply is_digit_iff in Hd. congruence.
Qed.

(** C4.  For every string, [isValidOTP] answers [true] exactly when the
    string consists of six ASCII decimal digits and nothing else; so
    "123456" is accepted, and "12345", "abcdef", "123 456", the empty
    string, and six digits with a space or a newline before or after them
    are rejected. *)
Theorem isValidOTP_iff_six_ascii_digits :
  (forall code : string, isValidOTP code = true <-> six_ascii_digits code) /\
  isValidOTP "123456" = true /\
  isValidOTP "12345" = false /\
  isValidOTP "abcdef" = false /\
  isValidOTP "123 456" = false /\
  isValidOTP "" = false /\
  isValidOTP " 123456" = false /\
  isValidOTP "123456 " = false /\
  isValidOTP (String.append "123456" (String (ascii_of_nat 10) EmptyString)) = false.
Proof.
  split; [| repeat split; reflexivity].
  intros code. unfold six_ascii_digits. rewrite <- match_digits_to_end.
  unfold isValidOTP.
  destruct (JSString.match_digits 6 code) as [[|c r]|]; split;
    congruence.
Qed.

(* ===================================================================== *)
(** ** RateLimitGuard *)
(* ===================================================================== *)

Lemma truthy_Some (s : string) : truthy (Some s) = true <-> s <> "".
Proof. destruct s; simpl; split; congruence. Qed.

Lemma lookup_write (key value : string) (w : World) :
  storage (write key value w) !! key = Some value.
Proof. unfold write. simpl. apply lookup_insert_eq. Qed.

Lemma lookup_write_ne (key key' value : string) (w : World) :
  key <> key' -> storage (write key value w) !! key' = storage w !! key'.
Proof. intros Hne. unfold write. simpl. now apply lookup_insert_ne. Qed.

Lemma verdict_blocked (now b : Z) (r : RateLimitData) :
  blockedUntil r = Some b -> b <> 0 -> now < b ->
  verdict now r =
    ({| allowed := false; waitTime := Some (Math_ceil_div (b - now) 1000) |},
     None).
Proof.
  intros Hb Hb0 Hlt. unfold verdict, block_in_force. rewrite Hb. simpl.
  destruct (Z.eqb_spec b 0); [contradiction|].
  destruct (Z.ltb_spec now b); [reflexivity | lia].
Qed.

Lemma verdict_reset (now : Z) (r : RateLimitData) :
  block_in_force now r = false -> 60 * 1000 < now - lastRequest r ->
  verdict now r =
    ({| allowed := true; waitTime := None |},
     Some {| lastRequest := now; requestCount := 1; blockedUntil := None |}).
Proof.
  intros Hb Hgt. unfold verdict. rewrite Hb.
  rewrite Z.gtb_ltb. destruct (Z.ltb_spec (60 * 1000) (now - lastRequest r));
    [reflexivity | lia].
Qed.

Lemma verdict_increment (now : Z) (r : RateLimitData) :
  block_in_force now r = false -> now - lastRequest r <= 60 * 1000 ->
  requestCount r < 3 ->
  verdict now r =
    ({| allowed := true; waitTime := None |},
     Some {| lastRequest := now; requestCount := requestCount r + 1;
             blockedUntil := None |}).
Proof.
  intros Hb Hle Hc. unfold verdict. rewrite Hb.
  rewrite Z.gtb_ltb. destruct (Z.ltb_spec (60 * 1000) (now - lastRequest r));
    [lia|].
  unfold MAX_REQUESTS_PER_MINUTE.
  destruct (Z.ltb_spec (requestCount r) 3); [reflexivity | lia].
Qed.

Lemma verdict_exceeded (now : Z) (r : RateLimitData) :
  block_in_force now r = false -> now - lastRequest r <= 60 * 1000 ->
  3 <= requestCount r ->
  verdict now r =
    ({| allowed := false; waitTime := Some 300 |},
     Some {| lastRequest := now; requestCount := requestCount r + 1;
             blockedUntil := Some (now + 300 * 1000) |}).
Proof.
  intros Hb Hle Hc. unfold verdict. rewrite Hb.
  rewrite Z.gtb_ltb. destruct (Z.ltb_spec (60 * 1000) (now - lastRequest r));
    [lia|].
  unfold MAX_REQUESTS_PER_MINUTE.
  destruct (Z.ltb_spec (requestCount r) 3); [lia | reflexivity].
Qed.

(** The count a check writes: 1 for a fresh window, else one more than
    the count it read, either below the ceiling of 3 and without a block,
    or at the ceiling together with the block. *)
Lemma verdict_count (now : Z) (r r' : RateLimitData) :
  snd (verdict now r) = Some r' ->
  requestCount r' = 1 \/
  (requestCount r' = requestCount r + 1 /\ requestCount r < 3 /\
   blockedUntil r' = None) \/
  (requestCount r' = requestCount r + 1 /\ 3 <= requestCount r /\
   blockedUntil r' = Some (now + 300 * 1000)).
Proof.
  unfold verdict. destruct (block_in_force now r); [discriminate|].
  destruct (now - lastRequest r >? 60 * 1000).
  { intros [= <-]. now left. }
  unfold MAX_REQUESTS_PER_MINUTE.
  destruct (Z.ltb_spec (requestCount r) 3); intros [= <-]; right.
  - left. simpl. auto.
  - right. simpl. auto.
Qed.

Section RateLimitGuardFacts.
Context `{J : JSON RateLimitData}.

Lemma run_check_absent (env : Env) (action : string) (w : World) :
  storage_up env ->
  truthy (storage w !! rate_limit_key action) = false ->
  run env (checkRateLimit action) w =
    (Ok {| allowed := true; waitTime := None |},
     write (rate_limit_key action)
       (JSON_stringify {| lastRequest := now env; requestCount := 1;
                          blockedUntil := None |}) w,
     [AsyncStorage_getItem (rate_limit_key action); Date_now;
      AsyncStorage_setItem (rate_limit_key action)
        (JSON_stringify {| lastRequest := now env; requestCount := 1;
                           blockedUntil := None |})]).
Proof.
  intros Hup Hf. destruct (Hup (rate_limit_key action)) as [Hg Hs].
  unfold checkRateLimit. cbn. rewrite Hg. cbn. rewrite Hf. cbn.
  rewrite Hs. reflexivity.
Qed.

Lemma run_check_record (env : Env) (action : string) (w : World)
    (d : string) (r : RateLimitData) :
  storage_up env ->
  storage w !! rate_limit_key action = Some d ->
  truthy (Some d) = true ->
  JSON_parse d = Ok r ->
  run env (checkRateLimit action) w =
    (Ok (fst (verdict (now env) r)),
     match snd (verdict (now env) r) with
     | Some r' => write (rate_limit_key action) (JSON_stringify r') w
     | None => w
     end,
     AsyncStorage_getItem (rate_limit_key action) :: Date_now ::
     match snd (verdict (now env) r) with
     | Some r' =>
         [AsyncStorage_setItem (rate_limit_key action) (JSON_stringify r')]
     | None => []
     end).
Proof.
  intros Hup Hd Ht Hp. destruct (Hup (rate_limit_key action)) as [Hg Hs].
  unfold checkRateLimit. cbn. rewrite Hg. cbn. rewrite Hd, Ht. cbn.
  rewrite Hp. cbn. unfold verdict, block_in_force.
  destruct (match blockedUntil r with
            | Some b => negb (b =? 0) && (now env <? b)
            | None => false
            end); cbn; [reflexivity|].
  destruct (now env - lastRequest r >? 60 * 1000); cbn;
    [rewrite Hs; reflexivity|].
  destruct (requestCount r <? MAX_REQUESTS_PER_MINUTE); cbn; rewrite Hs;
    reflexivity.
Qed.

(** A check that finds a record the guard itself has written. *)
Lemma run_check_written (env : Env) (action : string) (w : World)
    (r : RateLimitData) :
  storage_up env ->
  storage w !! rate_limit_key action = Some (JSON_stringify r) ->
  run env (checkRateLimit action) w =
    (Ok (fst (verdict (now env) r)),
     match snd (verdict (now env) r) with
     | Some r' => write (rate_limit_key action) (JSON_stringify r') w
     | None => w
     end,
     AsyncStorage_getItem (rate_limit_key action) :: Date_now ::
     match snd (verdict (now env) r) with
     | Some r' =>
         [AsyncStorage_setItem (rate_limit_key action) (JSON_stringify r')]
     | None => []
     end).
Proof.
  intros Hup Hd. apply run_check_record with (d := JSON_stringify r); auto.
  - apply truthy_Some, JSON_stringify_truthy.
  - apply JSON_parse_stringify.
Qed.

(** Checks made while a block is in force leave the world as it is. *)
Lemma checks_while_blocked (action : string) (mid : list Env) (w : World)
    (r : RateLimitData) (b : Z) :
  storage w !! rate_limit_key action = Some (JSON_stringify r) ->
  blockedUntil r = Some b -> b <> 0 ->
  Forall storage_up mid ->
  Forall (fun e => now e < b) mid ->
  checks action mid w = w.
Proof.
  intros Hd Hb Hb0 Hup Hlt. induction mid as [|e mid IH]; [reflexivity|].
  inversion Hup; inversion Hlt; subst.
  unfold checks in *. cbn [fold_left].
  rewrite (run_check_written e action w r) by assumption.
  rewrite (verdict_blocked (now e) b r) by assumption.
  cbn [snd world_of fst]. now apply IH.
Qed.

Lemma checks_cons (action : string) (e : Env) (envs : list Env) (w : World) :
  checks action (e :: envs) w =
  checks action envs (world_of (run e (checkRateLimit action) w)).
Proof. reflexivity. Qed.

Lemma checks_app (action : string) (es1 es2 : list Env) (w : World) :
  checks action (es1 ++ es2) w = checks action es2 (checks action es1 w).
Proof. unfold checks. apply fold_left_app. Qed.

Lemma checks_snoc (action : string) (es : list Env) (e : Env) (w : World) :
  checks action (es ++ [e]) w = world_of (check_after action es w e).
Proof. rewrite checks_app. reflexivity. Qed.

(** C5.  Starting from no record for an action, with a storage that
    answers: of four checks each at most 60 seconds after the one before,
    the first three are allowed and the fourth is refused with a wait of
    300 seconds, leaving a record whose [blockedUntil] is the time of the
    fourth check plus 300 seconds; and, whatever checks are made while
    that block is in force, a check made once [blockedUntil] has been
    reached is allowed and leaves a fresh window with [requestCount = 1]
    and no block. *)
Theorem check_three_allowed_fourth_blocked
    (action : string) (w0 : World) (e1 e2 e3 e4 : Env) (mid : list Env)
    (e5 : Env) :
  storage w0 !! rate_limit_key action = None ->
  storage_up e1 -> storage_up e2 -> storage_up e3 -> storage_up e4 ->
  Forall storage_up mid -> storage_up e5 ->
  now e2 - now e1 <= 60 * 1000 ->
  now e3 - now e2 <= 60 * 1000 ->
  now e4 - now e3 <= 60 * 1000 ->
  0 <= now e4 ->
  Forall (fun e => now e < now e4 + 300 * 1000) mid ->
  now e4 + 300 * 1000 <= now e5 ->
  value_of (check_after action [] w0 e1)
    = Ok {| allowed := true; waitTime := None |} /\
  value_of (check_after action [e1] w0 e2)
    = Ok {| allowed := true; waitTime := None |} /\
  value_of (check_after action [e1; e2] w0 e3)
    = Ok {| allowed := true; waitTime := None |} /\
  value_of (check_after action [e1; e2; e3] w0 e4)
    = Ok {| allowed := false; waitTime := Some 300 |} /\
  storage (checks action [e1; e2; e3; e4] w0) !! rate_limit_key action
    = Some (JSON_stringify {| lastRequest := now e4; requestCount := 4;
                              blockedUntil := Some (now e4 + 300 * 1000) |}) /\
  value_of (check_after action ([e1; e2; e3; e4] ++ mid) w0 e5)
    = Ok {| allowed := true; waitTime := None |} /\
  storage (checks action ([e1; e2; e3; e4] ++ mid ++ [e5]) w0)
      !! rate_limit_key action
    = Some (JSON_stringify {| lastRequest := now e5; requestCount := 1;
                              blockedUntil := None |}).
Proof.
  intros H0 U1 U2 U3 U4 Umid U5 G2 G3 G4 Hpos Hmid H5.
  set (key := rate_limit_key action) in *.
  set (r1 := {| lastRequest := now e1; requestCount := 1; blockedUntil := None |}).
  set (r2 := {| lastRequest := now e2; requestCount := 2; blockedUntil := None |}).
  set (r3 := {| lastRequest := now e3; requestCount := 3; blockedUntil := None |}).
  set (r4 := {| lastRequest := now e4; requestCount := 4;
                blockedUntil := Some (now e4 + 300 * 1000) |}).
  set (r5 := {| lastRequest := now e5; requestCount := 1; blockedUntil := None |}).
  (* first check *)
  assert (R1 : run e1 (checkRateLimit action) w0
               = (Ok {| allowed := true; waitTime := None |},
                  write key (JSON_stringify r1) w0,
                  [AsyncStorage_getItem key; Date_now;
                   AsyncStorage_setItem key (JSON_stringify r1)])).
  { apply run_check_absent; [assumption|]. fold key. now rewrite H0. }
  assert (W1 : checks action [e1] w0 = write key (JSON_stringify r1) w0).
  { rewrite checks_cons, R1. reflexivity. }
  (* second check *)
  assert (R2 : run e2 (checkRateLimit action) (write key (JSON_stringify r1) w0)
               = (Ok {| allowed := true; waitTime := None |},
                  write key (JSON_stringify r2) (write key (JSON_stringify r1) w0),
                  [AsyncStorage_getItem key; Date_now;
                   AsyncStorage_setItem key (JSON_stringify r2)])).
  { rewrite (run_check_written e2 action _ r1) by (auto using lookup_write).
    rewrite (verdict_increment (now e2) r1) by (simpl; auto; lia).
    reflexivity. }
  assert (W2 : checks action [e1; e2] w0
               = write key (JSON_stringify r2) (write key (JSON_stringify r1) w0)).
  { rewrite checks_cons, R1. cbn [world_of fst snd].
    rewrite checks_cons, R2. reflexivity. }
  (* third check *)
  assert (R3 : run e3 (checkRateLimit action) (checks action [e1; e2] w0)
               = (Ok {| allowed := true; waitTime := None |},
                  write key (JSON_stringify r3) (checks action [e1; e2] w0),
                  [AsyncStorage_getItem key; Date_now;
                   AsyncStorage_setItem key (JSON_stringify r3)])).
  { rewrite (run_check_written e3 action _ r2)
      by (rewrite ?W2; auto using lookup_write).
    rewrite (verdict_increment (now e3) r2) by (simpl; auto; lia).
    reflexivity. }
  assert (W3 : checks action [e1; e2; e3] w0
               = write key (JSON_stringify r3) (checks action [e1; e2] w0)).
  { change [e1; e2; e3] with ([e1; e2] ++ [e3])%list.
    rewrite checks_snoc. unfold check_after. now rewrite R3. }
  (* fourth check *)
  assert (R4 : run e4 (checkRateLimit action) (checks action [e1; e2; e3] w0)
               = (Ok {| allowed := false; waitTime := Some 300 |},
                  write key (JSON_stringify r4) (checks action [e1; e2; e3] w0),
                  [AsyncStorage_getItem key; Date_now;
                   AsyncStorage_setItem key (JSON_stringify r4)])).
  { rewrite (run_check_written e4 action _ r3)
      by (rewrite ?W3; auto using lookup_write).
    rewrite (verdict_exceeded (now e4) r3) by (simpl; auto; lia).
    reflexivity. }
  assert (W4 : checks action [e1; e2; e3; e4] w0
               = write key (JSON_stringify r4) (checks action [e1; e2; e3] w0)).
  { change [e1; e2; e3; e4] with ([e1; e2; e3] ++ [e4])%list.
    rewrite checks_snoc. unfold check_after. now rewrite R4. }
  assert (L4 : storage (checks action [e1; e2; e3; e4] w0) !! key
               = Some (JSON_stringify r4)).
  { rewrite W4. apply lookup_write. }
  (* checks made during the block *)
  assert (Wmid : checks action ([e1; e2; e3; e4] ++ mid) w0
                 = checks action [e1; e2; e3; e4] w0).
  { rewrite checks_app.
    apply (checks_while_blocked action mid _ r4 (now e4 + 300 * 1000));
      auto. lia. }
  (* the check after the block *)
  assert (R5 : run e5 (checkRateLimit action)
                 (checks action ([e1; e2; e3; e4] ++ mid) w0)
               = (Ok {| allowed := true; waitTime := None |},
                  write key (JSON_stringify r5)
                    (checks action ([e1; e2; e3; e4] ++ mid) w0),
                  [AsyncStorage_getItem key; Date_now;
                   AsyncStorage_setItem key (JSON_stringify r5)])).
  { rewrite (run_check_written e5 action _ r4) by (rewrite ?Wmid; auto).
    rewrite (verdict_reset (now e5) r4); [reflexivity | | simpl; lia].
    unfold block_in_force. simpl.
    destruct (Z.ltb_spec (now e5) (now e4 + 300 * 1000)); [lia|].
    apply andb_false_r. }
  unfold check_after.
  repeat split.
  - change (checks action [] w0) with w0. now rewrite R1.
  - rewrite W1. now rewrite R2.
  - now rewrite R3.
  - now rewrite R4.
  - exact L4.
  - now rewrite R5.
  - rewrite app_assoc, checks_snoc. unfold check_after. rewrite R5.
    apply lookup_write.
Qed.


(** Whatever the environment does, a check leaves the world as it was or
    writes one record: the first of a window when it found no usable
    text, else the one its verdict on the record it read prescribes. *)
Lemma run_check_world (env : Env) (action : string) (w : World) :
  let o := run env (checkRateLimit action) w in
  world_of o = w \/
  exists r', world_of o = write (rate_limit_key action) (JSON_stringify r') w /\
    ((truthy (storage w !! rate_limit_key action) = false /\
      r' = {| lastRequest := now env; requestCount := 1; blockedUntil := None |}) \/
     (exists d r, storage w !! rate_limit_key action = Some d /\
        JSON_parse d = Ok r /\ snd (verdict (now env) r) = Some r')).
Proof.
  unfold checkRateLimit. cbn.
  destruct (getItem_fault env (rate_limit_key action)); cbn; [now left|].
  destruct (truthy (storage w !! rate_limit_key action)) eqn:Ht; cbn.
  - destruct (storage w !! rate_limit_key action) as [d|] eqn:Hd;
      [|discriminate].
    cbn. destruct (JSON_parse d) as [r|e] eqn:Hp; cbn; [|now left].
    destruct (match blockedUntil r with
              | Some b => negb (b =? 0) && (now env <? b)
              | None => false
              end) eqn:E1; cbn; [now left|].
    destruct (now env - lastRequest r >? 60 * 1000) eqn:E2; cbn.
    { destruct (setItem_fault env (rate_limit_key action)); cbn; [now left|].
      right. eexists; split; [reflexivity|]. right.
      exists d, r. repeat split; try assumption.
      unfold verdict, block_in_force. now rewrite E1, E2. }
    destruct (requestCount r <? MAX_REQUESTS_PER_MINUTE) eqn:E3; cbn;
      (destruct (setItem_fault env (rate_limit_key action)); cbn; [now left|];
       right; eexists; split; [reflexivity|]; right;
       exists d, r; repeat split; try assumption;
       unfold verdict, block_in_force; now rewrite E1, E2, E3).
  - destruct (setItem_fault env (rate_limit_key action)); cbn; [now left|].
    right. eexists; split; [reflexivity|]. now left.
Qed.

Lemma verdict_window_ok (now : Z) (r r' : RateLimitData) :
  0 <= now -> window_ok r -> snd (verdict now r) = Some r' -> window_ok r'.
Proof.
  intros Hnow Hr. unfold verdict, block_in_force, window_ok in *.
  destruct Hr as [[Hc Hb] | (Hc & Hl & Hb)]; rewrite Hb; simpl.
  - rewrite Z.gtb_ltb.
    destruct (Z.ltb_spec (60 * 1000) (now - lastRequest r)).
    + intros [= <-]. simpl. left. split; [lia | reflexivity].
    + unfold MAX_REQUESTS_PER_MINUTE, BLOCK_DURATION.
      destruct (Z.ltb_spec (requestCount r) 3); intros [= <-]; simpl.
      * left. split; [lia | reflexivity].
      * right. repeat split; lia.
  - destruct (Z.eqb_spec (lastRequest r + 300 * 1000) 0); [lia|]. simpl.
    destruct (Z.ltb_spec now (lastRequest r + 300 * 1000)); [discriminate|].
    rewrite Z.gtb_ltb.
    destruct (Z.ltb_spec (60 * 1000) (now - lastRequest r)); [|lia].
    intros [= <-]. simpl. left. split; [lia | reflexivity].
Qed.

Lemma check_keeps_record_ok (env : Env) (action : string) (w : World) :
  0 <= now env -> record_ok action w ->
  record_ok action (world_of (run env (checkRateLimit action) w)).
Proof.
  intros Hnow Hw.
  destruct (run_check_world env action w) as [-> | (r' & -> & Hr')];
    [assumption|].
  unfold record_ok. rewrite lookup_write. exists r'. split; [reflexivity|].
  destruct Hr' as [[_ ->] | (d & r & Hd & Hp & Hv)].
  - left. simpl. split; [lia | reflexivity].
  - unfold record_ok in Hw. rewrite Hd in Hw. destruct Hw as (r0 & -> & Hr0).
    rewrite JSON_parse_stringify in Hp. injection Hp as ->.
    eapply verdict_window_ok; eauto.
Qed.

Lemma checks_keep_record_ok (action : string) (envs : list Env) (w : World) :
  Forall (fun e => 0 <= now e) envs -> record_ok action w ->
  record_ok action (checks action envs w).
Proof.
  intros Henvs. revert w. induction Henvs as [|e envs He _ IH]; intros w Hw;
    [assumption|].
  rewrite checks_cons. apply IH. now apply check_keeps_record_ok.
Qed.




(** Whatever the storage does, a check resolves: it never rejects. *)
Lemma check_never_throws (env : Env) (action : string) (w : World) :
  exists res, value_of (run env (checkRateLimit action) w) = Ok res.
Proof.
  unfold checkRateLimit. cbn.
  destruct (getItem_fault env (rate_limit_key action)); cbn; [eauto|].
  destruct (truthy (storage w !! rate_limit_key action)); cbn.
  - destruct (JSON_parse _) as [r|e]; cbn; [|eauto].
    destruct (match blockedUntil r with
              | Some b => negb (b =? 0) && (now env <? b)
              | None => false
              end); cbn; [eauto|].
    destruct (now env - lastRequest r >? 60 * 1000); cbn.
    { destruct (setItem_fault env (rate_limit_key action)); cbn; eauto. }
    destruct (requestCount r <? MAX_REQUESTS_PER_MINUTE); cbn;
      destruct (setItem_fault env (rate_limit_key action)); cbn; eauto.
  - destruct (setItem_fault env (rate_limit_key action)); cbn; eauto.
Qed.

(** C10.  From a storage with no record for an action, after any sequence
    of checks of that action (at clock readings not before the epoch,
    whether or not the storage answers each of them), the stored text, if
    there is one, is the text of a record whose [requestCount] is between
    1 and 4; a check that finds a record whose [blockedUntil] is in the
    future writes nothing; and a check that does write sets the count to
    1 (creation, window reset) or to one more than the count it read,
    which was below 3, or was at least 3 and the block is installed with
    it. *)
Theorem requestCount_between_1_and_4
    (action : string) (envs : list Env) (w : World) :
  storage w !! rate_limit_key action = None ->
  Forall (fun e => 0 <= now e) envs ->
  match storage (checks action envs w) !! rate_limit_key action with
  | None => True
  | Some d => exists r, d = JSON_stringify r /\ JSON_parse d = Ok r /\
                        1 <= requestCount r <= 4
  end /\
  (forall (env : Env) (w' : World) (r : RateLimitData) (b : Z),
     storage_up env ->
     storage w' !! rate_limit_key action = Some (JSON_stringify r) ->
     blockedUntil r = Some b -> 0 <= now env < b ->
     world_of (run env (checkRateLimit action) w') = w') /\
  (forall (env : Env) (w' : World) (r : RateLimitData),
     storage_up env ->
     storage w' !! rate_limit_key action = Some (JSON_stringify r) ->
     storage (world_of (run env (checkRateLimit action) w'))
         !! rate_limit_key action = Some (JSON_stringify r) \/
     exists r',
       storage (world_of (run env (checkRateLimit action) w'))
         !! rate_limit_key action = Some (JSON_stringify r') /\
       (requestCount r' = 1 \/
        (requestCount r' = requestCount r + 1 /\ requestCount r < 3 /\
         blockedUntil r' = None) \/
        (requestCount r' = requestCount r + 1 /\ 3 <= requestCount r /\
         blockedUntil r' = Some (now env + 300 * 1000)))).
Proof.
  intros H0 Henvs. refine (conj _ (conj _ _)).
  - assert (Hok : record_ok action (checks action envs w)).
    { apply checks_keep_record_ok; [assumption|].
      unfold record_ok. now rewrite H0. }
    unfold record_ok in Hok.
    destruct (storage (checks action envs w) !! rate_limit_key action);
      [|exact I].
    destruct Hok as (r & -> & Hr). exists r.
    split; [reflexivity|]. split; [apply JSON_parse_stringify|].
    unfold window_ok in Hr. lia.
  - intros env w' r b Hup Hd Hb Hnow.
    rewrite (run_check_written env action w' r) by assumption.
    rewrite (verdict_blocked (now env) b r) by (auto; lia).
    reflexivity.
  - intros env w' r Hup Hd.
    rewrite (run_check_written env action w' r) by assumption.
    cbn [world_of fst snd].
    destruct (snd (verdict (now env) r)) as [r'|] eqn:Hv; [|now left].
    right. exists r'. split; [apply lookup_write|].
    now apply verdict_count.
Qed.

End RateLimitGuardFacts.

(* ===================================================================== *)
(** ** RateLimitGuard on unchecked contents *)
(* ===================================================================== *)

(** Running a check without computing on the values it has read. *)
Ltac js_cbn :=
  cbn -[Unchecked.lt Unchecked.gt Unchecked.minus Unchecked.plus
        Unchecked.ToBoolean Unchecked.ToNumber Unchecked.of_number].

Section UncheckedGuardFacts.
Variable stringify : Unchecked.Obj -> string.
Variable parse : string -> result (option Unchecked.Obj).

(** A check along every answer of the storage and of [JSON.parse]: what
    it resolves to, the world it leaves and the commands it issues. *)
Lemma run_unchecked_check (env : Env) (action : string) (w : World) :
  let key := rate_limit_key action in
  let fail_open := {| allowed := true; waitTime := None |} in
  let log := console_error "Rate limit check error:" in
  let attempt (res : RateLimitResult) (d' : Unchecked.Obj) :=
    match setItem_fault env key with
    | None =>
        (Ok res, write key (stringify d') w,
         [AsyncStorage_getItem key; Date_now;
          AsyncStorage_setItem key (stringify d')])
    | Some _ =>
        (Ok fail_open, w,
         [AsyncStorage_getItem key; Date_now;
          AsyncStorage_setItem key (stringify d'); log])
    end in
  run env (Unchecked.checkRateLimit stringify parse action) w =
    match getItem_fault env key with
    | Some _ => (Ok fail_open, w, [AsyncStorage_getItem key; log])
    | None =>
        if truthy (storage w !! key) then
          match parse (default "" (storage w !! key)) with
          | Throw _ | Ok None =>
              (Ok fail_open, w, [AsyncStorage_getItem key; Date_now; log])
          | Ok (Some d) =>
              match snd (Unchecked.verdict (now env) d) with
              | None =>
                  (Ok (fst (Unchecked.verdict (now env) d)), w,
                   [AsyncStorage_getItem key; Date_now])
              | Some d' => attempt (fst (Unchecked.verdict (now env) d)) d'
              end
          end
        else
          attempt fail_open
            {| Unchecked.lastRequest := Unchecked.number (now env);
               Unchecked.requestCount := Unchecked.number 1;
               Unchecked.blockedUntil := Unchecked.undefined |}
    end.
Proof.
  cbv zeta. unfold Unchecked.checkRateLimit. js_cbn.
  destruct (getItem_fault env (rate_limit_key action)); js_cbn;
    [reflexivity|].
  destruct (truthy (storage w !! rate_limit_key action)); js_cbn.
  - destruct (parse _) as [[d|]|e]; js_cbn; [|reflexivity|reflexivity].
    unfold Unchecked.verdict, Unchecked.block_in_force.
    destruct (Unchecked.ToBoolean (Unchecked.blockedUntil d)
              && Unchecked.lt (Some (now env))
                   (Unchecked.ToNumber (Unchecked.blockedUntil d)));
      js_cbn; [reflexivity|].
    destruct (Unchecked.gt _ _); js_cbn.
    { destruct (setItem_fault env (rate_limit_key action)); reflexivity. }
    destruct (Unchecked.lt _ _); js_cbn;
      destruct (setItem_fault env (rate_limit_key action)); reflexivity.
  - destruct (setItem_fault env (rate_limit_key action)); reflexivity.
Qed.

(** The verdict on the empty object: neither blocked, nor past the
    window, nor within the limit. *)
Lemma verdict_empty (now : Z) (d : Unchecked.Obj) :
  Unchecked.lastRequest d = Unchecked.undefined ->
  Unchecked.requestCount d = Unchecked.undefined ->
  Unchecked.blockedUntil d = Unchecked.undefined ->
  Unchecked.verdict now d =
    ({| allowed := false; waitTime := Some 300 |},
     Some {| Unchecked.lastRequest := Unchecked.number now;
             Unchecked.requestCount := Unchecked.NaN;
             Unchecked.blockedUntil :=
               Unchecked.number (now + BLOCK_DURATION) |}).
Proof.
  intros H1 H2 H3. unfold Unchecked.verdict, Unchecked.block_in_force.
  rewrite H1, H2, H3. reflexivity.
Qed.

(** C7 (amended).  A check never rejects.  When the read of the record
    is rejected, when [JSON.parse] throws on the stored text, and when
    the text denotes [null], the check fails open: it resolves to
    [allowed: true] with no wait, the failure is logged with
    [console.error], and the world is left as it was.  Conversely a check
    that logs has failed open and has changed nothing, and it logs only
    on such a failure or when the storage rejects its write.  A text that
    parses to a value whose fields can be read is never taken for
    corrupted, whatever its fields: the check gives its verdict on the
    fields it finds and logs nothing; on the empty object it is refused
    with a wait of 300 seconds and a block is written. *)
Theorem check_fails_open (env : Env) (action : string) (w : World) :
  let key := rate_limit_key action in
  let o := run env (Unchecked.checkRateLimit stringify parse action) w in
  let log := console_error "Rate limit check error:" in
  let fails :=
    is_Some (getItem_fault env key) \/
    exists d, storage w !! key = Some d /\ truthy (Some d) = true /\
              ((exists e, parse d = Throw e) \/ parse d = Ok None) in
  (exists res, value_of o = Ok res) /\
  (fails ->
     value_of o = Ok {| allowed := true; waitTime := None |} /\
     In log (trace_of o) /\
     world_of o = w /\
     (forall text, ~ In (AsyncStorage_setItem key text) (trace_of o))) /\
  (In log (trace_of o) ->
     value_of o = Ok {| allowed := true; waitTime := None |} /\
     world_of o = w /\
     (fails \/ is_Some (setItem_fault env key))) /\
  (forall d v,
     getItem_fault env key = None -> setItem_fault env key = None ->
     storage w !! key = Some d -> truthy (Some d) = true ->
     parse d = Ok (Some v) ->
     ~ In log (trace_of o) /\
     value_of o = Ok (fst (Unchecked.verdict (now env) v)) /\
     world_of o = match snd (Unchecked.verdict (now env) v) with
                  | Some d' => write key (stringify d') w
                  | None => w
                  end /\
     (Unchecked.lastRequest v = Unchecked.undefined ->
      Unchecked.requestCount v = Unchecked.undefined ->
      Unchecked.blockedUntil v = Unchecked.undefined ->
        value_of o = Ok {| allowed := false; waitTime := Some 300 |} /\
        storage (world_of o) !! key
        = Some (stringify
                  {| Unchecked.lastRequest := Unchecked.number (now env);
                     Unchecked.requestCount := Unchecked.NaN;
                     Unchecked.blockedUntil :=
                       Unchecked.number (now env + BLOCK_DURATION) |}))).
Proof.
  intros key o log fails. subst o. rewrite run_unchecked_check. fold key log.
  destruct (getItem_fault env key) as [eg|] eqn:Hg.
  { cbn [value_of world_of trace_of fst snd].
    refine (conj _ (conj _ (conj _ _))).
    - eauto.
    - intros _. refine (conj eq_refl (conj _ (conj eq_refl _)));
        [is_issued | intros text H; in_trace H].
    - intros _. refine (conj eq_refl (conj eq_refl _)). left. left. eauto.
    - intros d v [=]. }
  destruct (truthy (storage w !! key)) eqn:Ht.
  2:{ assert (Hnot : ~ fails).
      { intros [[? [=]] | (d & Hd & Htd & _)]. rewrite Hd in Ht. congruence. }
      destruct (setItem_fault env key) as [es|] eqn:Hs;
        cbn [value_of world_of trace_of fst snd].
      - refine (conj _ (conj _ (conj _ _))).
        + eauto.
        + intros H. contradiction.
        + intros _. refine (conj eq_refl (conj eq_refl _)). right. eauto.
        + intros d v _ [=].
      - refine (conj _ (conj _ (conj _ _))).
        + eauto.
        + intros H. contradiction.
        + intros H. in_trace H.
        + intros d v _ _ Hd Htd. rewrite Hd in Ht. congruence. }
  destruct (storage w !! key) as [d|] eqn:Hd; [|discriminate].
  cbn [default from_option id].
  destruct (parse d) as [[v|]|e] eqn:Hp.
  - assert (Hnot : ~ fails).
    { intros [[? [=]] | (d' & [= <-] & _ & [[e He] | He])]; congruence. }
    destruct (snd (Unchecked.verdict (now env) v)) as [d'|] eqn:Hv.
    + destruct (setItem_fault env key) as [es|] eqn:Hs;
        cbn [value_of world_of trace_of fst snd].
      * refine (conj _ (conj _ (conj _ _))).
        -- eauto.
        -- intros H. contradiction.
        -- intros _. refine (conj eq_refl (conj eq_refl _)). right. eauto.
        -- intros d0 v0 _ [=].
      * refine (conj _ (conj _ (conj _ _))).
        -- eauto.
        -- intros H. contradiction.
        -- intros H. in_trace H.
        -- intros d0 v0 _ _ [= <-] _ Hp'; rewrite Hp in Hp'; injection Hp' as <-.
           rewrite Hv.
           refine (conj _ (conj eq_refl (conj eq_refl _)));
             [intros H; in_trace H|].
           intros H1 H2 H3. rewrite (verdict_empty (now env) v H1 H2 H3) in *.
           injection Hv as <-. split; [reflexivity | apply lookup_write].
    + cbn [value_of world_of trace_of fst snd].
      refine (conj _ (conj _ (conj _ _))).
      * eauto.
      * intros H. contradiction.
      * intros H. in_trace H.
      * intros d0 v0 _ _ [= <-] _ Hp'; rewrite Hp in Hp'; injection Hp' as <-.
        rewrite Hv.
        refine (conj _ (conj eq_refl (conj eq_refl _)));
          [intros H; in_trace H|].
        intros H1 H2 H3. rewrite (verdict_empty (now env) v H1 H2 H3) in Hv.
        discriminate.
  - assert (Hf : fails) by (right; exists d; auto).
    cbn [value_of world_of trace_of fst snd].
    refine (conj _ (conj _ (conj _ _))).
    + eauto.
    + intros _. refine (conj eq_refl (conj _ (conj eq_refl _)));
        [is_issued | intros text H; in_trace H].
    + intros _. refine (conj eq_refl (conj eq_refl _)). now left.
    + intros d0 v0 _ _ [= <-] _ Hp'; rewrite Hp in Hp'; discriminate.
  - assert (Hf : fails) by (right; exists d; eauto).
    cbn [value_of world_of trace_of fst snd].
    refine (conj _ (conj _ (conj _ _))).
    + eauto.
    + intros _. refine (conj eq_refl (conj _ (conj eq_refl _)));
        [is_issued | intros text H; in_trace H].
    + intros _. refine (conj eq_refl (conj eq_refl _)). now left.
    + intros d0 v0 _ _ [= <-] _ Hp'; rewrite Hp in Hp'; discriminate.
Qed.

End UncheckedGuardFacts.

(** On the texts of records the two models are one: at the codec that
    knows nothing but records, the check on unchecked contents is the
    typed check. *)
Lemma unchecked_check_on_records `{J : JSON RateLimitData}
    (env : Env) (action : string) (w : World) :
  run env (Unchecked.checkRateLimit stringify_record parse_record action) w
  = run env (checkRateLimit action) w.
Proof.
  unfold Unchecked.checkRateLimit, checkRateLimit, parse_record,
    stringify_record. cbn.
  destruct (getItem_fault env (rate_limit_key action)); cbn; [reflexivity|].
  destruct (truthy (storage w !! rate_limit_key action)); cbn; [|reflexivity].
  destruct (JSON_parse _) as [[l c [b|]]|e]; cbn; [| |reflexivity].
  - destruct (negb (b =? 0) && (now env <? b)); cbn; [reflexivity|].
    destruct (now env - l >? 60 * 1000); cbn; [reflexivity|].
    destruct (c <? MAX_REQUESTS_PER_MINUTE); reflexivity.
  - destruct (now env - l >? 60 * 1000); cbn; [reflexivity|].
    destruct (c <? MAX_REQUESTS_PER_MINUTE); reflexivity.
Qed.

(** *** Concrete instances *)

Lemma storage_up_offline (t : Z) : storage_up (Sample.offline t).
Proof. intros key. split; reflexivity. Defined.

Lemma storage_up_remote (t : Z) v q rs : storage_up (Sample.remote t v q rs).
Proof. intros key. split; reflexivity. Defined.

(** Four checks of ["otp_resend"] at seconds 1, 2, 3 and 4, two more while
    the block is in force, and one at second 304. *)
Lemma check_three_allowed_fourth_blocked_witness :
  let e := Sample.offline in
  let w0 := Sample.registration in
  value_of (check_after "otp_resend" [] w0 (e 1000))
    = Ok {| allowed := true; waitTime := None |} /\
  value_of (check_after "otp_resend" [e 1000] w0 (e 2000))
    = Ok {| allowed := true; waitTime := None |} /\
  value_of (check_after "otp_resend" [e 1000; e 2000] w0 (e 3000))
    = Ok {| allowed := true; waitTime := None |} /\
  value_of (check_after "otp_resend" [e 1000; e 2000; e 3000] w0 (e 4000))
    = Ok {| allowed := false; waitTime := Some 300 |} /\
  storage (checks "otp_resend" [e 1000; e 2000; e 3000; e 4000] w0)
      !! rate_limit_key "otp_resend"
    = Some (JSON_stringify {| lastRequest := 4000; requestCount := 4;
                              blockedUntil := Some (4000 + 300 * 1000) |}) /\
  value_of (check_after "otp_resend"
              ([e 1000; e 2000; e 3000; e 4000] ++ [e 5000; e 200000])
              w0 (e 304000))
    = Ok {| allowed := true; waitTime := None |} /\
  storage (checks "otp_resend"
             ([e 1000; e 2000; e 3000; e 4000] ++ [e 5000; e 200000]
              ++ [e 304000]) w0)
      !! rate_limit_key "otp_resend"
    = Some (JSON_stringify {| lastRequest := 304000; requestCount := 1;
                              blockedUntil := None |}).
Proof.
  intros e w0.
  apply (check_three_allowed_fourth_blocked "otp_resend" w0
           (e 1000) (e 2000) (e 3000) (e 4000) [e 5000; e 200000] (e 304000));
    try apply storage_up_offline;
    try (repeat constructor; try apply storage_up_offline; simpl; lia);
    try (simpl; lia).
Defined.



(** C7 at a storage whose reads reject, at a stored text that is cut
    short, and at the stored text [null]. *)
Lemma check_fails_open_witness :
  let check := Unchecked.checkRateLimit UncheckedJSON.stringify
                 UncheckedJSON.parse "otp_resend" in
  (let o := run (Sample.unreadable 2000) check Sample.resend_blocked in
   value_of o = Ok {| allowed := true; waitTime := None |} /\
   In (console_error "Rate limit check error:") (trace_of o) /\
   world_of o = Sample.resend_blocked) /\
  (let o := run (Sample.offline 2000) check Sample.corrupted in
   value_of o = Ok {| allowed := true; waitTime := None |} /\
   In (console_error "Rate limit check error:") (trace_of o) /\
   world_of o = Sample.corrupted) /\
  (let w := {| storage := {[ rate_limit_key "otp_resend" := "null" ]};
               screen := Sample.fresh_screen register |} in
   let o := run (Sample.offline 2000) check w in
   value_of o = Ok {| allowed := true; waitTime := None |} /\
   In (console_error "Rate limit check error:") (trace_of o) /\
   world_of o = w).
Proof.
  intros check. refine (conj _ (conj _ _)).
  - destruct (check_fails_open UncheckedJSON.stringify UncheckedJSON.parse
                (Sample.unreadable 2000) "otp_resend" Sample.resend_blocked)
      as (_ & H & _).
    destruct H as (H1 & H2 & H3 & _);
      [left; exists "Failed to read from storage"; reflexivity|].
    exact (conj H1 (conj H2 H3)).
  - destruct (check_fails_open UncheckedJSON.stringify UncheckedJSON.parse
                (Sample.offline 2000) "otp_resend" Sample.corrupted)
      as (_ & H & _).
    destruct H as (H1 & H2 & H3 & _).
    { right. exists "{lastRequest:".
      refine (conj (lookup_singleton_eq _ _) (conj eq_refl _)).
      left. exists CanonicalJSON.syntax_error. reflexivity. }
    exact (conj H1 (conj H2 H3)).
  - intros w.
    destruct (check_fails_open UncheckedJSON.stringify UncheckedJSON.parse
                (Sample.offline 2000) "otp_resend" w) as (_ & H & _).
    destruct H as (H1 & H2 & H3 & _).
    { right. exists "null".
      refine (conj (lookup_singleton_eq _ _) (conj eq_refl _)).
      right. reflexivity. }
    exact (conj H1 (conj H2 H3)).
Defined.

(** C7 as stated fails on contents that are corrupted and still parse:
    with the empty object stored for ["otp_resend"], a check at second 2
    does not fail open.  It is refused with a wait of 300 seconds, logs
    nothing, and writes a block until second 302 over the corrupted
    contents; a second check, one second later, is refused as well. *)
Lemma corrupted_contents_are_refused :
  let check := Unchecked.checkRateLimit UncheckedJSON.stringify
                 UncheckedJSON.parse "otp_resend" in
  let o := run (Sample.offline 2000) check emptied in
  UncheckedJSON.parse "{}" = Ok (Some UncheckedJSON.empty) /\
  value_of o = Ok {| allowed := false; waitTime := Some 300 |} /\
  ~ In (console_error "Rate limit check error:") (trace_of o) /\
  storage (world_of o) !! rate_limit_key "otp_resend"
  = Some (UncheckedJSON.stringify
            {| Unchecked.lastRequest := Unchecked.number 2000;
               Unchecked.requestCount := Unchecked.NaN;
               Unchecked.blockedUntil := Unchecked.number 302000 |}) /\
  value_of (run (Sample.offline 3000) check (world_of o))
  = Ok {| allowed := false; waitTime := Some 299 |}.
Proof.
  cbv zeta.
  assert (Hrun : run (Sample.offline 2000)
                   (Unchecked.checkRateLimit UncheckedJSON.stringify
                      UncheckedJSON.parse "otp_resend") emptied
                 = (Ok {| allowed := false; waitTime := Some 300 |},
                    write (rate_limit_key "otp_resend")
                      (UncheckedJSON.stringify
                         {| Unchecked.lastRequest := Unchecked.number 2000;
                            Unchecked.requestCount := Unchecked.NaN;
                            Unchecked.blockedUntil :=
                              Unchecked.number 302000 |})
                      emptied,
                    [AsyncStorage_getItem (rate_limit_key "otp_resend");
                     Date_now;
                     AsyncStorage_setItem (rate_limit_key "otp_resend")
                       (UncheckedJSON.stringify
                          {| Unchecked.lastRequest := Unchecked.number 2000;
                             Unchecked.requestCount := Unchecked.NaN;
                             Unchecked.blockedUntil :=
                               Unchecked.number 302000 |})])).
  { rewrite run_unchecked_check.
    change (getItem_fault (Sample.offline 2000) _) with (@None string).
    change (setItem_fault (Sample.offline 2000) _) with (@None string).
    unfold emptied at 1 2. cbn [storage].
    rewrite lookup_singleton_eq. reflexivity. }
  rewrite Hrun. cbn [value_of world_of trace_of fst snd].
  refine (conj eq_refl (conj eq_refl (conj _ (conj _ _)))).
  - intros H; in_trace H.
  - apply lookup_write.
  - rewrite run_unchecked_check.
    change (getItem_fault (Sample.offline 3000) _) with (@None string).
    rewrite lookup_write. reflexivity.
Qed.

(** C10 along six checks of ["otp_resend"]: four in a row, one under the
    block, one after it. *)
Lemma requestCount_between_1_and_4_witness :
  let e := Sample.offline in
  let envs := [e 1000; e 2000; e 3000; e 4000; e 5000; e 400000] in
  match storage (checks "otp_resend" envs Sample.registration)
          !! rate_limit_key "otp_resend" with
  | None => True
  | Some d => exists r, d = JSON_stringify r /\ JSON_parse d = Ok r /\
                        1 <= requestCount r <= 4
  end /\
  (forall (env : Env) (w' : World) (r : RateLimitData) (b : Z),
     storage_up env ->
     storage w' !! rate_limit_key "otp_resend" = Some (JSON_stringify r) ->
     blockedUntil r = Some b -> 0 <= now env < b ->
     world_of (run env (checkRateLimit "otp_resend") w') = w') /\
  (forall (env : Env) (w' : World) (r : RateLimitData),
     storage_up env ->
     storage w' !! rate_limit_key "otp_resend" = Some (JSON_stringify r) ->
     storage (world_of (run env (checkRateLimit "otp_resend") w'))
         !! rate_limit_key "otp_resend" = Some (JSON_stringify r) \/
     exists r',
       storage (world_of (run env (checkRateLimit "otp_resend") w'))
         !! rate_limit_key "otp_resend" = Some (JSON_stringify r') /\
       (requestCount r' = 1 \/
        (requestCount r' = requestCount r + 1 /\ requestCount r < 3 /\
         blockedUntil r' = None) \/
        (requestCount r' = requestCount r + 1 /\ 3 <= requestCount r /\
         blockedUntil r' = Some (now env + 300 * 1000)))).
Proof.
  intros e envs.
  apply (requestCount_between_1_and_4 "otp_resend" envs Sample.registration).
  - apply lookup_singleton_ne. discriminate.
  - repeat constructor; simpl; lia.
Defined.

(* ===================================================================== *)
(** ** VerificationController: [handleVerify] *)
(* ===================================================================== *)

(** Case analysis on what the environment answers along a run. *)
Ltac env_case :=
  match goal with
  | |- context [verifyOtp ?e ?a ?b ?c] =>
      let v := fresh "Hverify" in
      destruct (verifyOtp e a b c) as [[? ? [?|]]|?] eqn:v
  | |- context [getSession ?e] =>
      let q := fresh "Hsession" in
      destruct (getSession e) as [[[?|] [?|]]|?] eqn:q
  | |- context [resend ?e ?a ?b] =>
      let q := fresh "Hresend" in
      destruct (resend e a b) as [[?|]|?] eqn:q
  | |- context [resetPasswordForEmail ?e ?a] =>
      let q := fresh "Hreset" in
      destruct (resetPasswordForEmail e a) as [[?|]|?] eqn:q
  | |- context [removeItem_fault ?e ?k] =>
      let q := fresh "Hremove" in
      destruct (removeItem_fault e k) eqn:q
  | |- context [if JSString.includes ?a ?b then _ else _] =>
      let i := fresh "Hincl" in
      destruct (JSString.includes a b) eqn:i
  | |- context [if ?a || ?b then _ else _] =>
      let i := fresh "Hor" in
      destruct (a || b) eqn:i
  | |- context [if negb (bool_decide (is_Some ?u)) && negb ?s then _ else _] =>
      let i := fresh "Hnone" in
      destruct (negb (bool_decide (is_Some u)) && negb s) eqn:i
  end; cbn.

(** Running a handler once, apart from the statement about the run: the
    run is named, computed along every answer of the environment, and
    only then put back. *)
Ltac run_cases :=
  match goal with
  | |- context [run ?env ?p ?w] =>
      let o := fresh "o" in
      let Ho := fresh "Ho" in
      remember (run env p w) as o eqn:Ho; revert Ho;
      cbn; repeat env_case; intros ->
  end.

(** A trigger while a verification is in progress does nothing. *)
Lemma handleVerify_in_progress (s : Screen) (otp : string) :
  verifying s = true -> handleVerify s otp = ret tt.
Proof. intros Hv. unfold handleVerify. now rewrite Hv. Qed.

(** A code of the wrong format is answered locally. *)
Lemma handleVerify_bad_format (s : Screen) (otp : string) :
  verifying s = false -> isValidOTP otp = false ->
  handleVerify s otp =
    Vis (Alert_alert "Invalid Format"
           "Please enter a valid 6-digit verification code.")
        (fun _ => ret tt).
Proof. intros Hv Hf. unfold handleVerify. now rewrite Hv, Hf. Qed.

(** One attempt: the flow and the address of the screen stay as they are,
    the in-progress flag is lowered again, and a remote verification, if
    one is made, is for the screen's address, the code entered and the
    discriminator of the screen's flow. *)
Lemma handleVerify_attempt (env : Env) (w : World) (otp : string) :
  let o := run env (handleVerify (screen w) otp) w in
  type (screen (world_of o)) = type (screen w) /\
  email (screen (world_of o)) = email (screen w) /\
  (verifying (screen w) = false -> verifying (screen (world_of o)) = false) /\
  (forall e token ty, In (auth_verifyOtp e token ty) (trace_of o) ->
     e = email (screen w) /\ token = otp /\
     ty = flow_discriminator (type (screen w))) /\
  (verifying (screen w) = false -> isValidOTP otp = true ->
   In (auth_verifyOtp (email (screen w)) otp
         (flow_discriminator (type (screen w)))) (trace_of o)).
Proof.
  destruct (verifying (screen w)) eqn:Hv.
  { rewrite handleVerify_in_progress by assumption. cbn.
    refine (conj _ (conj _ (conj _ (conj _ _)))); try reflexivity;
      try (intros; discriminate); intros ? ? ? []. }
  destruct (isValidOTP otp) eqn:Hf.
  2:{ rewrite handleVerify_bad_format by assumption. cbn.
      refine (conj _ (conj _ (conj _ (conj _ _)))); try reflexivity;
        try (intros; discriminate); try (intros _; assumption);
        intros ? ? ? H; in_trace H. }
  unfold handleVerify. rewrite Hv, Hf. run_cases.
  all: cbn.
  all: refine (conj _ (conj _ (conj _ (conj _ _)))); try reflexivity;
         try (intros _; reflexivity).
  all: try (intros ? ? ? H; in_trace H; injection H as <- <- <-;
            repeat split; reflexivity).
  all: intros _ _; right; right; right; right; left; reflexivity.
Qed.

(** What a sequence of attempts keeps true. *)
Lemma attempts_keep (T : FlowType) (E : string) (tries : list (Env * string))
    (acc : World * list Cmd) :
  let P := fun acc : World * list Cmd =>
    type (screen (fst acc)) = T /\
    email (screen (fst acc)) = E /\
    verifying (screen (fst acc)) = false /\
    (forall e token ty, In (auth_verifyOtp e token ty) (snd acc) ->
       e = E /\ ty = flow_discriminator T) in
  P acc ->
  P (fold_left
       (fun acc t =>
          let o := run (fst t) (handleVerify (screen (fst acc)) (snd t)) (fst acc) in
          (world_of o, (snd acc ++ trace_of o)%list))
       tries acc).
Proof.
  intros P. revert acc. induction tries as [|[env otp] tries IH];
    intros acc Hacc; [exact Hacc|].
  cbn [fold_left]. apply IH. clear IH.
  destruct acc as [w tr]. destruct Hacc as (HT & HE & HV & Htr).
  cbn [fst snd] in *.
  destruct (handleVerify_attempt env w otp) as (H1 & H2 & H3 & H4 & _).
  unfold P. cbn [fst snd].
  refine (conj _ (conj _ (conj _ _))).
  - now rewrite H1.
  - now rewrite H2.
  - now apply H3.
  - intros e token ty Hin. apply in_app_or in Hin as [Hin | Hin].
    + exact (Htr e token ty Hin).
    + apply H4 in Hin as (-> & _ & ->). now rewrite HT, HE.
Qed.

(** C2.  Along any sequence of verification attempts, whatever the codes
    entered and whatever the remote service answers to each (failures
    included), every remote verification is made with the discriminator of
    the screen's flow, ["signup"] for Registration and ["recovery"] for
    Recovery, and never with that of the other flow; and after such a
    sequence an attempt with a well-formed code does reach the remote
    service, with that discriminator. *)
Theorem verify_passes_the_flow_discriminator
    (tries : list (Env * string)) (w : World) :
  verifying (screen w) = false ->
  let w' := fst (attempts tries w) in
  let tr := snd (attempts tries w) in
  (forall e token ty, In (auth_verifyOtp e token ty) tr ->
     ty = flow_discriminator (type (screen w))) /\
  (type (screen w) = register ->
     forall e token, ~ In (auth_verifyOtp e token OtpType.recovery) tr) /\
  (type (screen w) = reset ->
     forall e token, ~ In (auth_verifyOtp e token OtpType.signup) tr) /\
  (forall env otp, isValidOTP otp = true ->
     In (auth_verifyOtp (email (screen w)) otp
           (flow_discriminator (type (screen w))))
        (trace_of (run env (handleVerify (screen w') otp) w'))).
Proof.
  intros Hv w' tr. subst w' tr. unfold attempts.
  pose proof (attempts_keep (type (screen w)) (email (screen w)) tries (w, []))
    as K.
  cbv beta zeta in K.
  match type of K with
  | _ -> type (screen (fst ?a)) = _ /\ _ => set (acc := a) in *
  end.
  destruct K as (HT & HE & HV & Htr).
  { cbn. refine (conj eq_refl (conj eq_refl (conj Hv _))). intros ? ? ? []. }
  refine (conj _ (conj _ (conj _ _))).
  - intros e token ty Hin. now apply Htr in Hin.
  - intros Hreg e token Hin. apply Htr in Hin as [_ Hin].
    rewrite Hreg in Hin. discriminate.
  - intros Hres e token Hin. apply Htr in Hin as [_ Hin].
    rewrite Hres in Hin. discriminate.
  - intros env otp Hf.
    destruct (handleVerify_attempt env (fst acc) otp) as (_ & _ & _ & _ & H5).
    rewrite HT, HE in H5. now apply H5.
Qed.

(** Two attempts on the registration screen: a code the remote service
    reports as expired, then another one. *)
Lemma verify_passes_the_flow_discriminator_witness :
  let tries :=
    [(Sample.remote 1000 (Ok Sample.expired) (Ok Sample.no_session) (Ok None),
      "000000");
     (Sample.remote 9000 (Ok Sample.verified) (Ok Sample.session) (Ok None),
      "123456")] in
  let w := Sample.registration in
  let w' := fst (attempts tries w) in
  let tr := snd (attempts tries w) in
  (forall e token ty, In (auth_verifyOtp e token ty) tr ->
     ty = flow_discriminator (type (screen w))) /\
  (type (screen w) = register ->
     forall e token, ~ In (auth_verifyOtp e token OtpType.recovery) tr) /\
  (type (screen w) = reset ->
     forall e token, ~ In (auth_verifyOtp e token OtpType.signup) tr) /\
  (forall env otp, isValidOTP otp = true ->
     In (auth_verifyOtp (email (screen w)) otp
           (flow_discriminator (type (screen w))))
        (trace_of (run env (handleVerify (screen w') otp) w'))).
Proof.
  intros tries w.
  exact (verify_passes_the_flow_discriminator tries w eq_refl).
Defined.

(** C3 (amended).  Success is never signalled before the session query
    has been made, and only when that query found a session.  When the
    remote verification succeeds (no error, and a user or a session in
    the reply) the remote operations are the verification and then the
    session query, and what follows depends on the query alone: if it
    finds a session, the one outcome is Success; if it reports an error
    or finds no session, the one outcome is SessionMissing and the user
    is sent to [/login]; if the query itself rejects, the one outcome is
    NetworkOrUnknown (the alert of the [catch] block) and the user is not
    sent to [/login].  In the last two cases success is not signalled, no
    storage command is issued and the storage, the pending verification
    record with it, is left as it was. *)
Theorem verify_confirms_session_before_success
    (env : Env) (w : World) (otp : string) :
  let o := run env (handleVerify (screen w) otp) w in
  preceded_by is_getSession is_success (trace_of o) = true /\
  (In Success (outcomes (trace_of o)) ->
     exists uid, getSession env =
       Ok {| sessionData_session := Some uid; sessionError := None |}) /\
  (verifying (screen w) = false -> isValidOTP otp = true ->
   forall user session,
     verifyOtp env (email (screen w)) otp
         (flow_discriminator (type (screen w)))
       = Ok {| data_user := user; data_session := session;
               error_message := None |} ->
     is_Some user \/ session = true ->
     In auth_getSession (trace_of o) /\
     List.filter is_remote (trace_of o)
       = [auth_verifyOtp (email (screen w)) otp
            (flow_discriminator (type (screen w))); auth_getSession] /\
     (forall uid,
        getSession env
          = Ok {| sessionData_session := Some uid; sessionError := None |} ->
        outcomes (trace_of o) = [Success] /\
        ~ In (router_push "/login") (trace_of o)) /\
     (forall q, getSession env = Ok q ->
        is_Some (sessionError q) \/ sessionData_session q = None ->
        outcomes (trace_of o) = [SessionMissing] /\
        In (router_push "/login") (trace_of o) /\
        count is_storage (trace_of o) = 0%nat /\
        storage (world_of o) = storage w) /\
     (forall e, getSession env = Throw e ->
        outcomes (trace_of o) = [NetworkOrUnknown] /\
        In (Alert_alert "Verification Error"
              "An unexpected error occurred during verification. Please try again.")
           (trace_of o) /\
        ~ In (router_push "/login") (trace_of o) /\
        ~ In Success (outcomes (trace_of o)) /\
        count is_storage (trace_of o) = 0%nat /\
        storage (world_of o) = storage w)).
Proof.
  unfold flow_discriminator.
  destruct (verifying (screen w)) eqn:Hv.
  { rewrite handleVerify_in_progress by assumption. cbn.
    refine (conj eq_refl (conj _ _)); [intros [] | discriminate]. }
  destruct (isValidOTP otp) eqn:Hf.
  2:{ rewrite handleVerify_bad_format by assumption. cbn.
      refine (conj eq_refl (conj _ _)); [|discriminate].
      intros [H|[]]; discriminate. }
  unfold handleVerify. rewrite Hv, Hf. run_cases.
  all: cbn.
  all: refine (conj eq_refl (conj _ _)).
  all: try (intros H; cbn in H; in_trace H; fail).
  all: try (intros _; eexists; reflexivity).
  all: intros _ _ user session Heq Hpresent.
  all: try discriminate Heq.
  all: inversion Heq; subst; clear Heq.
  all: try (cbn in Hnone; destruct Hpresent as [[? [=]] | ->]; discriminate).
  all: try (cbn in Hnone; destruct user, session, Hpresent as [[? ?] | ?];
            discriminate).
  all: refine (conj _ (conj eq_refl (conj _ (conj _ _)))).
  all: try solve [is_issued].
  all: try solve [intros ? [=]].
  all: try solve [intros ? _; split; [reflexivity | intros H; in_trace H]].
  all: try solve [intros q [= <-] Hq; cbn in Hq;
                  destruct Hq as [[? [=]] | [=]]].
  all: try solve [intros q [= <-] Hq; cbn;
                  refine (conj eq_refl (conj _ (conj eq_refl eq_refl)));
                  is_issued].
  all: try solve [intros ? _;
                  refine (conj eq_refl (conj _ (conj _ (conj _
                            (conj eq_refl eq_refl)))));
                  [is_issued | intros H; in_trace H
                  | intros [H|[]]; discriminate]].
Qed.

(** Registration, a verification the remote service accepts, and a session
    query that finds no session. *)
Lemma verify_confirms_session_before_success_witness :
  let env := Sample.remote 1000 (Ok Sample.verified) (Ok Sample.no_session)
               (Ok None) in
  let o := run env (handleVerify (screen Sample.registration) "123456")
             Sample.registration in
  In auth_getSession (trace_of o) /\
  outcomes (trace_of o) = [SessionMissing] /\
  In (router_push "/login") (trace_of o) /\
  count is_storage (trace_of o) = 0%nat /\
  storage (world_of o) = storage Sample.registration.
Proof.
  intros env o.
  destruct (verify_confirms_session_before_success env Sample.registration
              "123456") as (_ & _ & H).
  destruct (H eq_refl eq_refl (Some "user-1") true eq_refl (or_intror eq_refl))
    as (H1 & _ & _ & H2 & _).
  destruct (H2 Sample.no_session eq_refl (or_intror eq_refl))
    as (H3 & H4 & H5 & H6).
  exact (conj H1 (conj H3 (conj H4 (conj H5 H6)))).
Defined.

(** C3 as stated fails when the session query errors by rejecting: after
    a verification the remote service accepts, a query that rejects ends
    in the [catch] block.  The one outcome is NetworkOrUnknown, not
    SessionMissing, and the user is not sent to [/login]; success is not
    signalled and the record is not cleared. *)
Lemma rejected_session_query_is_not_SessionMissing :
  let env := Sample.remote 1000 (Ok Sample.verified)
               (Throw "Network request failed") (Ok None) in
  let o := run env (handleVerify (screen Sample.registration) "123456")
             Sample.registration in
  In auth_getSession (trace_of o) /\
  outcomes (trace_of o) = [NetworkOrUnknown] /\
  ~ In SessionMissing (outcomes (trace_of o)) /\
  ~ In (router_push "/login") (trace_of o) /\
  ~ In Success (outcomes (trace_of o)) /\
  storage (world_of o) = storage Sample.registration.
Proof.
  cbv zeta. unfold handleVerify.
  change (verifying (screen Sample.registration)) with false.
  change (isValidOTP "123456") with true. cbv iota. cbn.
  refine (conj _ (conj eq_refl (conj _ (conj _ (conj _ eq_refl))))).
  - is_issued.
  - intros [H|[]]; discriminate.
  - intros H; in_trace H.
  - intros [H|[]]; discriminate.
Qed.

(** C8.  A verification the remote service answers with an error text.
    The handler asks the remote service once, for the screen's address,
    the code entered and the discriminator of the screen's flow, and
    signals the one outcome the specification's classification gives for
    the text.  A text that contains "expired" yields ExpiredCode and the
    alert "Code Expired", whatever else it contains: the test for
    "expired" comes before the one for "invalid" or "token", so "Token
    has expired" is ExpiredCode, while a text with "token" or "invalid"
    and without "expired" is InvalidCode.  On every error text the
    session is not queried, the user is not sent to [/login], no storage
    command is issued and the storage, the pending verification record
    with it, is left as it was. *)
Theorem expired_token_yields_ExpiredCode
    (env : Env) (w : World) (otp message : string)
    (user : option string) (session : bool) :
  verifying (screen w) = false ->
  isValidOTP otp = true ->
  verifyOtp env (email (screen w)) otp (flow_discriminator (type (screen w)))
    = Ok {| data_user := user; data_session := session;
            error_message := Some message |} ->
  let o := run env (handleVerify (screen w) otp) w in
  List.filter is_remote (trace_of o)
    = [auth_verifyOtp (email (screen w)) otp
         (flow_discriminator (type (screen w)))] /\
  outcomes (trace_of o) = [classify_error message] /\
  count is_alert (trace_of o) = 1%nat /\
  (JSString.includes (JSString.toLowerCase message) "expired" = true ->
     outcomes (trace_of o) = [ExpiredCode] /\
     In (Alert_alert "Code Expired"
           "Your verification code has expired. Please request a new one.")
        (trace_of o)) /\
  (JSString.includes (JSString.toLowerCase message) "expired" = false ->
   JSString.includes (JSString.toLowerCase message) "invalid" = true \/
   JSString.includes (JSString.toLowerCase message) "token" = true ->
     outcomes (trace_of o) = [InvalidCode]) /\
  ~ In (router_push "/login") (trace_of o) /\
  count is_storage (trace_of o) = 0%nat /\
  storage (world_of o) = storage w.
Proof.
  intros Hv Hf Hreply o. subst o.
  unfold classify_error. unfold flow_discriminator in *.
  unfold handleVerify. rewrite Hv, Hf.
  remember (run env _ w) as o eqn:Ho. revert Ho.
  destruct (type (screen w)); cbn; rewrite Hreply; cbn.
  all: destruct (JSString.includes (JSString.toLowerCase message) "expired")
         eqn:Hexp; cbn.
  all: try (destruct (JSString.includes (JSString.toLowerCase message)
                        "invalid") eqn:Hinv; cbn).
  all: try (destruct (JSString.includes (JSString.toLowerCase message)
                        "token") eqn:Htok; cbn).
  all: try (destruct (JSString.includes (JSString.toLowerCase message)
                        "rate limit") eqn:Hrl; cbn).
  all: intros ->; cbn.
  all: refine (conj eq_refl (conj eq_refl (conj eq_refl (conj _ (conj _
                 (conj _ (conj eq_refl eq_refl))))))).
  all: try solve [intros H; in_trace H].
  all: try discriminate.
  all: try solve [intros _; split; [reflexivity | is_issued]].
  all: try solve [intros _ _; reflexivity].
  all: try solve [intros _ [[=] | [=]]].
Qed.

(** Scenario A: the pending verification of a@b.com, a registration, the
    code "000000" and the answer "Token has expired". *)
Lemma expired_token_yields_ExpiredCode_witness :
  let env := Sample.remote 1000 (Ok Sample.expired) (Ok Sample.no_session)
               (Ok None) in
  let o := run env (handleVerify (screen Sample.registration) "000000")
             Sample.registration in
  List.filter is_remote (trace_of o)
    = [auth_verifyOtp "a@b.com" "000000" OtpType.signup] /\
  outcomes (trace_of o) = [ExpiredCode] /\
  In (Alert_alert "Code Expired"
        "Your verification code has expired. Please request a new one.")
     (trace_of o) /\
  count is_storage (trace_of o) = 0%nat /\
  storage (world_of o) = storage Sample.registration /\
  storage (world_of o) !! OTP_STORAGE_KEY = Some Sample.pending_registration.
Proof.
  intros env o.
  destruct (expired_token_yields_ExpiredCode env Sample.registration "000000"
              "Token has expired" None false eq_refl eq_refl eq_refl)
    as (H1 & _ & _ & H2 & _ & _ & H3 & H4).
  destruct (H2 eq_refl) as (H5 & H6).
  refine (conj H1 (conj H5 (conj H6 (conj H3 (conj H4 _))))).
  fold o in H4. rewrite H4. apply lookup_singleton_eq.
Defined.

(* ===================================================================== *)
(** ** Single-flight verification *)
(* ===================================================================== *)

Lemma count_app (f : Cmd -> bool) (a b : list Cmd) :
  count f (a ++ b) = (count f a + count f b)%nat.
Proof. unfold count. now rewrite List.filter_app, length_app. Qed.

Lemma in_flight_intro (n : nat) (t : Suspended) :
  (forall env w, verifying (screen w) = true ->
   forall r, r = settle env t w ->
     count is_verifyOtp (snd r) = 0%nat /\
     match fst (fst r) with
     | None =>
         count is_alert (snd r) = 1%nat /\
         verifying (screen (snd (fst r))) = false
     | Some t' =>
         count is_alert (snd r) = 0%nat /\
         verifying (screen (snd (fst r))) = true /\
         in_flight n t'
     end) ->
  in_flight (S n) t.
Proof. intros H env w Hv. exact (H env w Hv _ eq_refl). Qed.

Ltac flight_step :=
  let H := fresh "Hup" in
  apply in_flight_intro; intros ? ? H ?;
  unfold settle; cbn; repeat env_case; intros ->;
  cbn;
  (split; [reflexivity|]);
  first [ split; [reflexivity | reflexivity]
        | split; [reflexivity | split; [exact H |]] ].

Lemma trigger_at_rest (env : Env) (w : World) (otp : string) :
  verifying (screen w) = false -> isValidOTP otp = true ->
  exists t,
    fst (fst (advance env (handleVerify (screen w) otp) w)) = Some t /\
    in_flight 3 t /\
    verifying (screen (snd (fst (advance env (handleVerify (screen w) otp) w)))) = true /\
    count is_verifyOtp (snd (advance env (handleVerify (screen w) otp) w)) = 1%nat /\
    count is_alert (snd (advance env (handleVerify (screen w) otp) w)) = 0%nat.
Proof.
  intros Hv Hf. unfold handleVerify. rewrite Hv, Hf. cbn.
  eexists. split; [reflexivity|]. split; [|repeat split].
  flight_step.
  all: flight_step.
  all: flight_step.
Qed.

Lemma step_single_flight (l : Loop) (env : Env) (e : Event) :
  match e with Trigger otp => isValidOTP otp = true | Settle _ => True end ->
  single_flight l -> single_flight (step l (env, e)).
Proof.
  intros He [(Hw & Hv & Hc) | (t & n & Hw & Ht & Hv & Hc)].
  - (* at rest *)
    destruct e as [otp | i]; cbn [step].
    + destruct (trigger_at_rest env (world l) otp Hv He)
        as (t & H1 & H2 & H3 & H4 & H5).
      destruct (advance env (handleVerify (screen (world l)) otp) (world l))
        as [[t' w'] tr]. cbn [fst snd] in *. subst t'.
      right. exists t, 3%nat. cbn [world waiting issued].
      rewrite Hw, !count_app, H4, H5, Hc.
      refine (conj eq_refl (conj H2 (conj H3 _))). lia.
    + rewrite Hw. cbn. left. auto.
  - (* a verification under way *)
    destruct e as [otp | i]; cbn [step].
    + rewrite (handleVerify_in_progress _ otp Hv). cbn.
      right. exists t, n. rewrite !app_nil_r. auto 6.
    + rewrite Hw. destruct i as [|i]; cbn [lookup list_lookup].
      2:{ right. exists t, n. auto. }
      destruct n as [|n]; [contradiction|].
      destruct (Ht env (world l) Hv) as (H1 & H2).
      destruct (settle env t (world l)) as [[t' w'] tr].
      cbn [fst snd] in *.
      destruct t' as [t'|].
      * destruct H2 as (H2 & H3 & H4). right. exists t', n.
        cbn [world waiting issued]. rewrite !count_app, H1, H2.
        refine (conj eq_refl (conj H4 (conj H3 _))). lia.
      * destruct H2 as (H2 & H3). left.
        cbn [world waiting issued]. rewrite !count_app, H1, H2.
        refine (conj eq_refl (conj H3 _)). lia.
Qed.

Lemma loop_single_flight (otp : string) (evs : list (Env * Event)) (l : Loop) :
  isValidOTP otp = true -> triggers_of otp evs ->
  single_flight l -> single_flight (loop l evs).
Proof.
  intros Hf Hevs. revert l. induction Hevs as [|[env e] evs He _ IH];
    intros l Hl; [exact Hl|].
  cbn [loop fold_left]. apply IH. apply step_single_flight; [|exact Hl].
  cbn in He. destruct e; [now subst | exact I].
Qed.

Lemma loop_app (l : Loop) (a b : list (Env * Event)) :
  loop l (a ++ b) = loop (loop l a) b.
Proof. unfold loop. apply fold_left_app. Qed.

Lemma loop_destructure (l : Loop) :
  {| world := world l; waiting := waiting l; issued := issued l |} = l.
Proof. now destruct l. Qed.

(** Triggers that arrive while a verification is under way change
    nothing. *)
Lemma duplicates_dropped (l : Loop) (dups : list (Env * Event)) :
  verifying (screen (world l)) = true ->
  Forall is_trigger dups ->
  loop l dups = l.
Proof.
  intros Hv Hd. induction Hd as [|[env [otp|i]] dups He _ IH];
    [reflexivity | | destruct He].
  change (loop l ((env, Trigger otp) :: dups))
    with (loop (step l (env, Trigger otp)) dups).
  assert (step l (env, Trigger otp) = l) as ->; [|exact IH].
  unfold step. rewrite (handleVerify_in_progress _ otp Hv). cbn.
  rewrite !app_nil_r. apply loop_destructure.
Qed.

(** Answers that arrive when no call is waiting change nothing. *)
Lemma settles_at_rest (l : Loop) (envs : list Env) :
  waiting l = [] ->
  loop l (map (fun e => (e, Settle 0)) envs) = l.
Proof.
  intros Hw. induction envs as [|e envs IH]; [reflexivity|].
  cbn [map loop fold_left step]. rewrite Hw. exact IH.
Qed.

(** A verification under way comes to its one outcome within the answers
    it is owed. *)
Lemma settles_finish (n : nat) :
  forall (t : Suspended) (l : Loop) (envs : list Env),
    waiting l = [t] -> in_flight n t ->
    verifying (screen (world l)) = true -> length envs = n ->
    let l' := loop l (map (fun e => (e, Settle 0)) envs) in
    waiting l' = [] /\
    verifying (screen (world l')) = false /\
    count is_verifyOtp (issued l') = count is_verifyOtp (issued l) /\
    count is_alert (issued l') = S (count is_alert (issued l)).
Proof.
  induction n as [|n IH]; intros t l envs Hw Ht Hv Hlen; [destruct Ht|].
  destruct envs as [|e envs]; [discriminate|]. injection Hlen as Hlen.
  cbn [map loop fold_left step]. rewrite Hw. cbn [lookup list_lookup].
  destruct (Ht e (world l) Hv) as (H1 & H2).
  destruct (settle e t (world l)) as [[t' w'] tr]. cbn [fst snd] in *.
  destruct t' as [t'|].
  - destruct H2 as (H2 & H3 & H4).
    match goal with |- context [fold_left step _ ?l0] => set (l1 := l0) end.
    destruct (IH t' l1 envs eq_refl H4 H3 Hlen) as (K1 & K2 & K3 & K4).
    unfold loop in *. refine (conj K1 (conj K2 _)).
    rewrite K3, K4. subst l1. cbn [issued]. rewrite !count_app, H1, H2.
    split; lia.
  - destruct H2 as (H2 & H3).
    match goal with |- context [fold_left step _ ?l0] => set (l1 := l0) end.
    pose proof (settles_at_rest l1 envs eq_refl) as K. unfold loop in K.
    rewrite K. subst l1. cbn [world waiting issued].
    rewrite !count_app, H1, H2. refine (conj eq_refl (conj H3 _)). split; lia.
Qed.

(** C9.  A trigger of [handleVerify] that finds the in-progress flag set
    returns at once, issuing no command at all.  So when a verification
    of a well-formed code is triggered on a screen at rest and duplicate
    triggers arrive while it waits for the remote service, then, once the
    answers it is owed have arrived, exactly one remote verification has
    been issued and exactly one outcome has been signalled.  And along
    any schedule of triggers of that code and of answers, at most one
    verification is under way at any time, the flag is up exactly while
    one is, and the remote verifications issued are as many as the
    outcomes signalled plus the verification under way. *)
Theorem verify_is_single_flight :
  (forall (s : Screen) (otp : string),
     verifying s = true -> handleVerify s otp = ret tt) /\
  (forall (w : World) (otp : string) (e1 e3 e4 e5 : Env)
          (dups : list (Env * Event)),
     verifying (screen w) = false -> isValidOTP otp = true ->
     Forall is_trigger dups ->
     let l := loop (idle w)
                ((e1, Trigger otp) :: dups ++
                 [(e3, Settle 0); (e4, Settle 0); (e5, Settle 0)]) in
     count is_verifyOtp (issued l) = 1%nat /\
     count is_alert (issued l) = 1%nat /\
     waiting l = [] /\
     verifying (screen (world l)) = false) /\
  (forall (w : World) (otp : string) (evs : list (Env * Event)),
     verifying (screen w) = false -> isValidOTP otp = true ->
     triggers_of otp evs ->
     let l := loop (idle w) evs in
     (length (waiting l) <= 1)%nat /\
     (verifying (screen (world l)) = true <-> waiting l <> []) /\
     count is_verifyOtp (issued l)
       = (count is_alert (issued l) + length (waiting l))%nat).
Proof.
  refine (conj handleVerify_in_progress (conj _ _)).
  - intros w otp e1 e3 e4 e5 dups Hv Hf Hd.
    change (loop (idle w)
              ((e1, Trigger otp) :: dups ++
               [(e3, Settle 0); (e4, Settle 0); (e5, Settle 0)]))
      with (loop (step (idle w) (e1, Trigger otp))
              (dups ++ map (fun e => (e, Settle 0)) [e3; e4; e5])).
    cbn [step idle world waiting issued].
    destruct (trigger_at_rest e1 w otp Hv Hf) as (t & H1 & H2 & H3 & H4 & H5).
    destruct (advance e1 (handleVerify (screen w) otp) w) as [[t' w'] tr].
    cbn [fst snd] in *. subst t'. cbn [app option_list].
    rewrite loop_app, (duplicates_dropped _ dups) by (exact H3 || exact Hd).
    match goal with |- context [loop ?l0 _] => set (l1 := l0) end.
    destruct (settles_finish 3 t l1 [e3; e4; e5] eq_refl H2 H3 eq_refl)
      as (K1 & K2 & K3 & K4).
    cbv zeta. rewrite K3, K4. subst l1. cbn [issued]. rewrite H4, H5. auto.
  - intros w otp evs Hv Hf Hevs l.
    assert (Hl : single_flight l).
    { apply (loop_single_flight otp); auto. left. cbn. auto. }
    destruct Hl as [(Hw & Hv' & Hc) | (t & n & Hw & _ & Hv' & Hc)];
      rewrite Hw, Hv'; cbn [length].
    + refine (conj _ (conj _ _)); [lia | | lia].
      split; [discriminate | congruence].
    + refine (conj _ (conj _ _)); [lia | | lia].
      split; [discriminate | reflexivity].
Qed.

(** A registration, the code 123456 triggered twice over before the
    remote service has answered, and the three answers. *)
Lemma verify_is_single_flight_witness :
  let e := Sample.remote 1000 (Ok Sample.verified) (Ok Sample.session)
             (Ok None) in
  let l := loop (idle Sample.registration)
             ((e, Trigger "123456") :: [(e, Trigger "123456")] ++
              [(e, Settle 0); (e, Settle 0); (e, Settle 0)]) in
  count is_verifyOtp (issued l) = 1%nat /\
  count is_alert (issued l) = 1%nat /\
  waiting l = [] /\
  verifying (screen (world l)) = false.
Proof.
  intros e.
  destruct verify_is_single_flight as (_ & H & _).
  apply (H Sample.registration "123456" e e e e [(e, Trigger "123456")]
           eq_refl eq_refl).
  repeat constructor.
Defined.

(* ===================================================================== *)
(** ** VerificationController: [handleResend] *)
(* ===================================================================== *)

(** A resend while resend is disabled does nothing. *)
Lemma handleResend_disabled (s : Screen) :
  resendDisabled s = true -> handleResend s = ret tt.
Proof. intros Hd. unfold handleResend. now rewrite Hd. Qed.

(** Resends made while resend is disabled issue nothing. *)
Lemma resends_disabled (envs : list Env) (acc : World * list Cmd) :
  resendDisabled (screen (fst acc)) = true ->
  fold_left
    (fun acc env =>
       let o := run env (handleResend (screen (fst acc))) (fst acc) in
       (world_of o, (snd acc ++ trace_of o)%list))
    envs acc = acc.
Proof.
  intros Hd. induction envs as [|env envs IH]; [reflexivity|].
  cbn [fold_left]. rewrite (handleResend_disabled _ Hd). cbn.
  rewrite app_nil_r. destruct acc. exact IH.
Qed.

(** C1 (amended).  [handleResend] does not consult the rate-limit guard:
    it issues no storage command and leaves the storage, the guard's
    record with it, as it was.  When resend is not disabled it contacts
    the remote operation of the screen's flow, exactly once, whatever the
    guard has recorded; when resend is disabled it returns at once and
    issues nothing.  RateLimited is signalled exactly when the remote
    service answers with an error text that contains "rate limit" or
    "too many requests", and then the cooldown is armed to 300 seconds and
    resend is disabled.  When the remote service accepts the resend, the
    cooldown is armed to 30 seconds and resend is disabled, so that
    further resends made before the cooldown ends issue nothing. *)
Theorem resend_does_not_consult_the_guard (env : Env) (w : World) :
  let o := run env (handleResend (screen w)) w in
  count is_storage (trace_of o) = 0%nat /\
  storage (world_of o) = storage w /\
  (resendDisabled (screen w) = false ->
     count is_remote (trace_of o) = 1%nat /\
     In (resend_command (screen w)) (trace_of o)) /\
  (resendDisabled (screen w) = true -> trace_of o = [] /\ world_of o = w) /\
  (In RateLimited (outcomes (trace_of o)) <->
     resendDisabled (screen w) = false /\
     exists message, resend_reply env (screen w) = Ok (Some message) /\
                     reports_rate_limit message = true) /\
  (In RateLimited (outcomes (trace_of o)) ->
     resendTimer (screen (world_of o)) = 300 /\
     resendDisabled (screen (world_of o)) = true) /\
  (resendDisabled (screen w) = false ->
   resend_reply env (screen w) = Ok None ->
     resendTimer (screen (world_of o)) = 30 /\
     resendDisabled (screen (world_of o)) = true /\
     forall envs,
       snd (resends (env :: envs) w) = trace_of o /\
       count is_remote (snd (resends (env :: envs) w)) = 1%nat).
Proof.
  intros o.
  assert (Hlater : resendDisabled (screen (world_of o)) = true ->
            forall envs, snd (resends (env :: envs) w) = trace_of o).
  { intros Hd envs. unfold resends. cbn [fold_left fst snd].
    fold o. rewrite resends_disabled by exact Hd. reflexivity. }
  revert Hlater. subst o.
  unfold resend_command, resend_reply, reports_rate_limit.
  destruct (resendDisabled (screen w)) eqn:Hd.
  { rewrite handleResend_disabled by assumption. cbn. intros _.
    refine (conj eq_refl (conj eq_refl (conj _ (conj _ (conj _ (conj _ _)))))).
    - discriminate.
    - auto.
    - split; [intros [] | intros [[=] _]].
    - intros [].
    - discriminate. }
  unfold handleResend. rewrite Hd.
  destruct (type (screen w)) eqn:Ht.
  all: run_cases.
  all: cbn.
  all: intros Hlater.
  all: refine (conj eq_refl (conj eq_refl (conj _ (conj _ (conj _ (conj _ _)))))).
  all: try discriminate.
  all: try (intros _; split; [reflexivity | tauto]).
  all: try (split; [intros H; in_trace H; fail | ]).
  all: try (intros [_ (m & [= <-] & Hm)]; cbn in Hm; congruence).
  all: try (intros [_ (m & [=] & _)]).
  all: try (split; [intros _; split; [reflexivity|]; eexists; split;
                     [reflexivity | assumption] | intros _; now left]).
  all: try (intros _; split; reflexivity).
  all: try (intros H; in_trace H; fail).
  all: try (intros _ _; refine (conj eq_refl (conj eq_refl _)); intros envs;
            rewrite (Hlater eq_refl envs); split; reflexivity).
Qed.

(** A registration whose resend the remote service accepts. *)
Lemma resend_does_not_consult_the_guard_witness :
  let env := Sample.remote 2000 (Ok Sample.verified) (Ok Sample.session)
               (Ok None) in
  let w := Sample.resend_blocked in
  let o := run env (handleResend (screen w)) w in
  count is_remote (trace_of o) = 1%nat /\
  In (auth_resend OtpType.signup "a@b.com") (trace_of o) /\
  resendTimer (screen (world_of o)) = 30 /\
  resendDisabled (screen (world_of o)) = true /\
  count is_remote (snd (resends [env; env; env; env] w)) = 1%nat.
Proof.
  intros env w o.
  destruct (resend_does_not_consult_the_guard env w)
    as (_ & _ & H1 & _ & _ & _ & H2).
  destruct (H1 eq_refl) as (H3 & H4).
  destruct (H2 eq_refl eq_refl) as (H5 & H6 & H7).
  refine (conj H3 (conj H4 (conj H5 (conj H6 _)))).
  exact (proj2 (H7 [env; env; env])).
Defined.

(** C1 as stated fails.  With a block for ["otp_resend"] in force, so that
    a check would be refused with a wait of 300 seconds, a resend still
    contacts the remote service, signals no RateLimited outcome and arms
    the cooldown to 30 seconds; and of four resends in a row that the
    remote service fails, all four reach the remote service. *)
Lemma resend_reaches_remote_under_block :
  let env := Sample.remote 2000 (Ok Sample.verified) (Ok Sample.session)
               (Ok None) in
  let w := Sample.resend_blocked in
  let o := run env (handleResend (screen w)) w in
  value_of (run env (checkRateLimit "otp_resend") w)
    = Ok {| allowed := false; waitTime := Some 300 |} /\
  In (auth_resend OtpType.signup "a@b.com") (trace_of o) /\
  ~ In RateLimited (outcomes (trace_of o)) /\
  resendTimer (screen (world_of o)) = 30 /\
  count is_storage (trace_of o) = 0%nat /\
  count is_remote
    (snd (resends [Sample.offline 1000; Sample.offline 2000;
                   Sample.offline 3000; Sample.offline 4000]
            Sample.registration)) = 4%nat.
Proof.
  cbv zeta. split.
  - rewrite (run_check_written _ "otp_resend" Sample.resend_blocked
               {| lastRequest := 2000; requestCount := 4;
                  blockedUntil := Some 302000 |});
      [| apply storage_up_remote | apply lookup_insert_eq].
    change (now (Sample.remote 2000 _ _ _)) with 2000.
    rewrite (verdict_blocked 2000 302000) by (reflexivity || lia).
    reflexivity.
  - cbn. repeat split; auto 10.
Qed.

(* ===================================================================== *)
(** ** RateLimitGuard: further properties *)
(* ===================================================================== *)

Lemma Math_ceil_div_pos (d : Z) : 0 < d -> 1 <= Math_ceil_div d 1000.
Proof.
  intros Hd. unfold Math_ceil_div.
  assert (- d / 1000 < 0) by (apply Z.div_lt_upper_bound; lia). lia.
Qed.

Lemma Math_ceil_div_le (d : Z) : d <= 300 * 1000 -> Math_ceil_div d 1000 <= 300.
Proof.
  intros Hd. unfold Math_ceil_div.
  assert (- 300 <= - d / 1000) by (apply Z.div_le_lower_bound; lia). lia.
Qed.

(** The keys of the guard are apart from one another and from the key of
    the pending verification. *)
Lemma rate_limit_key_inj (a b : string) :
  rate_limit_key a = rate_limit_key b -> a = b.
Proof.
  unfold rate_limit_key, RATE_LIMIT_KEY. intros H.
  repeat (apply String.app_inj in H). exact H.
Qed.

Lemma rate_limit_key_not_otp (action : string) :
  rate_limit_key action <> OTP_STORAGE_KEY.
Proof. unfold rate_limit_key, RATE_LIMIT_KEY, OTP_STORAGE_KEY. discriminate. Qed.

Lemma rate_limit_key_includes (action : string) :
  JSString.includes (rate_limit_key action) "rate_limit_data" = true.
Proof. reflexivity. Qed.

Lemma otp_key_excludes :
  JSString.includes OTP_STORAGE_KEY "rate_limit_data" = false.
Proof. reflexivity. Qed.

Section RateLimitGuardMore.
Context `{J : JSON RateLimitData}.

(** The value of a check depends on the storage through the text of its
    own key only. *)
Lemma check_value_local (env : Env) (action : string) (w1 w2 : World) :
  storage w1 !! rate_limit_key action = storage w2 !! rate_limit_key action ->
  value_of (run env (checkRateLimit action) w1)
  = value_of (run env (checkRateLimit action) w2).
Proof.
  intros H. unfold checkRateLimit. cbn. rewrite H.
  destruct (getItem_fault env (rate_limit_key action)); cbn; [reflexivity|].
  destruct (truthy (storage w2 !! rate_limit_key action)); cbn.
  - destruct (JSON_parse _) as [r|e]; cbn; [|reflexivity].
    destruct (match blockedUntil r with
              | Some b => negb (b =? 0) && (now env <? b)
              | None => false
              end); cbn; [reflexivity|].
    destruct (now env - lastRequest r >? 60 * 1000); cbn.
    { destruct (setItem_fault env (rate_limit_key action)); reflexivity. }
    destruct (requestCount r <? MAX_REQUESTS_PER_MINUTE); cbn;
      destruct (setItem_fault env (rate_limit_key action)); reflexivity.
  - destruct (setItem_fault env (rate_limit_key action)); reflexivity.
Qed.

(** X1.  Clearing the record of an action, whatever it holds (a block in
    force included), makes the next check of that action the first of a
    fresh window: it is allowed and leaves [requestCount = 1] and no
    block. *)
Theorem clear_then_check_is_fresh
    (env_clear env : Env) (action : string) (w : World) :
  removeItem_fault env_clear (rate_limit_key action) = None ->
  storage_up env ->
  let w1 := world_of (run env_clear (clearRateLimit action) w) in
  let o := run env (checkRateLimit action) w1 in
  storage w1 !! rate_limit_key action = None /\
  value_of o = Ok {| allowed := true; waitTime := None |} /\
  storage (world_of o) !! rate_limit_key action
    = Some (JSON_stringify {| lastRequest := now env; requestCount := 1;
                              blockedUntil := None |}).
Proof.
  intros Hr Hup w1 o.
  assert (H1 : storage w1 !! rate_limit_key action = None).
  { subst w1. unfold clearRateLimit. cbn. rewrite Hr. cbn.
    apply lookup_delete_eq. }
  split; [exact H1|]. subst o.
  rewrite run_check_absent by (auto; now rewrite H1).
  split; [reflexivity | apply lookup_write].
Qed.

(** X2.  [clearRateLimit] never rejects.  It leaves every other key of
    the storage, the pending verification among them, and the screen as
    they were; when the storage accepts the removal the record of the
    action is gone, and when it rejects it the failure is logged and the
    world is left as it was. *)
Theorem clearRateLimit_is_safe (env : Env) (action : string) (w : World) :
  let o := run env (clearRateLimit action) w in
  value_of o = Ok tt /\
  screen (world_of o) = screen w /\
  (forall key', key' <> rate_limit_key action ->
     storage (world_of o) !! key' = storage w !! key') /\
  storage (world_of o) !! OTP_STORAGE_KEY = storage w !! OTP_STORAGE_KEY /\
  match removeItem_fault env (rate_limit_key action) with
  | None => storage (world_of o) !! rate_limit_key action = None
  | Some _ => world_of o = w /\
              In (console_error "Clear rate limit error:") (trace_of o)
  end.
Proof.
  unfold clearRateLimit. cbn.
  destruct (removeItem_fault env (rate_limit_key action)); cbn.
  - refine (conj eq_refl (conj eq_refl (conj _ (conj eq_refl _)))); auto.
  - refine (conj eq_refl (conj eq_refl (conj _ (conj _ _)))).
    + intros key' Hne. now apply lookup_delete_ne.
    + apply lookup_delete_ne, rate_limit_key_not_otp.
    + apply lookup_delete_eq.
Qed.

(** X3.  Whatever the storage holds and does, a check resolves either to
    [allowed: true] with no wait, or to [allowed: false] with a wait of at
    least one second. *)
Theorem check_result_shape (env : Env) (action : string) (w : World) :
  exists res, value_of (run env (checkRateLimit action) w) = Ok res /\
    ((allowed res = true /\ waitTime res = None) \/
     (allowed res = false /\ exists n, waitTime res = Some n /\ 1 <= n)).
Proof.
  unfold checkRateLimit. cbn.
  destruct (getItem_fault env (rate_limit_key action)); cbn;
    [eexists; split; [reflexivity | now left]|].
  destruct (truthy (storage w !! rate_limit_key action)); cbn.
  - destruct (JSON_parse _) as [r|e]; cbn;
      [|eexists; split; [reflexivity | now left]].
    destruct (blockedUntil r) as [b|] eqn:Hb; cbn.
    + destruct (Z.eqb_spec b 0); cbn.
      * destruct (now env - lastRequest r >? 60 * 1000); cbn.
        { destruct (setItem_fault env (rate_limit_key action)); cbn;
            eexists; (split; [reflexivity | now left]). }
        destruct (requestCount r <? MAX_REQUESTS_PER_MINUTE); cbn;
          destruct (setItem_fault env (rate_limit_key action)); cbn;
          eexists; (split; [reflexivity|]); try (now left);
          right; split; [reflexivity|]; eexists; split; [reflexivity|];
          apply Math_ceil_div_pos; reflexivity.
      * destruct (Z.ltb_spec (now env) b); cbn.
        { eexists; split; [reflexivity|]. right. split; [reflexivity|].
          eexists; split; [reflexivity|]. apply Math_ceil_div_pos. lia. }
        destruct (now env - lastRequest r >? 60 * 1000); cbn.
        { destruct (setItem_fault env (rate_limit_key action)); cbn;
            eexists; (split; [reflexivity | now left]). }
        destruct (requestCount r <? MAX_REQUESTS_PER_MINUTE); cbn;
          destruct (setItem_fault env (rate_limit_key action)); cbn;
          eexists; (split; [reflexivity|]); try (now left);
          right; split; [reflexivity|]; eexists; split; [reflexivity|];
          apply Math_ceil_div_pos; reflexivity.
    + destruct (now env - lastRequest r >? 60 * 1000); cbn.
      { destruct (setItem_fault env (rate_limit_key action)); cbn;
          eexists; (split; [reflexivity | now left]). }
      destruct (requestCount r <? MAX_REQUESTS_PER_MINUTE); cbn;
        destruct (setItem_fault env (rate_limit_key action)); cbn;
        eexists; (split; [reflexivity|]); try (now left);
        right; split; [reflexivity|]; eexists; split; [reflexivity|];
        apply Math_ceil_div_pos; reflexivity.
  - destruct (setItem_fault env (rate_limit_key action)); cbn;
      eexists; (split; [reflexivity | now left]).
Qed.

(** X4.  On a record the guard itself has left, read at a time not before
    its last request, a refusal asks for a wait of at most 300 seconds. *)
Theorem check_wait_at_most_300
    (env : Env) (action : string) (w : World) (r : RateLimitData)
    (res : RateLimitResult) :
  storage_up env ->
  storage w !! rate_limit_key action = Some (JSON_stringify r) ->
  window_ok r ->
  lastRequest r <= now env ->
  value_of (run env (checkRateLimit action) w) = Ok res ->
  allowed res = false ->
  exists n, waitTime res = Some n /\ 1 <= n <= 300.
Proof.
  intros Hup Hd Hr Hlast Hv Ha.
  rewrite (run_check_written env action w r) in Hv by assumption.
  cbn [value_of fst] in Hv. injection Hv as <-.
  unfold verdict, block_in_force in *.
  destruct Hr as [[Hc Hb] | (Hc & Hl & Hb)]; rewrite Hb in *; cbn in *.
  - destruct (now env - lastRequest r >? 60 * 1000); [discriminate|].
    unfold MAX_REQUESTS_PER_MINUTE in *.
    destruct (requestCount r <? 3); [discriminate|]. cbn.
    exists 300. split; [reflexivity | lia].
  - destruct (Z.eqb_spec (lastRequest r + 300 * 1000) 0); [lia|]. cbn in *.
    destruct (Z.ltb_spec (now env) (lastRequest r + 300 * 1000)); cbn in *.
    + eexists. split; [reflexivity|]. split.
      * apply Math_ceil_div_pos. lia.
      * apply Math_ceil_div_le. lia.
    + rewrite Z.gtb_ltb in Ha.
      destruct (Z.ltb_spec (60 * 1000) (now env - lastRequest r));
        [discriminate | lia].
Qed.

(** X5.  The records of two actions are apart: a check of one action
    leaves the record of another as it was, and so does not change what a
    check of the other resolves to. *)
Theorem checks_of_other_actions_do_not_interfere
    (env_a env_b : Env) (a b : string) (w : World) :
  a <> b ->
  let w1 := world_of (run env_a (checkRateLimit a) w) in
  storage w1 !! rate_limit_key b = storage w !! rate_limit_key b /\
  value_of (run env_b (checkRateLimit b) w1)
  = value_of (run env_b (checkRateLimit b) w).
Proof.
  intros Hne w1.
  assert (H : storage w1 !! rate_limit_key b = storage w !! rate_limit_key b).
  { subst w1.
    destruct (run_check_world env_a a w) as [-> | (r' & -> & _)];
      [reflexivity|].
    apply lookup_write_ne. intros E. now apply rate_limit_key_inj in E. }
  split; [exact H | now apply check_value_local].
Qed.

Lemma spaced_all_allowed (action : string) (es : list Env) :
  forall (w : World) (r : RateLimitData),
    storage w !! rate_limit_key action = Some (JSON_stringify r) ->
    blockedUntil r = None ->
    Forall storage_up es ->
    spaced (lastRequest r) es ->
    Forall (fun v => v = Ok {| allowed := true; waitTime := None |})
           (check_results action es w).
Proof.
  induction es as [|e es IH]; intros w r Hd Hb Hup Hsp; [constructor|].
  inversion Hup; subst. destruct Hsp as [Hgap Hsp].
  cbn [check_results].
  rewrite (run_check_written e action w r) by assumption.
  rewrite (verdict_reset (now e) r)
    by (auto; unfold block_in_force; now rewrite Hb).
  cbn [value_of world_of fst snd]. constructor; [reflexivity|].
  apply (IH _ {| lastRequest := now e; requestCount := 1;
                 blockedUntil := None |}); auto using lookup_write.
Qed.

(** X6.  Requests that come more than a minute apart are never refused,
    however many they are: from a storage with no record for the action
    and with a storage that answers, every one of them is allowed. *)
Theorem spaced_requests_are_never_blocked
    (action : string) (e : Env) (es : list Env) (w : World) :
  storage w !! rate_limit_key action = None ->
  Forall storage_up (e :: es) ->
  spaced (now e) es ->
  Forall (fun v => v = Ok {| allowed := true; waitTime := None |})
         (check_results action (e :: es) w).
Proof.
  intros H0 Hup Hsp. inversion Hup; subst.
  cbn [check_results].
  rewrite run_check_absent by (auto; now rewrite H0).
  cbn [value_of world_of fst snd]. constructor; [reflexivity|].
  apply (spaced_all_allowed action es _
           {| lastRequest := now e; requestCount := 1;
              blockedUntil := None |}); auto using lookup_write.
Qed.

End RateLimitGuardMore.

(** *** Concrete instances *)

Lemma clear_then_check_is_fresh_witness :
  let w1 := world_of (run (Sample.offline 2000) (clearRateLimit "otp_resend")
                        Sample.resend_blocked) in
  let o := run (Sample.offline 3000) (checkRateLimit "otp_resend") w1 in
  storage w1 !! rate_limit_key "otp_resend" = None /\
  value_of o = Ok {| allowed := true; waitTime := None |} /\
  storage (world_of o) !! rate_limit_key "otp_resend"
    = Some (JSON_stringify {| lastRequest := 3000; requestCount := 1;
                              blockedUntil := None |}).
Proof.
  exact (clear_then_check_is_fresh (Sample.offline 2000) (Sample.offline 3000)
           "otp_resend" Sample.resend_blocked eq_refl
           (storage_up_offline 3000)).
Defined.

Lemma check_wait_at_most_300_witness :
  exists n, waitTime {| allowed := false; waitTime := Some 298 |} = Some n /\
            1 <= n <= 300.
Proof.
  apply (check_wait_at_most_300 (Sample.offline 4000) "otp_resend"
           Sample.resend_blocked
           {| lastRequest := 2000; requestCount := 4;
              blockedUntil := Some 302000 |}).
  - apply storage_up_offline.
  - apply lookup_insert_eq.
  - right. repeat split; simpl; lia.
  - simpl. lia.
  - rewrite (run_check_written (Sample.offline 4000) "otp_resend"
               Sample.resend_blocked
               {| lastRequest := 2000; requestCount := 4;
                  blockedUntil := Some 302000 |});
      [| apply storage_up_offline | apply lookup_insert_eq].
    reflexivity.
  - reflexivity.
Defined.

Lemma checks_of_other_actions_do_not_interfere_witness :
  let w1 := world_of (run (Sample.offline 2000) (checkRateLimit "login")
                        Sample.resend_blocked) in
  storage w1 !! rate_limit_key "otp_resend"
    = storage Sample.resend_blocked !! rate_limit_key "otp_resend" /\
  value_of (run (Sample.offline 3000) (checkRateLimit "otp_resend") w1)
  = value_of (run (Sample.offline 3000) (checkRateLimit "otp_resend")
                Sample.resend_blocked).
Proof.
  apply (checks_of_other_actions_do_not_interfere (Sample.offline 2000)
           (Sample.offline 3000) "login" "otp_resend" Sample.resend_blocked).
  discriminate.
Defined.

Lemma spaced_requests_are_never_blocked_witness :
  Forall (fun v => v = Ok {| allowed := true; waitTime := None |})
    (check_results "otp_resend"
       [Sample.offline 0; Sample.offline 60001; Sample.offline 120002;
        Sample.offline 180003; Sample.offline 240004]
       Sample.registration).
Proof.
  apply spaced_requests_are_never_blocked.
  - apply lookup_singleton_ne. discriminate.
  - repeat constructor.
  - simpl. lia.
Defined.

(* ===================================================================== *)
(** ** [formatWaitTime] *)
(* ===================================================================== *)

Lemma show_Z_inj (a b : Z) :
  CanonicalJSON.show_Z a = CanonicalJSON.show_Z b -> a = b.
Proof.
  intros H. apply (f_equal CanonicalJSON.read_Z) in H.
  rewrite !CanonicalJSONFacts.read_show_Z in H. congruence.
Qed.

(** The number a display begins with, and what follows it. *)
Lemma span_show_Z (z : Z) (c : ascii) (r : string) :
  CanonicalJSON.is_numeric c = false ->
  CanonicalJSON.span_number (CanonicalJSON.show_Z z ++ String c r)
  = (CanonicalJSON.show_Z z, String c r).
Proof.
  intros Hc. apply CanonicalJSONFacts.span_number_app.
  - apply CanonicalJSONFacts.show_Z_numeric.
  - exact Hc.
Qed.

Lemma append_empty_l (x : string) : "" ++ x = x.
Proof. reflexivity. Qed.

Lemma formatWaitTime_seconds (s : Z) :
  0 <= s < 60 -> formatWaitTime s = CanonicalJSON.show_Z s ++ "s".
Proof.
  intros Hs. unfold formatWaitTime.
  rewrite Z.div_small, Z.rem_small by lia. reflexivity.
Qed.

Lemma formatWaitTime_minutes (s : Z) :
  60 <= s ->
  formatWaitTime s =
    CanonicalJSON.show_Z (s / 60) ++ "m " ++
    CanonicalJSON.show_Z (s mod 60) ++ "s".
Proof.
  intros Hs. unfold formatWaitTime. cbv zeta.
  assert (1 <= s / 60) by (apply Z.div_le_lower_bound; lia).
  rewrite Z.gtb_ltb. destruct (Z.ltb_spec 0 (s / 60)); [|lia].
  rewrite Z.rem_mod_nonneg by lia. reflexivity.
Qed.

(** X7.  For a wait of [s] seconds, an integer from 0 to
    [MAX_SAFE_INTEGER]: below a minute the display is the seconds
    followed by "s"; from a minute on it is "<m>m <r>s" where [m] is at
    least 1, [r] is between 0 and 59, and [60 m + r = s]. *)
Theorem formatWaitTime_splits_minutes_and_seconds (s : Z) :
  0 <= s <= MAX_SAFE_INTEGER ->
  (s < 60 -> formatWaitTime s = CanonicalJSON.show_Z s ++ "s") /\
  (60 <= s ->
     exists m r, formatWaitTime s =
                   CanonicalJSON.show_Z m ++ "m " ++
                   CanonicalJSON.show_Z r ++ "s" /\
                 1 <= m /\ 0 <= r < 60 /\ 60 * m + r = s).
Proof.
  intros [Hs _]. split.
  - intros Hlt. apply formatWaitTime_seconds. lia.
  - intros Hge. exists (s / 60), (s mod 60).
    split; [now apply formatWaitTime_minutes|].
    pose proof (Z.mod_pos_bound s 60 ltac:(lia)).
    pose proof (Z.div_mod s 60 ltac:(lia)).
    assert (1 <= s / 60) by (apply Z.div_le_lower_bound; lia).
    lia.
Qed.

Lemma formatWaitTime_splits_minutes_and_seconds_witness :
  (300 < 60 -> formatWaitTime 300 = CanonicalJSON.show_Z 300 ++ "s") /\
  (60 <= 300 ->
     exists m r, formatWaitTime 300 =
                   CanonicalJSON.show_Z m ++ "m " ++
                   CanonicalJSON.show_Z r ++ "s" /\
                 1 <= m /\ 0 <= r < 60 /\ 60 * m + r = 300).
Proof.
  apply formatWaitTime_splits_minutes_and_seconds.
  unfold MAX_SAFE_INTEGER. lia.
Defined.

(** X8.  Two different waits, integers from 0 to [MAX_SAFE_INTEGER], are
    never displayed alike. *)
Theorem formatWaitTime_is_injective (s1 s2 : Z) :
  0 <= s1 <= MAX_SAFE_INTEGER -> 0 <= s2 <= MAX_SAFE_INTEGER ->
  formatWaitTime s1 = formatWaitTime s2 -> s1 = s2.
Proof.
  intros [H1 _] [H2 _] E.
  destruct (Z_lt_ge_dec s1 60) as [L1|G1], (Z_lt_ge_dec s2 60) as [L2|G2].
  - rewrite !formatWaitTime_seconds in E by lia.
    apply (f_equal CanonicalJSON.span_number) in E.
    rewrite !span_show_Z in E by reflexivity.
    injection E as E. now apply show_Z_inj.
  - rewrite formatWaitTime_seconds in E by lia.
    rewrite formatWaitTime_minutes in E by lia.
    apply (f_equal CanonicalJSON.span_number) in E.
    rewrite (span_show_Z s1 "s" "") in E by reflexivity.
    change ("m " ++ ?x) with (String "m" (" " ++ x)) in E.
    rewrite span_show_Z in E by reflexivity. discriminate.
  - rewrite (formatWaitTime_seconds s2) in E by lia.
    rewrite formatWaitTime_minutes in E by lia.
    apply (f_equal CanonicalJSON.span_number) in E.
    rewrite (span_show_Z s2 "s" "") in E by reflexivity.
    change ("m " ++ ?x) with (String "m" (" " ++ x)) in E.
    rewrite span_show_Z in E by reflexivity. discriminate.
  - rewrite !formatWaitTime_minutes in E by lia.
    apply (f_equal CanonicalJSON.span_number) in E.
    change ("m " ++ ?x) with (String "m" (" " ++ x)) in E.
    rewrite !span_show_Z in E by reflexivity.
    injection E as Em Er. apply show_Z_inj in Em.
    rewrite !append_empty_l in Er.
    apply (f_equal CanonicalJSON.span_number) in Er.
    rewrite !span_show_Z in Er by reflexivity.
    injection Er as Er. apply show_Z_inj in Er.
    rewrite (Z.div_mod s1 60), (Z.div_mod s2 60) by lia. congruence.
Qed.

Lemma formatWaitTime_is_injective_witness :
  formatWaitTime 299 = formatWaitTime (300 - 1) /\ 299 = 300 - 1.
Proof.
  split; [reflexivity|].
  apply formatWaitTime_is_injective;
    [unfold MAX_SAFE_INTEGER; lia | unfold MAX_SAFE_INTEGER; lia
    | reflexivity].
Defined.

(* ===================================================================== *)
(** ** PendingVerificationStore *)
(* ===================================================================== *)

Section OTPUtilsFacts.
Context {any : Type}.
Variable stringify : OTPData.t any -> string.
Variable parse : string -> result (OTPData.t any).

(** What [getOTPData] does, case by case. *)
Lemma run_getOTPData (env : Env) (w : World) :
  run env (getOTPData parse) w =
    match getItem_fault env OTP_STORAGE_KEY with
    | Some _ =>
        (Ok None, w,
         [AsyncStorage_getItem OTP_STORAGE_KEY;
          console_error "Error getting OTP data:"])
    | None =>
        if truthy (storage w !! OTP_STORAGE_KEY) then
          match parse (default "" (storage w !! OTP_STORAGE_KEY)) with
          | Ok d => (Ok (Some d), w, [AsyncStorage_getItem OTP_STORAGE_KEY])
          | Throw _ =>
              (Ok None, w,
               [AsyncStorage_getItem OTP_STORAGE_KEY;
                console_error "Error getting OTP data:"])
          end
        else (Ok None, w, [AsyncStorage_getItem OTP_STORAGE_KEY])
    end.
Proof.
  unfold getOTPData. cbn.
  destruct (getItem_fault env OTP_STORAGE_KEY); cbn; [reflexivity|].
  destruct (truthy (storage w !! OTP_STORAGE_KEY)); cbn; [|reflexivity].
  destruct (parse _); reflexivity.
Qed.

(** X9.  A record stored is the record read back: whatever the slot held
    before, after [storeOTPData(d)] on a storage that accepts the write,
    [getOTPData()] resolves to [d], provided [d] survives the passage
    through JSON; and reading changes nothing. *)
Theorem store_then_get_returns_the_record
    (env_s env_g : Env) (d : OTPData.t any) (w : World) :
  setItem_fault env_s OTP_STORAGE_KEY = None ->
  getItem_fault env_g OTP_STORAGE_KEY = None ->
  stringify d <> "" ->
  parse (stringify d) = Ok d ->
  let w1 := world_of (run env_s (storeOTPData stringify d) w) in
  value_of (run env_g (getOTPData parse) w1) = Ok (Some d) /\
  world_of (run env_g (getOTPData parse) w1) = w1 /\
  storage w1 = <[OTP_STORAGE_KEY := stringify d]> (storage w).
Proof.
  intros Hs Hg Hne Hp w1.
  assert (Hw1 : w1 = write OTP_STORAGE_KEY (stringify d) w).
  { subst w1. unfold storeOTPData. cbn. rewrite Hs. reflexivity. }
  rewrite run_getOTPData, Hg, Hw1, lookup_write.
  cbn [default from_option id]. assert (Ht : truthy (Some (stringify d)) = true)
    by now apply truthy_Some.
  rewrite Ht, Hp. repeat split.
Qed.

(** X10.  [getOTPData] never rejects and never changes the world.  It
    resolves to [null] when the read is rejected, when the slot is empty
    or holds the empty text, and when the text does not parse (the first
    and the last are logged); otherwise to the record the text parses
    to. *)
Theorem getOTPData_resolves (env : Env) (w : World) :
  let o := run env (getOTPData parse) w in
  world_of o = w /\
  (exists v, value_of o = Ok v) /\
  (is_Some (getItem_fault env OTP_STORAGE_KEY) ->
     value_of o = Ok None /\
     In (console_error "Error getting OTP data:") (trace_of o)) /\
  (truthy (storage w !! OTP_STORAGE_KEY) = false -> value_of o = Ok None) /\
  (forall text e,
     getItem_fault env OTP_STORAGE_KEY = None ->
     storage w !! OTP_STORAGE_KEY = Some text -> text <> "" ->
     parse text = Throw e ->
     value_of o = Ok None /\
     In (console_error "Error getting OTP data:") (trace_of o)) /\
  (forall text d,
     getItem_fault env OTP_STORAGE_KEY = None ->
     storage w !! OTP_STORAGE_KEY = Some text -> text <> "" ->
     parse text = Ok d ->
     value_of o = Ok (Some d)).
Proof.
  intros o. subst o. rewrite run_getOTPData.
  refine (conj _ (conj _ (conj _ (conj _ (conj _ _))))).
  - destruct (getItem_fault env _); [reflexivity|].
    destruct (truthy _); [|reflexivity]. destruct (parse _); reflexivity.
  - destruct (getItem_fault env _); [eauto|].
    destruct (truthy _); [|eauto]. destruct (parse _); eauto.
  - intros [e He]. rewrite He. split; [reflexivity | now right; left].
  - intros Hf. rewrite Hf. destruct (getItem_fault env _); reflexivity.
  - intros text e Hg Hd Hne Hp. rewrite Hg, Hd.
    apply truthy_Some in Hne. rewrite Hne. cbn [default from_option id]. rewrite Hp.
    split; [reflexivity | now right; left].
  - intros text d Hg Hd Hne Hp. rewrite Hg, Hd.
    apply truthy_Some in Hne. rewrite Hne. cbn [default from_option id]. rewrite Hp.
    reflexivity.
Qed.

(** X11.  After [clearOTPData()] on a storage that accepts the removal,
    the slot is empty, [getOTPData()] resolves to [null], and clearing
    again changes nothing. *)
Theorem clear_then_get_returns_null (env_c env_g : Env) (w : World) :
  removeItem_fault env_c OTP_STORAGE_KEY = None ->
  let w1 := world_of (run env_c clearOTPData w) in
  storage w1 !! OTP_STORAGE_KEY = None /\
  value_of (run env_g (getOTPData parse) w1) = Ok None /\
  world_of (run env_c clearOTPData w1) = w1.
Proof.
  intros Hr w1.
  assert (Hw1 : w1 = set_storage (delete OTP_STORAGE_KEY (storage w)) w).
  { subst w1. unfold clearOTPData. cbn. rewrite Hr. reflexivity. }
  assert (H0 : storage w1 !! OTP_STORAGE_KEY = None).
  { rewrite Hw1. apply lookup_delete_eq. }
  refine (conj H0 (conj _ _)).
  - rewrite run_getOTPData, H0. cbn [truthy].
    destruct (getItem_fault env_g _); reflexivity.
  - unfold clearOTPData. cbn. rewrite Hr. cbn. rewrite Hw1. cbn.
    unfold set_storage. cbn. f_equal.
    apply delete_id. apply lookup_delete_eq.
Qed.

(** What [storeOTPData] and [clearOTPData] do, case by case. *)
Lemma run_storeOTPData (env : Env) (d : OTPData.t any) (w : World) :
  run env (storeOTPData stringify d) w =
    match setItem_fault env OTP_STORAGE_KEY with
    | Some _ =>
        (Ok tt, w,
         [AsyncStorage_setItem OTP_STORAGE_KEY (stringify d);
          console_error "Error storing OTP data:"])
    | None =>
        (Ok tt, write OTP_STORAGE_KEY (stringify d) w,
         [AsyncStorage_setItem OTP_STORAGE_KEY (stringify d)])
    end.
Proof.
  unfold storeOTPData. cbn.
  destruct (setItem_fault env OTP_STORAGE_KEY); reflexivity.
Qed.

Lemma run_clearOTPData (env : Env) (w : World) :
  run env clearOTPData w =
    match removeItem_fault env OTP_STORAGE_KEY with
    | Some _ =>
        (Ok tt, w,
         [AsyncStorage_removeItem OTP_STORAGE_KEY;
          console_error "Error clearing OTP data:"])
    | None =>
        (Ok tt, set_storage (delete OTP_STORAGE_KEY (storage w)) w,
         [AsyncStorage_removeItem OTP_STORAGE_KEY])
    end.
Proof.
  unfold clearOTPData. cbn.
  destruct (removeItem_fault env OTP_STORAGE_KEY); reflexivity.
Qed.

Lemma storeOTPData_frame (env : Env) (d : OTPData.t any) (w : World)
    (key' : string) :
  key' <> OTP_STORAGE_KEY ->
  storage (world_of (run env (storeOTPData stringify d) w)) !! key'
  = storage w !! key'.
Proof.
  intros Hne. rewrite run_storeOTPData.
  destruct (setItem_fault env _); [reflexivity|].
  now apply lookup_write_ne.
Qed.

Lemma clearOTPData_frame (env : Env) (w : World) (key' : string) :
  key' <> OTP_STORAGE_KEY ->
  storage (world_of (run env clearOTPData w)) !! key' = storage w !! key'.
Proof.
  intros Hne. rewrite run_clearOTPData.
  destruct (removeItem_fault env _); [reflexivity|].
  now apply lookup_delete_ne.
Qed.

(** X12.  [storeOTPData] and [clearOTPData] never reject, leave the
    screen and every key other than [otp_verification_data] (so every
    record of the rate-limit guard) as they were, and, when the storage
    rejects the operation, leave the whole world as it was, the failure
    only logged: a rejected store keeps the record stored before. *)
Theorem store_and_clear_are_safe
    (env : Env) (d : OTPData.t any) (w : World) :
  let s := run env (storeOTPData stringify d) w in
  let c := run env clearOTPData w in
  value_of s = Ok tt /\ value_of c = Ok tt /\
  screen (world_of s) = screen w /\ screen (world_of c) = screen w /\
  (forall key', key' <> OTP_STORAGE_KEY ->
     storage (world_of s) !! key' = storage w !! key' /\
     storage (world_of c) !! key' = storage w !! key') /\
  (forall action,
     storage (world_of s) !! rate_limit_key action
       = storage w !! rate_limit_key action /\
     storage (world_of c) !! rate_limit_key action
       = storage w !! rate_limit_key action) /\
  (is_Some (setItem_fault env OTP_STORAGE_KEY) ->
     world_of s = w /\
     In (console_error "Error storing OTP data:") (trace_of s) /\
     forall env_g, value_of (run env_g (getOTPData parse) (world_of s))
                   = value_of (run env_g (getOTPData parse) w)) /\
  (is_Some (removeItem_fault env OTP_STORAGE_KEY) ->
     world_of c = w /\
     In (console_error "Error clearing OTP data:") (trace_of c)).
Proof.
  intros s c. subst s c.
  refine (conj _ (conj _ (conj _ (conj _ (conj _ (conj _ (conj _ _))))))).
  - rewrite run_storeOTPData. destruct (setItem_fault env _); reflexivity.
  - rewrite run_clearOTPData. destruct (removeItem_fault env _); reflexivity.
  - rewrite run_storeOTPData. destruct (setItem_fault env _); reflexivity.
  - rewrite run_clearOTPData. destruct (removeItem_fault env _); reflexivity.
  - intros key' Hne.
    split; [now apply storeOTPData_frame | now apply clearOTPData_frame].
  - intros action.
    split; [apply storeOTPData_frame | apply clearOTPData_frame];
      apply rate_limit_key_not_otp.
  - intros [e He]. rewrite run_storeOTPData, He.
    refine (conj eq_refl (conj _ _)); [now right; left | reflexivity].
  - intros [e He]. rewrite run_clearOTPData, He.
    refine (conj eq_refl _). now right; left.
Qed.

(** What [loadOTPData] does with what [getOTPData] resolves to. *)
Lemma run_loadOTPData (env : Env) (s : Screen) (w : World) :
  let g := run env (getOTPData parse) w in
  run env (loadOTPData parse s) w =
    match value_of g with
    | Ok (Some d) =>
        if negb (String.eqb (OTPData.email d) "") then
          (Ok (with_type (OTPData.type d) (with_email (OTPData.email d) s)),
           w, trace_of g)
        else
          (Ok s, w,
           (trace_of g ++
            [Alert_alert "Error" "No verification data found. Please try again.";
             router_push "/login"])%list)
    | _ =>
        (Ok s, w,
         (trace_of g ++
          [Alert_alert "Error" "No verification data found. Please try again.";
           router_push "/login"])%list)
    end.
Proof.
  cbv zeta. rewrite run_getOTPData. unfold loadOTPData, getOTPData. cbn.
  destruct (getItem_fault env OTP_STORAGE_KEY); cbn; [reflexivity|].
  destruct (truthy (storage w !! OTP_STORAGE_KEY)); cbn; [|reflexivity].
  destruct (parse _) as [d|e]; cbn; [|reflexivity].
  destruct (negb (String.eqb (OTPData.email d) "")); reflexivity.
Qed.

(** X13.  The hand-over from the entry flow to the screen: when the slot
    holds a record [d] with a non-empty address, the screen takes its
    address and its flow from [d], shows no alert and does not navigate;
    and a verification of a well-formed code triggered on that screen
    goes to the remote service for that address with the discriminator of
    the flow of [d]. *)
Theorem loadOTPData_takes_over_the_record
    (env env_v : Env) (d : OTPData.t any) (s : Screen) (w : World)
    (otp : string) :
  getItem_fault env OTP_STORAGE_KEY = None ->
  storage w !! OTP_STORAGE_KEY = Some (stringify d) ->
  stringify d <> "" ->
  parse (stringify d) = Ok d ->
  OTPData.email d <> "" ->
  verifying s = false ->
  isValidOTP otp = true ->
  let o := run env (loadOTPData parse s) w in
  let s' := with_type (OTPData.type d) (with_email (OTPData.email d) s) in
  value_of o = Ok s' /\
  world_of o = w /\
  count is_alert (trace_of o) = 0%nat /\
  ~ In (router_push "/login") (trace_of o) /\
  In (auth_verifyOtp (OTPData.email d) otp
        (flow_discriminator (OTPData.type d)))
     (trace_of (run env_v (handleVerify s' otp) (set_screen s' w))).
Proof.
  intros Hg Hd Hne Hp He Hv Hf o s'. subst o.
  rewrite run_loadOTPData, run_getOTPData, Hg, Hd.
  apply truthy_Some in Hne. rewrite Hne. cbn [default from_option id]. rewrite Hp.
  cbn [value_of fst snd].
  apply String.eqb_neq in He. rewrite He. cbn.
  refine (conj eq_refl (conj eq_refl (conj eq_refl (conj _ _)))).
  - intros [H|[]]. discriminate.
  - destruct (handleVerify_attempt env_v (set_screen s' w) otp)
      as (_ & _ & _ & _ & H).
    apply H; [exact Hv | exact Hf].
Qed.

(** X14.  The start-up precondition: when [getOTPData()] resolves to
    [null] (rejected read, empty slot, text that does not parse) or to a
    record whose address is empty, [loadOTPData] shows the alert "No
    verification data found", navigates to [/login], and leaves the
    address and the flow of the screen as they were. *)
Theorem loadOTPData_without_record (env : Env) (s : Screen) (w : World) :
  match value_of (run env (getOTPData parse) w) with
  | Ok (Some d) => OTPData.email d = ""
  | _ => True
  end ->
  let o := run env (loadOTPData parse s) w in
  value_of o = Ok s /\
  world_of o = w /\
  In (Alert_alert "Error" "No verification data found. Please try again.")
     (trace_of o) /\
  In (router_push "/login") (trace_of o) /\
  count is_remote (trace_of o) = 0%nat.
Proof.
  intros H o. subst o. rewrite run_loadOTPData. cbv zeta.
  rewrite run_getOTPData in *.
  destruct (getItem_fault env OTP_STORAGE_KEY); cbn in *.
  { repeat split; auto 6. }
  destruct (truthy (storage w !! OTP_STORAGE_KEY)); cbn in *.
  2:{ repeat split; auto 6. }
  destruct (parse _) as [d|e]; cbn in *.
  2:{ repeat split; auto 6. }
  rewrite H. cbn. repeat split; auto 6.
Qed.

End OTPUtilsFacts.

(** *** Concrete instances *)

Lemma plain_recovery_survives :
  PlainOTPJSON.stringify SampleOTP.recovery <> "" /\
  PlainOTPJSON.parse (PlainOTPJSON.stringify SampleOTP.recovery)
  = Ok SampleOTP.recovery.
Proof. split; [discriminate | reflexivity]. Defined.

Lemma store_then_get_returns_the_record_witness :
  let w1 := world_of (run (Sample.offline 1000)
                        (storeOTPData PlainOTPJSON.stringify SampleOTP.recovery)
                        Sample.registration) in
  value_of (run (Sample.offline 2000) (getOTPData PlainOTPJSON.parse) w1)
    = Ok (Some SampleOTP.recovery) /\
  world_of (run (Sample.offline 2000) (getOTPData PlainOTPJSON.parse) w1) = w1 /\
  storage w1 = <[OTP_STORAGE_KEY := PlainOTPJSON.stringify SampleOTP.recovery]>
                 (storage Sample.registration).
Proof.
  exact (store_then_get_returns_the_record PlainOTPJSON.stringify
           PlainOTPJSON.parse (Sample.offline 1000) (Sample.offline 2000)
           SampleOTP.recovery Sample.registration eq_refl eq_refl
           (proj1 plain_recovery_survives) (proj2 plain_recovery_survives)).
Defined.

Lemma getOTPData_resolves_witness :
  value_of (run (Sample.unreadable 1000) (getOTPData PlainOTPJSON.parse)
              (SampleOTP.holding SampleOTP.recovery)) = Ok None /\
  value_of (run (Sample.offline 1000) (getOTPData PlainOTPJSON.parse)
              SampleOTP.garbled) = Ok None /\
  value_of (run (Sample.offline 1000) (getOTPData PlainOTPJSON.parse)
              (SampleOTP.holding SampleOTP.recovery))
    = Ok (Some SampleOTP.recovery).
Proof.
  refine (conj _ (conj _ _)).
  - destruct (getOTPData_resolves PlainOTPJSON.parse (Sample.unreadable 1000)
                (SampleOTP.holding SampleOTP.recovery)) as (_ & _ & H & _).
    apply H. eexists. reflexivity.
  - destruct (getOTPData_resolves PlainOTPJSON.parse (Sample.offline 1000)
                SampleOTP.garbled) as (_ & _ & _ & _ & H & _).
    apply (H "{email" CanonicalJSON.syntax_error);
      [reflexivity | apply lookup_singleton_eq | discriminate | reflexivity].
  - destruct (getOTPData_resolves PlainOTPJSON.parse (Sample.offline 1000)
                (SampleOTP.holding SampleOTP.recovery))
      as (_ & _ & _ & _ & _ & H).
    apply (H (PlainOTPJSON.stringify SampleOTP.recovery));
      [reflexivity | apply lookup_singleton_eq | discriminate | reflexivity].
Defined.

Lemma clear_then_get_returns_null_witness :
  let w1 := world_of (run (Sample.offline 1000) clearOTPData
                        (SampleOTP.holding SampleOTP.recovery)) in
  storage w1 !! OTP_STORAGE_KEY = None /\
  value_of (run (Sample.offline 2000) (getOTPData PlainOTPJSON.parse) w1)
    = Ok None /\
  world_of (run (Sample.offline 1000) clearOTPData w1) = w1.
Proof.
  exact (clear_then_get_returns_null PlainOTPJSON.parse (Sample.offline 1000)
           (Sample.offline 2000) (SampleOTP.holding SampleOTP.recovery)
           eq_refl).
Defined.

Lemma store_and_clear_are_safe_witness :
  let env := SampleOTP.read_only 1000 in
  let w := SampleOTP.holding SampleOTP.recovery in
  let s := run env (storeOTPData PlainOTPJSON.stringify SampleOTP.nameless) w in
  world_of s = w /\
  In (console_error "Error storing OTP data:") (trace_of s) /\
  world_of (run env clearOTPData w) = w.
Proof.
  intros env w s.
  destruct (store_and_clear_are_safe PlainOTPJSON.stringify PlainOTPJSON.parse
              env SampleOTP.nameless w) as (_ & _ & _ & _ & _ & _ & H1 & H2).
  destruct (H1 (ex_intro _ _ eq_refl)) as (K1 & K2 & _).
  destruct (H2 (ex_intro _ _ eq_refl)) as (K3 & _).
  exact (conj K1 (conj K2 K3)).
Defined.

Lemma loadOTPData_takes_over_the_record_witness :
  let env := Sample.remote 1000 (Ok Sample.expired) (Ok Sample.no_session)
               (Ok None) in
  let s := Sample.fresh_screen register in
  let w := SampleOTP.holding SampleOTP.recovery in
  let o := run env (loadOTPData PlainOTPJSON.parse s) w in
  let s' := with_type reset (with_email "a@b.com" s) in
  value_of o = Ok s' /\
  world_of o = w /\
  count is_alert (trace_of o) = 0%nat /\
  ~ In (router_push "/login") (trace_of o) /\
  In (auth_verifyOtp "a@b.com" "123456" OtpType.recovery)
     (trace_of (run env (handleVerify s' "123456") (set_screen s' w))).
Proof.
  intros env s w.
  apply (loadOTPData_takes_over_the_record PlainOTPJSON.stringify
           PlainOTPJSON.parse env env SampleOTP.recovery s w "123456");
    first [reflexivity | discriminate | apply lookup_singleton_eq].
Defined.

Lemma loadOTPData_without_record_witness :
  let o := run (Sample.offline 1000)
             (loadOTPData PlainOTPJSON.parse (Sample.fresh_screen register))
             (SampleOTP.holding SampleOTP.nameless) in
  value_of o = Ok (Sample.fresh_screen register) /\
  world_of o = SampleOTP.holding SampleOTP.nameless /\
  In (Alert_alert "Error" "No verification data found. Please try again.")
     (trace_of o) /\
  In (router_push "/login") (trace_of o) /\
  count is_remote (trace_of o) = 0%nat.
Proof.
  apply (loadOTPData_without_record PlainOTPJSON.parse (Sample.offline 1000)
           (Sample.fresh_screen register)
           (SampleOTP.holding SampleOTP.nameless)).
  rewrite run_getOTPData. reflexivity.
Defined.

(* ===================================================================== *)
(** ** VerificationController: what every attempt leaves behind *)
(* ===================================================================== *)

(** X15.  A verification that is let through (none in progress, a code of
    the right format) never rejects; whatever the remote service and the
    storage answer, it raises the two flags first and lowers them last,
    shows exactly one alert, and leaves the cooldown of resend and the
    code held by the screen as they were. *)
Theorem handleVerify_lowers_the_flags (env : Env) (w : World) (otp : string) :
  verifying (screen w) = false -> isValidOTP otp = true ->
  let o := run env (handleVerify (screen w) otp) w in
  value_of o = Ok tt /\
  loading (screen (world_of o)) = false /\
  verifying (screen (world_of o)) = false /\
  count is_alert (trace_of o) = 1%nat /\
  [setVerifying true; setLoading true] `prefix_of` trace_of o /\
  [setLoading false; setVerifying false] `suffix_of` trace_of o /\
  resendTimer (screen (world_of o)) = resendTimer (screen w) /\
  resendDisabled (screen (world_of o)) = resendDisabled (screen w) /\
  enteredOtp (screen (world_of o)) = enteredOtp (screen w).
Proof.
  intros Hv Hf. unfold handleVerify. rewrite Hv, Hf. run_cases.
  all: cbn.
  all: refine (conj eq_refl (conj eq_refl (conj eq_refl (conj eq_refl
         (conj _ (conj _ (conj eq_refl (conj eq_refl eq_refl)))))))).
  all: first [solve [starts_with] | solve [ends_with]].
Qed.

Lemma handleVerify_lowers_the_flags_witness :
  let o := run (Sample.remote 1000 (Ok Sample.expired) (Ok Sample.no_session)
                  (Ok None))
             (handleVerify (screen Sample.registration) "123456")
             Sample.registration in
  value_of o = Ok tt /\
  loading (screen (world_of o)) = false /\
  verifying (screen (world_of o)) = false /\
  count is_alert (trace_of o) = 1%nat /\
  [setVerifying true; setLoading true] `prefix_of` trace_of o /\
  [setLoading false; setVerifying false] `suffix_of` trace_of o /\
  resendTimer (screen (world_of o)) = resendTimer (screen Sample.registration) /\
  resendDisabled (screen (world_of o))
    = resendDisabled (screen Sample.registration) /\
  enteredOtp (screen (world_of o)) = enteredOtp (screen Sample.registration).
Proof.
  exact (handleVerify_lowers_the_flags
           (Sample.remote 1000 (Ok Sample.expired) (Ok Sample.no_session)
              (Ok None))
           Sample.registration "123456" eq_refl eq_refl).
Defined.

Section VerifiedCode.
Context {any : Type}.
Variable parse : string -> result (OTPData.t any).

(** X16.  A code the remote service accepts, with a session confirmed
    afterwards: the one outcome is Success, the user is not sent to
    [/login], and the only storage operation is the removal of the
    pending verification, which leaves every other key as it was.  When
    the storage accepts the removal the record is gone, so that
    [getOTPData()] resolves to [null] from then on; when it rejects it the
    failure is logged, the storage is left as it was, and success is
    signalled all the same. *)
Theorem verified_code_clears_the_pending_record
    (env : Env) (w : World) (otp : string)
    (user : option string) (session : bool) (uid : string) :
  verifying (screen w) = false -> isValidOTP otp = true ->
  verifyOtp env (email (screen w)) otp (flow_discriminator (type (screen w)))
    = Ok {| data_user := user; data_session := session;
            error_message := None |} ->
  is_Some user \/ session = true ->
  getSession env
    = Ok {| sessionData_session := Some uid; sessionError := None |} ->
  let o := run env (handleVerify (screen w) otp) w in
  outcomes (trace_of o) = [Success] /\
  ~ In (router_push "/login") (trace_of o) /\
  List.filter is_storage (trace_of o)
    = [AsyncStorage_removeItem OTP_STORAGE_KEY] /\
  (forall key, key <> OTP_STORAGE_KEY ->
     storage (world_of o) !! key = storage w !! key) /\
  (removeItem_fault env OTP_STORAGE_KEY = None ->
     storage (world_of o) = delete OTP_STORAGE_KEY (storage w) /\
     forall env_g,
       getItem_fault env_g OTP_STORAGE_KEY = None ->
       run env_g (getOTPData parse) (world_of o)
       = (Ok None, world_of o, [AsyncStorage_getItem OTP_STORAGE_KEY])) /\
  (is_Some (removeItem_fault env OTP_STORAGE_KEY) ->
     storage (world_of o) = storage w /\
     In (console_error "Error clearing OTP data:") (trace_of o)).
Proof.
  intros Hv Hf Hr Hu Hs o. unfold flow_discriminator in Hr.
  assert (Hnone : negb (bool_decide (is_Some user)) && negb session = false).
  { destruct Hu as [Hu | ->]; [|apply andb_false_r].
    now rewrite (bool_decide_eq_true_2 _ Hu). }
  assert (H : outcomes (trace_of o) = [Success] /\
              ~ In (router_push "/login") (trace_of o) /\
              List.filter is_storage (trace_of o)
                = [AsyncStorage_removeItem OTP_STORAGE_KEY] /\
              (removeItem_fault env OTP_STORAGE_KEY = None ->
                 storage (world_of o) = delete OTP_STORAGE_KEY (storage w)) /\
              (is_Some (removeItem_fault env OTP_STORAGE_KEY) ->
                 storage (world_of o) = storage w /\
                 In (console_error "Error clearing OTP data:") (trace_of o))).
  { subst o. unfold handleVerify. rewrite Hv, Hf.
    remember (run env _ w) as o eqn:Ho. revert Ho.
    destruct (type (screen w)); cbn; rewrite Hr; cbn; rewrite Hnone; cbn;
      rewrite Hs; cbn;
      destruct (removeItem_fault env OTP_STORAGE_KEY) eqn:Hrem; cbn;
      intros ->; cbn.
    all: refine (conj eq_refl (conj _ (conj eq_refl (conj _ _)))).
    all: try solve [intros H; in_trace H].
    all: try solve [intros [? [=]]].
    all: try discriminate.
    all: try solve [intros _; reflexivity].
    all: intros _; split; [reflexivity | is_issued]. }
  destruct H as (H1 & H2 & H3 & H4 & H5).
  refine (conj H1 (conj H2 (conj H3 (conj _ (conj _ H5))))).
  - intros key Hne.
    destruct (removeItem_fault env OTP_STORAGE_KEY) eqn:Hrem.
    + destruct H5 as [-> _]; [eauto | reflexivity].
    + rewrite H4 by reflexivity. now apply lookup_delete_ne.
  - intros Hrem. split; [auto|]. intros env_g Hg.
    rewrite run_getOTPData, Hg, (H4 Hrem), lookup_delete_eq. reflexivity.
Qed.

End VerifiedCode.

Lemma verified_code_clears_the_pending_record_witness :
  let env := Sample.remote 1000 (Ok Sample.verified) (Ok Sample.session)
               (Ok None) in
  let w := Sample.registration in
  let o := run env (handleVerify (screen w) "123456") w in
  outcomes (trace_of o) = [Success] /\
  ~ In (router_push "/login") (trace_of o) /\
  List.filter is_storage (trace_of o)
    = [AsyncStorage_removeItem OTP_STORAGE_KEY] /\
  (forall key, key <> OTP_STORAGE_KEY ->
     storage (world_of o) !! key = storage w !! key) /\
  (removeItem_fault env OTP_STORAGE_KEY = None ->
     storage (world_of o) = delete OTP_STORAGE_KEY (storage w) /\
     forall env_g,
       getItem_fault env_g OTP_STORAGE_KEY = None ->
       run env_g (getOTPData PlainOTPJSON.parse) (world_of o)
       = (Ok None, world_of o, [AsyncStorage_getItem OTP_STORAGE_KEY])) /\
  (is_Some (removeItem_fault env OTP_STORAGE_KEY) ->
     storage (world_of o) = storage w /\
     In (console_error "Error clearing OTP data:") (trace_of o)).
Proof.
  exact (verified_code_clears_the_pending_record PlainOTPJSON.parse
           (Sample.remote 1000 (Ok Sample.verified) (Ok Sample.session)
              (Ok None))
           Sample.registration "123456" (Some "user-1") true "user-1"
           eq_refl eq_refl eq_refl (or_intror eq_refl) eq_refl).
Defined.

(* ===================================================================== *)
(** ** VerificationController: [handleResend] and the cooldown *)
(* ===================================================================== *)

(** X17.  A resend that is let through never rejects; whatever the remote
    service answers, it raises the loading flag first and lowers it last,
    shows exactly one alert, and leaves the in-progress flag, the code,
    the address and the flow of the screen as they were.  The cooldown is
    armed only by an accepted resend and by an answer read as rate
    limiting: after any other error text, and after a rejected call,
    resend stays enabled and the timer stays as it was. *)
Theorem handleResend_lowers_the_flag (env : Env) (w : World) :
  resendDisabled (screen w) = false ->
  let o := run env (handleResend (screen w)) w in
  value_of o = Ok tt /\
  loading (screen (world_of o)) = false /\
  count is_alert (trace_of o) = 1%nat /\
  [setLoading true] `prefix_of` trace_of o /\
  [setLoading false] `suffix_of` trace_of o /\
  verifying (screen (world_of o)) = verifying (screen w) /\
  enteredOtp (screen (world_of o)) = enteredOtp (screen w) /\
  email (screen (world_of o)) = email (screen w) /\
  type (screen (world_of o)) = type (screen w) /\
  (forall message,
     resend_reply env (screen w) = Ok (Some message) ->
     reports_rate_limit message = false ->
     resendDisabled (screen (world_of o)) = false /\
     resendTimer (screen (world_of o)) = resendTimer (screen w) /\
     (outcomes (trace_of o) = [UserNotFound] \/
      outcomes (trace_of o) = [NetworkOrUnknown])) /\
  (forall e,
     resend_reply env (screen w) = Throw e ->
     resendDisabled (screen (world_of o)) = false /\
     resendTimer (screen (world_of o)) = resendTimer (screen w) /\
     outcomes (trace_of o) = [NetworkOrUnknown]).
Proof.
  intros Hd. unfold resend_reply, reports_rate_limit, handleResend.
  rewrite Hd. destruct (type (screen w)) eqn:Ht.
  all: run_cases.
  all: cbn.
  all: refine (conj eq_refl (conj eq_refl (conj eq_refl (conj _ (conj _
         (conj eq_refl (conj eq_refl (conj eq_refl (conj _ (conj _ _)))))))))).
  all: try solve [starts_with].
  all: try solve [ends_with].
  all: try assumption.
  all: try solve [intros ? [=]].
  all: try solve [intros ? [=] ?; congruence].
  all: try solve [intros ? _; auto].
  all: try solve [intros ? [=<-] _; auto].
Qed.

Lemma handleResend_lowers_the_flag_witness :
  let env := Sample.remote 1000 (Ok Sample.verified) (Ok Sample.session)
               (Ok (Some "User not found")) in
  let w := Sample.registration in
  let o := run env (handleResend (screen w)) w in
  value_of o = Ok tt /\
  loading (screen (world_of o)) = false /\
  count is_alert (trace_of o) = 1%nat /\
  resendDisabled (screen (world_of o)) = false /\
  resendTimer (screen (world_of o)) = 0 /\
  (outcomes (trace_of o) = [UserNotFound] \/
   outcomes (trace_of o) = [NetworkOrUnknown]).
Proof.
  intros env w o.
  destruct (handleResend_lowers_the_flag env w eq_refl)
    as (H1 & H2 & H3 & _ & _ & _ & _ & _ & _ & H4 & _).
  destruct (H4 "User not found" eq_refl eq_refl) as (H5 & H6 & H7).
  exact (conj H1 (conj H2 (conj H3 (conj H5 (conj H6 H7))))).
Defined.

(** One run of the countdown effect. *)
Lemma run_resendTimerEffect (env : Env) (w : World) :
  world_of (run env (resendTimerEffect (screen w)) w) =
    if resendTimer (screen w) >? 0
    then set_screen (with_resendTimer (resendTimer (screen w) - 1) (screen w)) w
    else set_screen (with_resendDisabled false (screen w)) w.
Proof.
  unfold resendTimerEffect.
  destruct (resendTimer (screen w) >? 0); reflexivity.
Qed.

(** The effect touches nothing but the timer and the resend flag. *)
Lemma countdown_frame (env : Env) (k : nat) (w : World) :
  storage (countdown env k w) = storage w /\
  loading (screen (countdown env k w)) = loading (screen w) /\
  verifying (screen (countdown env k w)) = verifying (screen w) /\
  enteredOtp (screen (countdown env k w)) = enteredOtp (screen w) /\
  email (screen (countdown env k w)) = email (screen w) /\
  type (screen (countdown env k w)) = type (screen w).
Proof.
  revert w. induction k as [|k IH]; intros w; [now repeat split|].
  cbn [countdown]. rewrite run_resendTimerEffect.
  destruct (resendTimer (screen w) >? 0); exact (IH (set_screen _ w)).
Qed.

Lemma countdown_ticks (env : Env) (k : nat) :
  forall (n : nat) (w : World),
    resendTimer (screen w) = Z.of_nat n -> (k <= n)%nat ->
    resendTimer (screen (countdown env k w)) = Z.of_nat (n - k) /\
    resendDisabled (screen (countdown env k w)) = resendDisabled (screen w).
Proof.
  induction k as [|k IH]; intros n w Hn Hk.
  - cbn [countdown]. now rewrite Nat.sub_0_r.
  - destruct n as [|n]; [lia|].
    cbn [countdown]. rewrite run_resendTimerEffect, Hn.
    replace (Z.of_nat (S n) >? 0) with true by (symmetry; apply Z.gtb_lt; lia).
    destruct (IH n (set_screen
                      (with_resendTimer (Z.of_nat (S n) - 1) (screen w)) w))
      as [H1 H2]; [cbn; lia | lia |].
    split; [exact H1 | exact H2].
Qed.

Lemma countdown_at_rest (env : Env) (k : nat) :
  forall w : World,
    resendTimer (screen w) = 0 -> resendDisabled (screen w) = false ->
    resendTimer (screen (countdown env k w)) = 0 /\
    resendDisabled (screen (countdown env k w)) = false.
Proof.
  induction k as [|k IH]; intros w Ht Hd; [now split|].
  cbn [countdown]. rewrite run_resendTimerEffect, Ht.
  change (0 >? 0) with false. cbv iota. apply IH; [exact Ht | reflexivity].
Qed.

Lemma countdown_done (env : Env) (n : nat) :
  forall (m : nat) (w : World),
    resendTimer (screen w) = Z.of_nat n -> (n < m)%nat ->
    resendTimer (screen (countdown env m w)) = 0 /\
    resendDisabled (screen (countdown env m w)) = false.
Proof.
  induction n as [|n IH]; intros m w Hn Hm; (destruct m as [|m]; [lia|]);
    cbn [countdown]; rewrite run_resendTimerEffect, Hn.
  - change (Z.of_nat 0 >? 0) with false. cbv iota.
    apply countdown_at_rest; [exact Hn | reflexivity].
  - replace (Z.of_nat (S n) >? 0) with true by (symmetry; apply Z.gtb_lt; lia).
    apply IH; [cbn; lia | lia].
Qed.

(** X18.  The countdown of the screen.  From a timer of [n] seconds, each
    of the first [n] runs of the effect lowers the timer by one and leaves
    the resend flag as it is; the run after them enables resend, and
    further runs change nothing more.  The effect never touches the
    storage nor any other state of the screen. *)
Theorem countdown_enables_resend_when_timer_runs_out
    (env : Env) (n : nat) (w : World) :
  resendTimer (screen w) = Z.of_nat n ->
  (forall k, (k <= n)%nat ->
     resendTimer (screen (countdown env k w)) = Z.of_nat (n - k) /\
     resendDisabled (screen (countdown env k w)) = resendDisabled (screen w)) /\
  (forall m, (n < m)%nat ->
     resendTimer (screen (countdown env m w)) = 0 /\
     resendDisabled (screen (countdown env m w)) = false /\
     forall disabled,
       OTPInput.canResend disabled
         (resendDisabled (screen (countdown env m w)))
         (resendTimer (screen (countdown env m w))) = negb disabled) /\
  (forall k,
     storage (countdown env k w) = storage w /\
     loading (screen (countdown env k w)) = loading (screen w) /\
     verifying (screen (countdown env k w)) = verifying (screen w) /\
     enteredOtp (screen (countdown env k w)) = enteredOtp (screen w) /\
     email (screen (countdown env k w)) = email (screen w) /\
     type (screen (countdown env k w)) = type (screen w)).
Proof.
  intros Hn. refine (conj _ (conj _ _)).
  - intros k Hk. now apply countdown_ticks.
  - intros m Hm. destruct (countdown_done env n m w Hn Hm) as [H1 H2].
    refine (conj H1 (conj H2 _)). intros disabled. rewrite H1, H2.
    unfold OTPInput.canResend. now destruct disabled.
  - intros k. apply countdown_frame.
Qed.

Lemma countdown_enables_resend_when_timer_runs_out_witness :
  resendTimer (screen (countdown (Sample.offline 1000) 30 SampleOTP.cooling))
    = 0 /\
  resendDisabled (screen (countdown (Sample.offline 1000) 30 SampleOTP.cooling))
    = true /\
  resendDisabled (screen (countdown (Sample.offline 1000) 31 SampleOTP.cooling))
    = false.
Proof.
  destruct (countdown_enables_resend_when_timer_runs_out
              (Sample.offline 1000) 30 SampleOTP.cooling eq_refl)
    as (H1 & H2 & _).
  destruct (H1 30%nat (Nat.le_refl _)) as (H3 & H4).
  destruct (H2 31%nat (Nat.lt_succ_diag_r _)) as (_ & H5 & _).
  exact (conj H3 (conj H4 H5)).
Defined.

(** What a resend that is let through does to the cooldown. *)
Lemma handleResend_cooldown (env : Env) (w : World) :
  resendDisabled (screen w) = false ->
  let o := run env (handleResend (screen w)) w in
  In (resend_command (screen w)) (trace_of o) /\
  count is_remote (trace_of o) = 1%nat /\
  type (screen (world_of o)) = type (screen w) /\
  email (screen (world_of o)) = email (screen w) /\
  (resend_reply env (screen w) = Ok None ->
     resendTimer (screen (world_of o)) = 30 /\
     resendDisabled (screen (world_of o)) = true) /\
  (forall message,
     resend_reply env (screen w) = Ok (Some message) ->
     reports_rate_limit message = true ->
     resendTimer (screen (world_of o)) = 300 /\
     resendDisabled (screen (world_of o)) = true).
Proof.
  intros Hd. unfold resend_command, resend_reply, reports_rate_limit,
    handleResend.
  rewrite Hd. destruct (type (screen w)) eqn:Ht.
  all: run_cases.
  all: cbn.
  all: refine (conj _ (conj eq_refl (conj _ (conj eq_refl (conj _ _))))).
  all: try assumption.
  all: try solve [is_issued].
  all: try discriminate.
  all: try solve [intros _; split; reflexivity].
  all: try solve [intros ? [=<-] ?; congruence].
  all: try solve [intros ? _ _; split; reflexivity].
  all: try solve [intros ? [=]].
Qed.

(** X19.  The cooldown cycle.  After a resend that arms the cooldown (an
    accepted one arms it to 30 seconds, one answered as rate limited to
    300), the button of the code input cannot resend and a resend issues
    nothing, through every run of the countdown up to the one that takes
    the timer to zero; after one more run the button can resend again,
    and a resend contacts the remote operation of the same flow for the
    same address, once. *)
Theorem resend_is_held_back_until_the_cooldown_ends
    (env : Env) (w : World) (T : nat) :
  resendDisabled (screen w) = false ->
  (resend_reply env (screen w) = Ok None /\ T = 30%nat) \/
  (exists message,
     resend_reply env (screen w) = Ok (Some message) /\
     reports_rate_limit message = true /\ T = 300%nat) ->
  let w1 := world_of (run env (handleResend (screen w)) w) in
  (forall env_t env_r k, (k <= T)%nat ->
     let wk := countdown env_t k w1 in
     resendTimer (screen wk) = Z.of_nat (T - k) /\
     OTPInput.canResend false (resendDisabled (screen wk))
       (resendTimer (screen wk)) = false /\
     run env_r (handleResend (screen wk)) wk = (Ok tt, wk, [])) /\
  (forall env_t env_r m, (T < m)%nat ->
     let wm := countdown env_t m w1 in
     OTPInput.canResend false (resendDisabled (screen wm))
       (resendTimer (screen wm)) = true /\
     In (resend_command (screen w))
        (trace_of (run env_r (handleResend (screen wm)) wm)) /\
     count is_remote (trace_of (run env_r (handleResend (screen wm)) wm))
       = 1%nat).
Proof.
  intros Hd Hreply w1.
  destruct (handleResend_cooldown env w Hd) as (_ & _ & Hty & Hem & Ha & Hb).
  fold w1 in Hty, Hem, Ha, Hb.
  assert (Harmed : resendTimer (screen w1) = Z.of_nat T /\
                   resendDisabled (screen w1) = true).
  { destruct Hreply as [[Hr ->] | (message & Hr & Hm & ->)].
    - destruct (Ha Hr) as [-> ->]. now split.
    - destruct (Hb message Hr Hm) as [-> ->]. now split. }
  destruct Harmed as [Ht Hdis]. split.
  - intros env_t env_r k Hk wk.
    destruct (countdown_ticks env_t k T w1 Ht Hk) as [H1 H2].
    fold wk in H1, H2. rewrite Hdis in H2.
    refine (conj H1 (conj _ _)).
    + unfold OTPInput.canResend. now rewrite H2.
    + now rewrite handleResend_disabled.
  - intros env_t env_r m Hm wm.
    destruct (countdown_done env_t T m w1 Ht Hm) as [H1 H2].
    destruct (countdown_frame env_t m w1) as (_ & _ & _ & _ & H3 & H4).
    fold wm in H1, H2, H3, H4.
    destruct (handleResend_cooldown env_r wm H2) as (H5 & H6 & _).
    refine (conj _ (conj _ H6)).
    + unfold OTPInput.canResend. now rewrite H1, H2.
    + replace (resend_command (screen w)) with (resend_command (screen wm));
        [exact H5|].
      unfold resend_command. now rewrite H3, H4, Hty, Hem.
Qed.

Lemma resend_is_held_back_until_the_cooldown_ends_witness :
  let env := Sample.remote 1000 (Ok Sample.verified) (Ok Sample.session)
               (Ok None) in
  let w1 := world_of (run env (handleResend (screen Sample.registration))
                        Sample.registration) in
  run env (handleResend (screen (countdown env 30 w1))) (countdown env 30 w1)
    = (Ok tt, countdown env 30 w1, []) /\
  count is_remote
    (trace_of (run env (handleResend (screen (countdown env 31 w1)))
                 (countdown env 31 w1))) = 1%nat.
Proof.
  intros env w1.
  destruct (resend_is_held_back_until_the_cooldown_ends env
              Sample.registration 30 eq_refl (or_introl (conj eq_refl eq_refl)))
    as (H1 & H2).
  destruct (H1 env env 30%nat (Nat.le_refl _)) as (_ & _ & H3).
  destruct (H2 env env 31%nat (Nat.lt_succ_diag_r _)) as (_ & _ & H4).
  exact (conj H3 H4).
Defined.

(* ===================================================================== *)
(** ** The code input: [OTPInput] *)
(* ===================================================================== *)

Lemma includes_empty (s : string) : JSString.includes s "" = true.
Proof. destruct s; reflexivity. Qed.

Lemma strip_non_digits_digits (text : string) :
  Forall (fun c => JSString.is_digit c = true)
         (list_ascii_of_string (OTPInput.strip_non_digits text)).
Proof.
  induction text as [|c text IH]; simpl; [constructor|].
  destruct (JSString.is_digit c) eqn:Hc; simpl; [constructor|]; assumption.
Qed.

Lemma slice_last_cell (s : string) :
  Forall (fun c => JSString.is_digit c = true) (list_ascii_of_string s) ->
  OTPInput.is_cell (OTPInput.slice_last s).
Proof.
  induction s as [|c s IH]; intros H; [now left|].
  inversion H as [|? ? Hc Hs]; subst.
  destruct s as [|c' s]; [right; eauto|].
  exact (IH Hs).
Qed.

Lemma char_is_cell (text : string) :
  OTPInput.is_cell (OTPInput.slice_last (OTPInput.strip_non_digits text)).
Proof. apply slice_last_cell, strip_non_digits_digits. Qed.

Lemma array_set_cells (index : nat) (x : string) (l : list string) :
  OTPInput.is_cell x -> Forall OTPInput.is_cell l ->
  Forall OTPInput.is_cell (OTPInput.array_set index x l).
Proof.
  intros Hx Hl. unfold OTPInput.array_set.
  destruct (index <? length l)%nat.
  - now apply Forall_insert.
  - apply Forall_app. split; [assumption|].
    apply Forall_app. split; [|now constructor].
    apply Forall_replicate. now left.
Qed.

Lemma edit_cells (n : nat) (digits : list string) (e : OTPInput.Edit) :
  Forall OTPInput.is_cell digits ->
  Forall OTPInput.is_cell (OTPInput.edit n digits e).
Proof.
  intros H. destruct e as [text index | key index]; simpl.
  - apply array_set_cells; [apply char_is_cell | assumption].
  - unfold OTPInput.handleKeyPress.
    destruct (String.eqb key "Backspace"); [|assumption].
    destruct (negb (String.eqb (OTPInput.cell digits index) ""));
      [apply array_set_cells; [now left | assumption]|].
    destruct (0 <? index)%nat; [|assumption].
    apply array_set_cells; [now left | assumption].
Qed.

Lemma edits_cells (n : nat) (es : list OTPInput.Edit) :
  Forall OTPInput.is_cell (OTPInput.edits n es).
Proof.
  unfold OTPInput.edits.
  assert (H : Forall OTPInput.is_cell (replicate n EmptyString))
    by (apply Forall_replicate; now left).
  revert H. generalize (replicate n EmptyString).
  induction es as [|e es IH]; intros l Hl; [assumption|].
  simpl. apply IH, edit_cells, Hl.
Qed.

Lemma otpValue_digits (digits : list string) :
  Forall OTPInput.is_cell digits ->
  Forall ascii_decimal_digit
         (list_ascii_of_string (OTPInput.otpValue digits)).
Proof.
  induction 1 as [|c l [-> | (d & Hd & ->)] _ IH]; simpl.
  - constructor.
  - exact IH.
  - constructor; [now apply is_digit_iff | exact IH].
Qed.

(** X20.  The effect of the input on its value reports every value to
    [onChange] and never calls [onComplete]: every string includes the
    empty string, so the test that guards the call fails whatever has
    been typed.  A verification is therefore never started by the input
    itself. *)
Theorem onComplete_is_never_called (n : nat) (digits : list string) :
  OTPInput.valueEffect n digits
    = [OTPInput.onChange (OTPInput.otpValue digits)] /\
  forall otp, ~ In (OTPInput.onComplete otp) (OTPInput.valueEffect n digits).
Proof.
  assert (H : OTPInput.valueEffect n digits
              = [OTPInput.onChange (OTPInput.otpValue digits)]).
  { unfold OTPInput.valueEffect. rewrite includes_empty.
    now rewrite andb_false_r. }
  split; [exact H|]. intros otp. rewrite H. intros [[=] | []].
Qed.

(** X21.  Whatever is typed, pasted or deleted, in whatever cells, every
    cell of the input holds nothing or a single ASCII digit; so a value
    of six characters always has the format [isValidOTP] asks for. *)
Theorem input_holds_only_digits (n : nat) (es : list OTPInput.Edit) :
  Forall OTPInput.is_cell (OTPInput.edits n es) /\
  (String.length (OTPInput.otpValue (OTPInput.edits n es)) = 6%nat ->
   isValidOTP (OTPInput.otpValue (OTPInput.edits n es)) = true).
Proof.
  split; [exact (edits_cells n es)|].
  intros Hl. unfold isValidOTP.
  replace (JSString.match_digits 6 (OTPInput.otpValue (OTPInput.edits n es)))
    with (Some EmptyString); [reflexivity|].
  symmetry. apply match_digits_to_end.
  split; [exact Hl | apply otpValue_digits, edits_cells].
Qed.

Lemma input_holds_only_digits_witness :
  isValidOTP (OTPInput.otpValue (OTPInput.edits 6 SampleOTP.typing_123456))
  = true.
Proof.
  exact (proj2 (input_holds_only_digits 6 SampleOTP.typing_123456) eq_refl).
Defined.

(** Reading and writing the cells of the array. *)
Lemma cell_array_set (index : nat) (x : string) (l : list string) :
  OTPInput.cell (OTPInput.array_set index x l) index = x.
Proof.
  unfold OTPInput.cell, OTPInput.array_set.
  destruct (Nat.ltb_spec index (length l)).
  - now rewrite list_lookup_insert_eq.
  - rewrite lookup_app_r by lia.
    rewrite lookup_app_r by (rewrite length_replicate; lia).
    rewrite length_replicate.
    now replace (index - length l - (index - length l))%nat with 0%nat by lia.
Qed.

Lemma cell_array_set_ne (index j : nat) (x : string) (l : list string) :
  index <> j ->
  OTPInput.cell (OTPInput.array_set index x l) j = OTPInput.cell l j.
Proof.
  intros Hne. unfold OTPInput.cell, OTPInput.array_set.
  destruct (Nat.ltb_spec index (length l)).
  - now rewrite list_lookup_insert_ne.
  - destruct (Nat.lt_ge_cases j (length l)).
    + now rewrite lookup_app_l.
    + rewrite (lookup_ge_None_2 l j) by lia.
      rewrite lookup_app_r by lia.
      destruct (Nat.lt_ge_cases j index).
      * rewrite lookup_app_l by (rewrite length_replicate; lia).
        rewrite lookup_replicate_2 by lia. reflexivity.
      * rewrite lookup_app_r by (rewrite length_replicate; lia).
        rewrite length_replicate.
        rewrite lookup_ge_None_2; [reflexivity | simpl; lia].
Qed.

Lemma strip_non_digits_app (a b : string) :
  OTPInput.strip_non_digits (a ++ b)
  = OTPInput.strip_non_digits a ++ OTPInput.strip_non_digits b.
Proof.
  induction a as [|c a IH]; simpl; [reflexivity|].
  destruct (JSString.is_digit c); simpl; now rewrite IH.
Qed.

Lemma strip_non_digits_none (s : string) :
  Forall (fun c => JSString.is_digit c = false) (list_ascii_of_string s) ->
  OTPInput.strip_non_digits s = "".
Proof.
  induction s as [|c s IH]; simpl; [reflexivity|].
  intros H. inversion H as [|? ? Hc Hs]; subst. rewrite Hc. auto.
Qed.

Lemma slice_last_snoc (s : string) (d : ascii) :
  OTPInput.slice_last (s ++ String d "") = String d "".
Proof.
  induction s as [|c s IH]; [reflexivity|].
  simpl. rewrite IH.
  destruct s; reflexivity.
Qed.

(** X22.  [handleChange] keeps of the text it is given the last digit
    only: for a text whose last digit is [d], whatever comes before it
    and whatever non-digits come after, the cell holds [d], the other
    cells are as they were, and the focus moves to the next cell unless
    the cell is the last one; for a text without a digit the cell is
    emptied and the focus stays. *)
Theorem handleChange_keeps_the_last_digit
    (n index : nat) (digits : list string) (before after : string)
    (d : ascii) :
  JSString.is_digit d = true ->
  Forall (fun c => JSString.is_digit c = false) (list_ascii_of_string after) ->
  let r := OTPInput.handleChange n (before ++ String d after) index digits in
  let e := OTPInput.handleChange n after index digits in
  OTPInput.cell (fst r) index = String d "" /\
  (forall j, j <> index ->
     OTPInput.cell (fst r) j = OTPInput.cell digits j /\
     OTPInput.cell (fst e) j = OTPInput.cell digits j) /\
  snd r = (if (index + 1 <? n)%nat then Some (index + 1)%nat else None) /\
  OTPInput.cell (fst e) index = "" /\
  snd e = None.
Proof.
  intros Hd Ha r e.
  assert (Hr : OTPInput.slice_last
                 (OTPInput.strip_non_digits (before ++ String d after))
               = String d "").
  { rewrite strip_non_digits_app. simpl. rewrite Hd.
    rewrite (strip_non_digits_none after Ha). apply slice_last_snoc. }
  assert (He : OTPInput.slice_last (OTPInput.strip_non_digits after) = "")
    by now rewrite (strip_non_digits_none after Ha).
  subst r e. unfold OTPInput.handleChange. cbn [fst snd]. rewrite Hr, He.
  refine (conj _ (conj _ (conj _ (conj _ _)))).
  - apply cell_array_set.
  - intros j Hj. split; apply cell_array_set_ne; congruence.
  - reflexivity.
  - apply cell_array_set.
  - reflexivity.
Qed.

Lemma handleChange_keeps_the_last_digit_witness :
  let r := OTPInput.handleChange 6 "12a3b " 5 (replicate 6 "") in
  OTPInput.cell (fst r) 5 = "3" /\ snd r = None.
Proof.
  destruct (handleChange_keeps_the_last_digit 6 5 (replicate 6 "")
              "12a" "b " "3" eq_refl ltac:(repeat constructor))
    as (H1 & _ & H2 & _).
  exact (conj H1 H2).
Defined.

(** X23.  Typing a digit into an empty cell and pressing Backspace there
    gives back the digits there were; a second Backspace, the cell being
    empty again, empties the cell before it and moves the focus there,
    and in the first cell does nothing.  Any other key changes
    nothing. *)
Theorem backspace_undoes_a_digit
    (n index : nat) (digits : list string) (d : ascii) :
  JSString.is_digit d = true ->
  (index < length digits)%nat ->
  OTPInput.cell digits index = "" ->
  let typed := fst (OTPInput.handleChange n (String d "") index digits) in
  OTPInput.handleKeyPress "Backspace" index typed = (digits, None) /\
  OTPInput.handleKeyPress "Backspace" index digits
    = (if (0 <? index)%nat
       then (<[(index - 1)%nat := ""]> digits, Some (index - 1)%nat)
       else (digits, None)) /\
  forall key, key <> "Backspace" ->
    OTPInput.handleKeyPress key index typed = (typed, None).
Proof.
  intros Hd Hi Hc typed.
  assert (Ht : typed = <[index := String d ""]> digits).
  { subst typed. unfold OTPInput.handleChange. cbn [fst].
    simpl OTPInput.strip_non_digits. rewrite Hd. simpl OTPInput.slice_last.
    unfold OTPInput.array_set.
    now destruct (Nat.ltb_spec index (length digits)); [|lia]. }
  assert (Hl : digits !! index = Some "").
  { unfold OTPInput.cell in Hc.
    destruct (digits !! index) as [x|] eqn:E; [simpl in Hc; now subst|].
    apply lookup_ge_None in E. lia. }
  refine (conj _ (conj _ _)).
  - unfold OTPInput.handleKeyPress. cbn [String.eqb Ascii.eqb].
    change ("Backspace" =? "Backspace")%string with true. cbv iota.
    rewrite Ht. unfold OTPInput.cell.
    rewrite list_lookup_insert_eq by exact Hi. cbn [default from_option id].
    cbn [String.eqb negb]. unfold OTPInput.array_set.
    rewrite length_insert.
    destruct (Nat.ltb_spec index (length digits)); [|lia].
    rewrite list_insert_insert_eq. now rewrite list_insert_id.
  - unfold OTPInput.handleKeyPress.
    change ("Backspace" =? "Backspace")%string with true. cbv iota.
    rewrite Hc. cbn [String.eqb negb].
    destruct (Nat.ltb_spec 0 index); [|reflexivity].
    unfold OTPInput.array_set.
    now destruct (Nat.ltb_spec (index - 1) (length digits)); [|lia].
  - intros key Hk. unfold OTPInput.handleKeyPress.
    destruct (String.eqb_spec key "Backspace"); [contradiction | reflexivity].
Qed.

Lemma backspace_undoes_a_digit_witness :
  OTPInput.handleKeyPress "Backspace" 2
    (fst (OTPInput.handleChange 6 "7" 2 ["1"; "2"; ""; ""; ""; ""]))
  = (["1"; "2"; ""; ""; ""; ""], None).
Proof.
  exact (proj1 (backspace_undoes_a_digit 6 2 ["1"; "2"; ""; ""; ""; ""] "7"
                  eq_refl ltac:(simpl; lia) eq_refl)).
Defined.








(* ===================================================================== *)
(** ** The script that clears rate-limit data *)
(* ===================================================================== *)

Lemma multiRemove_lookup (keys : list string) (m : gmap string string)
    (k : string) :
  (In k keys -> multiRemove keys m !! k = None) /\
  (~ In k keys -> multiRemove keys m !! k = m !! k).
Proof.
  unfold multiRemove. induction keys as [|a keys [IH1 IH2]]; simpl.
  - split; [intros [] | reflexivity].
  - destruct (decide (a = k)) as [->|Hne].
    + split; [intros _; apply lookup_delete_eq | intros H; tauto].
    + rewrite lookup_delete_ne by exact Hne. split; [|tauto].
      intros [H|H]; [contradiction | auto].
Qed.

Lemma In_keys (m : gmap string string) (k : string) :
  In k (map fst (map_to_list m)) <-> is_Some (m !! k).
Proof.
  rewrite in_map_iff. split.
  - intros ([k' x] & <- & H). apply list_elem_of_In, elem_of_map_to_list in H.
    simpl. eauto.
  - intros [x H]. exists (k, x). split; [reflexivity|].
    now apply list_elem_of_In, elem_of_map_to_list.
Qed.

Section ClearAllRateLimits.
Context `{J : JSON RateLimitData}.

(** X26.  The script removes the record of every action and nothing
    else: when the storage lets it list and remove keys, afterwards
    exactly the keys that contain [rate_limit_data] are gone, so that the
    pending verification stays and the next check of any action starts a
    fresh window; when the storage rejects either operation, the storage
    is left as it was. *)
Theorem clearAllRateLimits_removes_the_guard_records_only
    (f : BulkFaults) (m : gmap string string) :
  let m' := fst (clearAllRateLimits f m) in
  m' !! OTP_STORAGE_KEY = m !! OTP_STORAGE_KEY /\
  (is_Some (getAllKeys_fault f) \/ is_Some (multiRemove_fault f) ->
     m' = m /\
     (is_Some (getAllKeys_fault f) ->
        snd (clearAllRateLimits f m)
        = [console_error "Error clearing rate limits:"])) /\
  (getAllKeys_fault f = None -> multiRemove_fault f = None ->
     (forall key,
        m' !! key = if JSString.includes key "rate_limit_data" then None
                    else m !! key) /\
     (forall action, m' !! rate_limit_key action = None) /\
     (forall (env : Env) (action : string) (w : World),
        storage_up env -> storage w = m' ->
        value_of (run env (checkRateLimit action) w)
        = Ok {| allowed := true; waitTime := None |})).
Proof.
  intros m'.
  assert (Hall : getAllKeys_fault f = None -> multiRemove_fault f = None ->
            forall key,
              m' !! key = if JSString.includes key "rate_limit_data" then None
                          else m !! key).
  { intros Hg Hr key. subst m'. unfold clearAllRateLimits. rewrite Hg, Hr.
    set (keys := List.filter _ _).
    assert (Hin : In key keys <->
                  JSString.includes key "rate_limit_data" = true /\
                  is_Some (m !! key)).
    { subst keys. rewrite filter_In, In_keys. tauto. }
    destruct (Nat.ltb_spec 0 (length keys)) as [Hlen | Hlen]; cbn [fst].
    - destruct (multiRemove_lookup keys m key) as [H1 H2].
      destruct (JSString.includes key "rate_limit_data") eqn:Hi.
      + destruct (m !! key) as [x|] eqn:Hx.
        * apply H1, Hin. eauto.
        * rewrite H2; [reflexivity|]. intros H. apply Hin in H.
          destruct H as [_ [? [=]]].
      + apply H2. intros H. apply Hin in H. destruct H as [[=] _].
    - destruct keys as [|a keys']; [|simpl in Hlen; lia].
      destruct (JSString.includes key "rate_limit_data") eqn:Hi;
        [|reflexivity].
      destruct (m !! key) as [x|] eqn:Hx; [|reflexivity].
      exfalso. apply (proj2 Hin). eauto. }
  refine (conj _ (conj _ _)).
  - subst m'. unfold clearAllRateLimits.
    destruct (getAllKeys_fault f) eqn:Hg; [reflexivity|].
    destruct (0 <? _)%nat; [|reflexivity].
    destruct (multiRemove_fault f) eqn:Hr; [reflexivity|]. cbn [fst].
    apply multiRemove_lookup. rewrite filter_In, otp_key_excludes.
    intros [_ [=]].
  - intros Hf. subst m'. unfold clearAllRateLimits.
    destruct (getAllKeys_fault f) eqn:Hg; [now split|].
    destruct Hf as [[? [=]] | [e He]]. rewrite He.
    split; [|intros [? [=]]].
    now destruct (0 <? _)%nat.
  - intros Hg Hr. specialize (Hall Hg Hr).
    assert (Hact : forall action, m' !! rate_limit_key action = None).
    { intros action. rewrite Hall. now rewrite rate_limit_key_includes. }
    refine (conj Hall (conj Hact _)).
    intros env action w Hup Hw.
    rewrite run_check_absent; [reflexivity | exact Hup |].
    now rewrite Hw, Hact.
Qed.

End ClearAllRateLimits.

Lemma clearAllRateLimits_removes_the_guard_records_only_witness :
  let f := {| getAllKeys_fault := None; multiRemove_fault := None |} in
  let m' := fst (clearAllRateLimits f (storage Sample.resend_blocked)) in
  m' !! rate_limit_key "otp_resend" = None /\
  m' !! OTP_STORAGE_KEY = Some Sample.pending_registration /\
  value_of (run (Sample.offline 3000) (checkRateLimit "otp_resend")
              (set_storage m' Sample.resend_blocked))
  = Ok {| allowed := true; waitTime := None |}.
Proof.
  intros f m'.
  destruct (clearAllRateLimits_removes_the_guard_records_only f
              (storage Sample.resend_blocked)) as (H1 & _ & H2).
  destruct (H2 eq_refl eq_refl) as (_ & H3 & H4).
  refine (conj (H3 "otp_resend") (conj _ _)).
  - fold m' in H1. rewrite H1. unfold Sample.resend_blocked. cbn [storage].
    rewrite lookup_insert_ne by apply rate_limit_key_not_otp.
    apply lookup_singleton_eq.
  - apply (H4 (Sample.offline 3000) "otp_resend"
             (set_storage m' Sample.resend_blocked));
      [apply storage_up_offline | reflexivity].
Defined.

(* ===================================================================== *)
(** ** The guard and the verification keep apart *)
(* ===================================================================== *)

(** The only thing a verification does to the storage is to remove the
    pending verification. *)
Lemma handleVerify_storage (env : Env) (w : World) (otp : string) :
  let o := run env (handleVerify (screen w) otp) w in
  storage (world_of o) = storage w \/
  storage (world_of o) = delete OTP_STORAGE_KEY (storage w).
Proof.
  destruct (verifying (screen w)) eqn:Hv.
  { rewrite handleVerify_in_progress by assumption. now left. }
  destruct (isValidOTP otp) eqn:Hf.
  2:{ rewrite handleVerify_bad_format by assumption. now left. }
  unfold handleVerify. rewrite Hv, Hf. run_cases.
  all: cbn.
  all: first [left; reflexivity | right; reflexivity].
Qed.

Section Apart.
Context `{J : JSON RateLimitData}.
Context {any : Type}.
Variable parse : string -> result (OTPData.t any).

(** X27.  The guard and the verification do not meet.  A check, of
    whatever action, leaves the screen and the pending verification as
    they were, so that [getOTPData()] resolves to what it did before; and
    a verification attempt, whatever its outcome, leaves the record of
    every action as it was, so that a check resolves to what it would
    have resolved to without the attempt: attempts are not counted by
    the guard. *)
Theorem guard_and_verification_are_apart
    (env env' : Env) (action otp : string) (w : World) :
  let c := run env (checkRateLimit action) w in
  let v := run env (handleVerify (screen w) otp) w in
  screen (world_of c) = screen w /\
  storage (world_of c) !! OTP_STORAGE_KEY = storage w !! OTP_STORAGE_KEY /\
  value_of (run env' (getOTPData parse) (world_of c))
    = value_of (run env' (getOTPData parse) w) /\
  storage (world_of v) !! rate_limit_key action
    = storage w !! rate_limit_key action /\
  value_of (run env' (checkRateLimit action) (world_of v))
    = value_of (run env' (checkRateLimit action) w).
Proof.
  intros c v.
  assert (Hc : screen (world_of c) = screen w /\
               storage (world_of c) !! OTP_STORAGE_KEY
               = storage w !! OTP_STORAGE_KEY).
  { subst c. destruct (run_check_world env action w) as [-> | (r' & -> & _)];
      [now split|].
    split; [reflexivity|]. apply lookup_write_ne, rate_limit_key_not_otp. }
  assert (Hv : storage (world_of v) !! rate_limit_key action
               = storage w !! rate_limit_key action).
  { subst v. destruct (handleVerify_storage env w otp) as [-> | ->];
      [reflexivity|].
    apply lookup_delete_ne. intros E. symmetry in E.
    now apply rate_limit_key_not_otp in E. }
  destruct Hc as [Hc1 Hc2].
  refine (conj Hc1 (conj Hc2 (conj _ (conj Hv _)))).
  - rewrite !run_getOTPData, Hc2.
    destruct (getItem_fault env' OTP_STORAGE_KEY); [reflexivity|].
    destruct (truthy _); [|reflexivity].
    destruct (parse _); reflexivity.
  - now apply check_value_local.
Qed.

End Apart.

(* ===================================================================== *)
(** ** The screen that asks for a reset *)
(* ===================================================================== *)

(** X28.  [handleResetPassword] never rejects and shows exactly one
    alert.  Without an address it asks for one and does nothing else.
    With an address it asks the remote service for a reset of that
    address, once, between raising and lowering the loading flag; it
    consults no rate-limit record and stores no pending verification:
    the storage is left as it was.  An error of the service is shown with
    the text of the service, a text about rate limiting like any
    other. *)
Theorem handleResetPassword_asks_once (env : Env) (email : string) (w : World) :
  let o := run env (handleResetPassword email) w in
  value_of o = Ok tt /\
  count is_alert (trace_of o) = 1%nat /\
  count is_storage (trace_of o) = 0%nat /\
  storage (world_of o) = storage w /\
  (email = "" ->
     o = (Ok tt, w, [Alert_alert "Error" "Please enter your email address"])) /\
  (email <> "" ->
     List.filter is_remote (trace_of o) = [auth_resetPasswordForEmail email] /\
     [setLoading true] `prefix_of` trace_of o /\
     [setLoading false] `suffix_of` trace_of o /\
     loading (screen (world_of o)) = false /\
     (forall message,
        resetPasswordForEmail env email = Ok (Some message) ->
        In (Alert_alert "Reset Error" message) (trace_of o)) /\
     (resetPasswordForEmail env email = Ok None ->
        exists body, In (Alert_alert "Reset Link Sent" body) (trace_of o))).
Proof.
  unfold handleResetPassword.
  destruct (String.eqb_spec email "") as [-> | Hne].
  { cbn. refine (conj eq_refl (conj eq_refl (conj eq_refl (conj eq_refl
                   (conj _ _))))); [reflexivity | intros H; contradiction]. }
  run_cases.
  all: cbn.
  all: refine (conj eq_refl (conj eq_refl (conj eq_refl (conj eq_refl
                 (conj _ _))))); [intros H; contradiction | intros _].
  all: refine (conj eq_refl (conj _ (conj _ (conj eq_refl (conj _ _))))).
  all: try solve [starts_with].
  all: try solve [ends_with].
  all: try solve [intros ? [=<-]; is_issued].
  all: try solve [intros ? [=]].
  all: try discriminate.
  all: try solve [intros _; eexists; is_issued].
Qed.

Lemma handleResetPassword_asks_once_witness :
  let env := Sample.remote 1000 (Ok Sample.verified) (Ok Sample.session)
               (Ok (Some "Email rate limit exceeded")) in
  let o := run env (handleResetPassword "a@b.com") Sample.registration in
  List.filter is_remote (trace_of o) = [auth_resetPasswordForEmail "a@b.com"] /\
  loading (screen (world_of o)) = false /\
  In (Alert_alert "Reset Error" "Email rate limit exceeded") (trace_of o).
Proof.
  intros env o.
  destruct (handleResetPassword_asks_once env "a@b.com" Sample.registration)
    as (_ & _ & _ & _ & _ & H).
  destruct (H ltac:(discriminate)) as (H1 & _ & _ & H2 & H3 & _).
  exact (conj H1 (conj H2 (H3 _ eq_refl))).
Defined.
